(** * Grocery Aisle Product Finder: a shallow embedding of the service

    The development follows the layout of the repository:

    - [Unicode]  the code points of a string and what CPython does on them;
    - [Str]      the [str] methods the code calls ([lower], [strip],
                 [startswith], the substring test [in]);
    - [schemas]  app/models/schemas.py: [ProductLocation] and the keyword
                 mapping [_map_label] of the MobileNet classifier;
    - [model]    app/model.py: the placeholder classifier;
    - [vision]   app/services/vision.py: loading, classification, the
                 simulated detections and their drawing;
    - [database] app/services/database.py: the [products] table;
    - [routes]   app/api/routes.py: [_log_request], [/predict], [/api/predict].

    Conventions.  Python exceptions are values of [exn] carried by the error
    monad [exc].  Python [int] is [Z].  Python [float] values are modelled by
    exact rationals [Q]: the code only compares them with literals, scales
    them by constants and rounds them to two decimals.  A Python [str] is
    the [string] of its UTF-8 bytes. *)

From Stdlib Require Import ZArith QArith Qround Lqa String Ascii List Lia Bool.
From stdpp Require Import base option gmap strings pretty sorting.
Import ListNotations.

Open Scope string_scope.
Open Scope list_scope.
Open Scope Z_scope.

(** ** Exceptions *)

Inductive exn : Type :=
| ValueError (msg : string)
| AttributeError
| TypeError
| OSError
| IndexError.

Inductive exc (A : Type) : Type :=
| Ok (a : A)
| Raise (e : exn).
Arguments Ok {A} a.
Arguments Raise {A} e.

Definition exc_bind {A B} (m : exc A) (k : A -> exc B) : exc B :=
  match m with
  | Ok a => k a
  | Raise e => Raise e
  end.

Notation "'let*' x ':=' m 'in' k" := (exc_bind m (fun x => k))
  (at level 10, x pattern, m at level 100, k at level 200).

(** [try: body except Exception: handler].  Every constructor of [exn] is a
    subclass of [Exception]. *)
Definition try_except {A} (body : exc A) (handler : exn -> exc A) : exc A :=
  match body with
  | Ok a => Ok a
  | Raise e => handler e
  end.

Definition returns {A} (m : exc A) : Prop := exists a, m = Ok a.
Definition raises {A} (m : exc A) : Prop := exists e, m = Raise e.

(** ** Stateful code that may raise

    A computation over a state [S] returns a value or raises, and leaves a
    state in both cases: what was written before an exception stays
    written. *)

Definition SE (S A : Type) : Type := S -> exc A * S.

Definition se_ret {S A} (a : A) : SE S A := fun s => (Ok a, s).
Definition se_raise {S A} (e : exn) : SE S A := fun s => (Raise e, s).
Definition se_bind {S A B} (m : SE S A) (k : A -> SE S B) : SE S B :=
  fun s => match m s with
           | (Ok a, s') => k a s'
           | (Raise e, s') => (Raise e, s')
           end.
(** [try: body except Exception: pass] *)
Definition se_try_pass {S} (body : SE S unit) : SE S unit :=
  fun s => match body s with
           | (Ok _, s') => (Ok tt, s')
           | (Raise _, s') => (Ok tt, s')
           end.

(** ** Python's [str]

    A Python string is a sequence of Unicode code points; a [string] here
    holds its UTF-8 encoding, one byte per character, which is also how
    SQLite stores and compares TEXT.  [str.lower] and [str.strip] work on
    the code points: [Unicode] follows CPython's unicodeobject.c and
    unicodectype.c with the tables of CPython 3.11 (Unicode 14.0.0).  A
    string that holds a lone surrogate has no UTF-8 encoding and is left
    out. *)

Module Unicode.

Local Open Scope N_scope.

(** *** UTF-8 *)

Definition continuation (b : N) : bool := (0x80 <=? b) && (b <=? 0xBF).

Definition two_bytes (b1 b2 : N) : bool :=
  (0xC2 <=? b1) && (b1 <=? 0xDF) && continuation b2.

Definition three_bytes (b1 b2 b3 : N) : bool :=
  (((b1 =? 0xE0) && (0xA0 <=? b2) && (b2 <=? 0xBF)) ||
   ((0xE1 <=? b1) && (b1 <=? 0xEC) && continuation b2) ||
   ((b1 =? 0xED) && (0x80 <=? b2) && (b2 <=? 0x9F)) ||
   ((0xEE <=? b1) && (b1 <=? 0xEF) && continuation b2)) &&
  continuation b3.

Definition four_bytes (b1 b2 b3 b4 : N) : bool :=
  (((b1 =? 0xF0) && (0x90 <=? b2) && (b2 <=? 0xBF)) ||
   ((0xF1 <=? b1) && (b1 <=? 0xF3) && continuation b2) ||
   ((b1 =? 0xF4) && (0x80 <=? b2) && (b2 <=? 0x8F))) &&
  continuation b3 && continuation b4.

(** U+FFFD stands for a byte that starts no well-formed sequence; the
    encoding of a Python string has no such byte. *)
Definition replacement : N := 0xFFFD.

(** The code points of a string. *)
Fixpoint utf8_decode (s : string) : list N :=
  match s with
  | EmptyString => []
  | String a1 r1 =>
      let b1 := N_of_ascii a1 in
      if b1 <? 0x80 then b1 :: utf8_decode r1
      else
        match r1 with
        | String a2 r2 =>
            let b2 := N_of_ascii a2 in
            if two_bytes b1 b2
            then ((b1 - 0xC0) * 64 + (b2 - 0x80)) :: utf8_decode r2
            else
              match r2 with
              | String a3 r3 =>
                  let b3 := N_of_ascii a3 in
                  if three_bytes b1 b2 b3
                  then ((b1 - 0xE0) * 4096 + (b2 - 0x80) * 64 + (b3 - 0x80))
                       :: utf8_decode r3
                  else
                    match r3 with
                    | String a4 r4 =>
                        let b4 := N_of_ascii a4 in
                        if four_bytes b1 b2 b3 b4
                        then ((b1 - 0xF0) * 262144 + (b2 - 0x80) * 4096 +
                              (b3 - 0x80) * 64 + (b4 - 0x80)) :: utf8_decode r4
                        else replacement :: utf8_decode r1
                    | EmptyString => replacement :: utf8_decode r1
                    end
              | EmptyString => replacement :: utf8_decode r1
              end
        | EmptyString => replacement :: utf8_decode r1
        end
  end.

Definition encode_codepoint (c : N) : list N :=
  if c <? 0x80 then [c]
  else if c <? 0x800 then [0xC0 + c / 64; 0x80 + c mod 64]
  else if c <? 0x10000 then
    [0xE0 + c / 4096; 0x80 + (c / 64) mod 64; 0x80 + c mod 64]
  else [0xF0 + c / 262144; 0x80 + (c / 4096) mod 64;
        0x80 + (c / 64) mod 64; 0x80 + c mod 64].

Fixpoint string_of_bytes (l : list N) : string :=
  match l with
  | [] => EmptyString
  | b :: r => String (ascii_of_N b) (string_of_bytes r)
  end.

(** The string of a list of code points. *)
Fixpoint utf8_encode (l : list N) : string :=
  match l with
  | [] => EmptyString
  | c :: r => String.append (string_of_bytes (encode_codepoint c)) (utf8_encode r)
  end.

(** A Unicode scalar value: a code point that is no surrogate. *)
Definition scalar (c : N) : bool :=
  (c <? 0xD800) || ((0xE000 <=? c) && (c <? 0x110000)).

(** *** The character database

    [lowercase_table]: the code points with a one-character lowercase
    mapping other than themselves, with that mapping.  U+0130 is the one
    code point whose lowercase has two characters, see [to_lower_full].
    [whitespace]: the code points [c] with [c.isspace()].
    [case_ignorable_ranges] and [cased_ranges]: the code points with the
    derived properties Case_Ignorable and Cased, as closed intervals. *)

Definition lowercase_table : list (N * N) :=
  [
   (65, 97); (66, 98); (67, 99); (68, 100); (69, 101); (70, 102); (71, 103);
   (72, 104); (73, 105); (74, 106); (75, 107); (76, 108); (77, 109);
   (78, 110); (79, 111); (80, 112); (81, 113); (82, 114); (83, 115);
   (84, 116); (85, 117); (86, 118); (87, 119); (88, 120); (89, 121);
   (90, 122); (192, 224); (193, 225); (194, 226); (195, 227); (196, 228);
   (197, 229); (198, 230); (199, 231); (200, 232); (201, 233); (202, 234);
   (203, 235); (204, 236); (205, 237); (206, 238); (207, 239); (208, 240);
   (209, 241); (210, 242); (211, 243); (212, 244); (213, 245); (214, 246);
   (216, 248); (217, 249); (218, 250); (219, 251); (220, 252); (221, 253);
   (222, 254); (256, 257); (258, 259); (260, 261); (262, 263); (264, 265);
   (266, 267); (268, 269); (270, 271); (272, 273); (274, 275); (276, 277);
   (278, 279); (280, 281); (282, 283); (284, 285); (286, 287); (288, 289);
   (290, 291); (292, 293); (294, 295); (296, 297); (298, 299); (300, 301);
   (302, 303); (306, 307); (308, 309); (310, 311); (313, 314); (315, 316);
   (317, 318); (319, 320); (321, 322); (323, 324); (325, 326); (327, 328);
   (330, 331); (332, 333); (334, 335); (336, 337); (338, 339); (340, 341);
   (342, 343); (344, 345); (346, 347); (348, 349); (350, 351); (352, 353);
   (354, 355); (356, 357); (358, 359); (360, 361); (362, 363); (364, 365);
   (366, 367); (368, 369); (370, 371); (372, 373); (374, 375); (376, 255);
   (377, 378); (379, 380); (381, 382); (385, 595); (386, 387); (388, 389);
   (390, 596); (391, 392); (393, 598); (394, 599); (395, 396); (398, 477);
   (399, 601); (400, 603); (401, 402); (403, 608); (404, 611); (406, 617);
   (407, 616); (408, 409); (412, 623); (413, 626); (415, 629); (416, 417);
   (418, 419); (420, 421); (422, 640); (423, 424); (425, 643); (428, 429);
   (430, 648); (431, 432); (433, 650); (434, 651); (435, 436); (437, 438);
   (439, 658); (440, 441); (444, 445); (452, 454); (453, 454); (455, 457);
   (456, 457); (458, 460); (459, 460); (461, 462); (463, 464); (465, 466);
   (467, 468); (469, 470); (471, 472); (473, 474); (475, 476); (478, 479);
   (480, 481); (482, 483); (484, 485); (486, 487); (488, 489); (490, 491);
   (492, 493); (494, 495); (497, 499); (498, 499); (500, 501); (502, 405);
   (503, 447); (504, 505); (506, 507); (508, 509); (510, 511); (512, 513);
   (514, 515); (516, 517); (518, 519); (520, 521); (522, 523); (524, 525);
   (526, 527); (528, 529); (530, 531); (532, 533); (534, 535); (536, 537);
   (538, 539); (540, 541); (542, 543); (544, 414); (546, 547); (548, 549);
   (550, 551); (552, 553); (554, 555); (556, 557); (558, 559); (560, 561);
   (562, 563); (570, 11365); (571, 572); (573, 410); (574, 11366);
   (577, 578); (579, 384); (580, 649); (581, 652); (582, 583); (584, 585);
   (586, 587); (588, 589); (590, 591); (880, 881); (882, 883); (886, 887);
   (895, 1011); (902, 940); (904, 941); (905, 942); (906, 943); (908, 972);
   (910, 973); (911, 974); (913, 945); (914, 946); (915, 947); (916, 948);
   (917, 949); (918, 950); (919, 951); (920, 952); (921, 953); (922, 954);
   (923, 955); (924, 956); (925, 957); (926, 958); (927, 959); (928, 960);
   (929, 961); (931, 963); (932, 964); (933, 965); (934, 966); (935, 967);
   (936, 968); (937, 969); (938, 970); (939, 971); (975, 983); (984, 985);
   (986, 987); (988, 989); (990, 991); (992, 993); (994, 995); (996, 997);
   (998, 999); (1000, 1001); (1002, 1003); (1004, 1005); (1006, 1007);
   (1012, 952); (1015, 1016); (1017, 1010); (1018, 1019); (1021, 891);
   (1022, 892); (1023, 893); (1024, 1104); (1025, 1105); (1026, 1106);
   (1027, 1107); (1028, 1108); (1029, 1109); (1030, 1110); (1031, 1111);
   (1032, 1112); (1033, 1113); (1034, 1114); (1035, 1115); (1036, 1116);
   (1037, 1117); (1038, 1118); (1039, 1119); (1040, 1072); (1041, 1073);
   (1042, 1074); (1043, 1075); (1044, 1076); (1045, 1077); (1046, 1078);
   (1047, 1079); (1048, 1080); (1049, 1081); (1050, 1082); (1051, 1083);
   (1052, 1084); (1053, 1085); (1054, 1086); (1055, 1087); (1056, 1088);
   (1057, 1089); (1058, 1090); (1059, 1091); (1060, 1092); (1061, 1093);
   (1062, 1094); (1063, 1095); (1064, 1096); (1065, 1097); (1066, 1098);
   (1067, 1099); (1068, 1100); (1069, 1101); (1070, 1102); (1071, 1103);
   (1120, 1121); (1122, 1123); (1124, 1125); (1126, 1127); (1128, 1129);
   (1130, 1131); (1132, 1133); (1134, 1135); (1136, 1137); (1138, 1139);
   (1140, 1141); (1142, 1143); (1144, 1145); (1146, 1147); (1148, 1149);
   (1150, 1151); (1152, 1153); (1162, 1163); (1164, 1165); (1166, 1167);
   (1168, 1169); (1170, 1171); (1172, 1173); (1174, 1175); (1176, 1177);
   (1178, 1179); (1180, 1181); (1182, 1183); (1184, 1185); (1186, 1187);
   (1188, 1189); (1190, 1191); (1192, 1193); (1194, 1195); (1196, 1197);
   (1198, 1199); (1200, 1201); (1202, 1203); (1204, 1205); (1206, 1207);
   (1208, 1209); (1210, 1211); (1212, 1213); (1214, 1215); (1216, 1231);
   (1217, 1218); (1219, 1220); (1221, 1222); (1223, 1224); (1225, 1226);
   (1227, 1228); (1229, 1230); (1232, 1233); (1234, 1235); (1236, 1237);
   (1238, 1239); (1240, 1241); (1242, 1243); (1244, 1245); (1246, 1247);
   (1248, 1249); (1250, 1251); (1252, 1253); (1254, 1255); (1256, 1257);
   (1258, 1259); (1260, 1261); (1262, 1263); (1264, 1265); (1266, 1267);
   (1268, 1269); (1270, 1271); (1272, 1273); (1274, 1275); (1276, 1277);
   (1278, 1279); (1280, 1281); (1282, 1283); (1284, 1285); (1286, 1287);
   (1288, 1289); (1290, 1291); (1292, 1293); (1294, 1295); (1296, 1297);
   (1298, 1299); (1300, 1301); (1302, 1303); (1304, 1305); (1306, 1307);
   (1308, 1309); (1310, 1311); (1312, 1313); (1314, 1315); (1316, 1317);
   (1318, 1319); (1320, 1321); (1322, 1323); (1324, 1325); (1326, 1327);
   (1329, 1377); (1330, 1378); (1331, 1379); (1332, 1380); (1333, 1381);
   (1334, 1382); (1335, 1383); (1336, 1384); (1337, 1385); (1338, 1386);
   (1339, 1387); (1340, 1388); (1341, 1389); (1342, 1390); (1343, 1391);
   (1344, 1392); (1345, 1393); (1346, 1394); (1347, 1395); (1348, 1396);
   (1349, 1397); (1350, 1398); (1351, 1399); (1352, 1400); (1353, 1401);
   (1354, 1402); (1355, 1403); (1356, 1404); (1357, 1405); (1358, 1406);
   (1359, 1407); (1360, 1408); (1361, 1409); (1362, 1410); (1363, 1411);
   (1364, 1412); (1365, 1413); (1366, 1414); (4256, 11520); (4257, 11521);
   (4258, 11522); (4259, 11523); (4260, 11524); (4261, 11525);
   (4262, 11526); (4263, 11527); (4264, 11528); (4265, 11529);
   (4266, 11530); (4267, 11531); (4268, 11532); (4269, 11533);
   (4270, 11534); (4271, 11535); (4272, 11536); (4273, 11537);
   (4274, 11538); (4275, 11539); (4276, 11540); (4277, 11541);
   (4278, 11542); (4279, 11543); (4280, 11544); (4281, 11545);
   (4282, 11546); (4283, 11547); (4284, 11548); (4285, 11549);
   (4286, 11550); (4287, 11551); (4288, 11552); (4289, 11553);
   (4290, 11554); (4291, 11555); (4292, 11556); (4293, 11557);
   (4295, 11559); (4301, 11565); (5024, 43888); (5025, 43889);
   (5026, 43890); (5027, 43891); (5028, 43892); (5029, 43893);
   (5030, 43894); (5031, 43895); (5032, 43896); (5033, 43897);
   (5034, 43898); (5035, 43899); (5036, 43900); (5037, 43901);
   (5038, 43902); (5039, 43903); (5040, 43904); (5041, 43905);
   (5042, 43906); (5043, 43907); (5044, 43908); (5045, 43909);
   (5046, 43910); (5047, 43911); (5048, 43912); (5049, 43913);
   (5050, 43914); (5051, 43915); (5052, 43916); (5053, 43917);
   (5054, 43918); (5055, 43919); (5056, 43920); (5057, 43921);
   (5058, 43922); (5059, 43923); (5060, 43924); (5061, 43925);
   (5062, 43926); (5063, 43927); (5064, 43928); (5065, 43929);
   (5066, 43930); (5067, 43931); (5068, 43932); (5069, 43933);
   (5070, 43934); (5071, 43935); (5072, 43936); (5073, 43937);
   (5074, 43938); (5075, 43939); (5076, 43940); (5077, 43941);
   (5078, 43942); (5079, 43943); (5080, 43944); (5081, 43945);
   (5082, 43946); (5083, 43947); (5084, 43948); (5085, 43949);
   (5086, 43950); (5087, 43951); (5088, 43952); (5089, 43953);
   (5090, 43954); (5091, 43955); (5092, 43956); (5093, 43957);
   (5094, 43958); (5095, 43959); (5096, 43960); (5097, 43961);
   (5098, 43962); (5099, 43963); (5100, 43964); (5101, 43965);
   (5102, 43966); (5103, 43967); (5104, 5112); (5105, 5113); (5106, 5114);
   (5107, 5115); (5108, 5116); (5109, 5117); (7312, 4304); (7313, 4305);
   (7314, 4306); (7315, 4307); (7316, 4308); (7317, 4309); (7318, 4310);
   (7319, 4311); (7320, 4312); (7321, 4313); (7322, 4314); (7323, 4315);
   (7324, 4316); (7325, 4317); (7326, 4318); (7327, 4319); (7328, 4320);
   (7329, 4321); (7330, 4322); (7331, 4323); (7332, 4324); (7333, 4325);
   (7334, 4326); (7335, 4327); (7336, 4328); (7337, 4329); (7338, 4330);
   (7339, 4331); (7340, 4332); (7341, 4333); (7342, 4334); (7343, 4335);
   (7344, 4336); (7345, 4337); (7346, 4338); (7347, 4339); (7348, 4340);
   (7349, 4341); (7350, 4342); (7351, 4343); (7352, 4344); (7353, 4345);
   (7354, 4346); (7357, 4349); (7358, 4350); (7359, 4351); (7680, 7681);
   (7682, 7683); (7684, 7685); (7686, 7687); (7688, 7689); (7690, 7691);
   (7692, 7693); (7694, 7695); (7696, 7697); (7698, 7699); (7700, 7701);
   (7702, 7703); (7704, 7705); (7706, 7707); (7708, 7709); (7710, 7711);
   (7712, 7713); (7714, 7715); (7716, 7717); (7718, 7719); (7720, 7721);
   (7722, 7723); (7724, 7725); (7726, 7727); (7728, 7729); (7730, 7731);
   (7732, 7733); (7734, 7735); (7736, 7737); (7738, 7739); (7740, 7741);
   (7742, 7743); (7744, 7745); (7746, 7747); (7748, 7749); (7750, 7751);
   (7752, 7753); (7754, 7755); (7756, 7757); (7758, 7759); (7760, 7761);
   (7762, 7763); (7764, 7765); (7766, 7767); (7768, 7769); (7770, 7771);
   (7772, 7773); (7774, 7775); (7776, 7777); (7778, 7779); (7780, 7781);
   (7782, 7783); (7784, 7785); (7786, 7787); (7788, 7789); (7790, 7791);
   (7792, 7793); (7794, 7795); (7796, 7797); (7798, 7799); (7800, 7801);
   (7802, 7803); (7804, 7805); (7806, 7807); (7808, 7809); (7810, 7811);
   (7812, 7813); (7814, 7815); (7816, 7817); (7818, 7819); (7820, 7821);
   (7822, 7823); (7824, 7825); (7826, 7827); (7828, 7829); (7838, 223);
   (7840, 7841); (7842, 7843); (7844, 7845); (7846, 7847); (7848, 7849);
   (7850, 7851); (7852, 7853); (7854, 7855); (7856, 7857); (7858, 7859);
   (7860, 7861); (7862, 7863); (7864, 7865); (7866, 7867); (7868, 7869);
   (7870, 7871); (7872, 7873); (7874, 7875); (7876, 7877); (7878, 7879);
   (7880, 7881); (7882, 7883); (7884, 7885); (7886, 7887); (7888, 7889);
   (7890, 7891); (7892, 7893); (7894, 7895); (7896, 7897); (7898, 7899);
   (7900, 7901); (7902, 7903); (7904, 7905); (7906, 7907); (7908, 7909);
   (7910, 7911); (7912, 7913); (7914, 7915); (7916, 7917); (7918, 7919);
   (7920, 7921); (7922, 7923); (7924, 7925); (7926, 7927); (7928, 7929);
   (7930, 7931); (7932, 7933); (7934, 7935); (7944, 7936); (7945, 7937);
   (7946, 7938); (7947, 7939); (7948, 7940); (7949, 7941); (7950, 7942);
   (7951, 7943); (7960, 7952); (7961, 7953); (7962, 7954); (7963, 7955);
   (7964, 7956); (7965, 7957); (7976, 7968); (7977, 7969); (7978, 7970);
   (7979, 7971); (7980, 7972); (7981, 7973); (7982, 7974); (7983, 7975);
   (7992, 7984); (7993, 7985); (7994, 7986); (7995, 7987); (7996, 7988);
   (7997, 7989); (7998, 7990); (7999, 7991); (8008, 8000); (8009, 8001);
   (8010, 8002); (8011, 8003); (8012, 8004); (8013, 8005); (8025, 8017);
   (8027, 8019); (8029, 8021); (8031, 8023); (8040, 8032); (8041, 8033);
   (8042, 8034); (8043, 8035); (8044, 8036); (8045, 8037); (8046, 8038);
   (8047, 8039); (8072, 8064); (8073, 8065); (8074, 8066); (8075, 8067);
   (8076, 8068); (8077, 8069); (8078, 8070); (8079, 8071); (8088, 8080);
   (8089, 8081); (8090, 8082); (8091, 8083); (8092, 8084); (8093, 8085);
   (8094, 8086); (8095, 8087); (8104, 8096); (8105, 8097); (8106, 8098);
   (8107, 8099); (8108, 8100); (8109, 8101); (8110, 8102); (8111, 8103);
   (8120, 8112); (8121, 8113); (8122, 8048); (8123, 8049); (8124, 8115);
   (8136, 8050); (8137, 8051); (8138, 8052); (8139, 8053); (8140, 8131);
   (8152, 8144); (8153, 8145); (8154, 8054); (8155, 8055); (8168, 8160);
   (8169, 8161); (8170, 8058); (8171, 8059); (8172, 8165); (8184, 8056);
   (8185, 8057); (8186, 8060); (8187, 8061); (8188, 8179); (8486, 969);
   (8490, 107); (8491, 229); (8498, 8526); (8544, 8560); (8545, 8561);
   (8546, 8562); (8547, 8563); (8548, 8564); (8549, 8565); (8550, 8566);
   (8551, 8567); (8552, 8568); (8553, 8569); (8554, 8570); (8555, 8571);
   (8556, 8572); (8557, 8573); (8558, 8574); (8559, 8575); (8579, 8580);
   (9398, 9424); (9399, 9425); (9400, 9426); (9401, 9427); (9402, 9428);
   (9403, 9429); (9404, 9430); (9405, 9431); (9406, 9432); (9407, 9433);
   (9408, 9434); (9409, 9435); (9410, 9436); (9411, 9437); (9412, 9438);
   (9413, 9439); (9414, 9440); (9415, 9441); (9416, 9442); (9417, 9443);
   (9418, 9444); (9419, 9445); (9420, 9446); (9421, 9447); (9422, 9448);
   (9423, 9449); (11264, 11312); (11265, 11313); (11266, 11314);
   (11267, 11315); (11268, 11316); (11269, 11317); (11270, 11318);
   (11271, 11319); (11272, 11320); (11273, 11321); (11274, 11322);
   (11275, 11323); (11276, 11324); (11277, 11325); (11278, 11326);
   (11279, 11327); (11280, 11328); (11281, 11329); (11282, 11330);
   (11283, 11331); (11284, 11332); (11285, 11333); (11286, 11334);
   (11287, 11335); (11288, 11336); (11289, 11337); (11290, 11338);
   (11291, 11339); (11292, 11340); (11293, 11341); (11294, 11342);
   (11295, 11343); (11296, 11344); (11297, 11345); (11298, 11346);
   (11299, 11347); (11300, 11348); (11301, 11349); (11302, 11350);
   (11303, 11351); (11304, 11352); (11305, 11353); (11306, 11354);
   (11307, 11355); (11308, 11356); (11309, 11357); (11310, 11358);
   (11311, 11359); (11360, 11361); (11362, 619); (11363, 7549);
   (11364, 637); (11367, 11368); (11369, 11370); (11371, 11372);
   (11373, 593); (11374, 625); (11375, 592); (11376, 594); (11378, 11379);
   (11381, 11382); (11390, 575); (11391, 576); (11392, 11393);
   (11394, 11395); (11396, 11397); (11398, 11399); (11400, 11401);
   (11402, 11403); (11404, 11405); (11406, 11407); (11408, 11409);
   (11410, 11411); (11412, 11413); (11414, 11415); (11416, 11417);
   (11418, 11419); (11420, 11421); (11422, 11423); (11424, 11425);
   (11426, 11427); (11428, 11429); (11430, 11431); (11432, 11433);
   (11434, 11435); (11436, 11437); (11438, 11439); (11440, 11441);
   (11442, 11443); (11444, 11445); (11446, 11447); (11448, 11449);
   (11450, 11451); (11452, 11453); (11454, 11455); (11456, 11457);
   (11458, 11459); (11460, 11461); (11462, 11463); (11464, 11465);
   (11466, 11467); (11468, 11469); (11470, 11471); (11472, 11473);
   (11474, 11475); (11476, 11477); (11478, 11479); (11480, 11481);
   (11482, 11483); (11484, 11485); (11486, 11487); (11488, 11489);
   (11490, 11491); (11499, 11500); (11501, 11502); (11506, 11507);
   (42560, 42561); (42562, 42563); (42564, 42565); (42566, 42567);
   (42568, 42569); (42570, 42571); (42572, 42573); (42574, 42575);
   (42576, 42577); (42578, 42579); (42580, 42581); (42582, 42583);
   (42584, 42585); (42586, 42587); (42588, 42589); (42590, 42591);
   (42592, 42593); (42594, 42595); (42596, 42597); (42598, 42599);
   (42600, 42601); (42602, 42603); (42604, 42605); (42624, 42625);
   (42626, 42627); (42628, 42629); (42630, 42631); (42632, 42633);
   (42634, 42635); (42636, 42637); (42638, 42639); (42640, 42641);
   (42642, 42643); (42644, 42645); (42646, 42647); (42648, 42649);
   (42650, 42651); (42786, 42787); (42788, 42789); (42790, 42791);
   (42792, 42793); (42794, 42795); (42796, 42797); (42798, 42799);
   (42802, 42803); (42804, 42805); (42806, 42807); (42808, 42809);
   (42810, 42811); (42812, 42813); (42814, 42815); (42816, 42817);
   (42818, 42819); (42820, 42821); (42822, 42823); (42824, 42825);
   (42826, 42827); (42828, 42829); (42830, 42831); (42832, 42833);
   (42834, 42835); (42836, 42837); (42838, 42839); (42840, 42841);
   (42842, 42843); (42844, 42845); (42846, 42847); (42848, 42849);
   (42850, 42851); (42852, 42853); (42854, 42855); (42856, 42857);
   (42858, 42859); (42860, 42861); (42862, 42863); (42873, 42874);
   (42875, 42876); (42877, 7545); (42878, 42879); (42880, 42881);
   (42882, 42883); (42884, 42885); (42886, 42887); (42891, 42892);
   (42893, 613); (42896, 42897); (42898, 42899); (42902, 42903);
   (42904, 42905); (42906, 42907); (42908, 42909); (42910, 42911);
   (42912, 42913); (42914, 42915); (42916, 42917); (42918, 42919);
   (42920, 42921); (42922, 614); (42923, 604); (42924, 609); (42925, 620);
   (42926, 618); (42928, 670); (42929, 647); (42930, 669); (42931, 43859);
   (42932, 42933); (42934, 42935); (42936, 42937); (42938, 42939);
   (42940, 42941); (42942, 42943); (42944, 42945); (42946, 42947);
   (42948, 42900); (42949, 642); (42950, 7566); (42951, 42952);
   (42953, 42954); (42960, 42961); (42966, 42967); (42968, 42969);
   (42997, 42998); (65313, 65345); (65314, 65346); (65315, 65347);
   (65316, 65348); (65317, 65349); (65318, 65350); (65319, 65351);
   (65320, 65352); (65321, 65353); (65322, 65354); (65323, 65355);
   (65324, 65356); (65325, 65357); (65326, 65358); (65327, 65359);
   (65328, 65360); (65329, 65361); (65330, 65362); (65331, 65363);
   (65332, 65364); (65333, 65365); (65334, 65366); (65335, 65367);
   (65336, 65368); (65337, 65369); (65338, 65370); (66560, 66600);
   (66561, 66601); (66562, 66602); (66563, 66603); (66564, 66604);
   (66565, 66605); (66566, 66606); (66567, 66607); (66568, 66608);
   (66569, 66609); (66570, 66610); (66571, 66611); (66572, 66612);
   (66573, 66613); (66574, 66614); (66575, 66615); (66576, 66616);
   (66577, 66617); (66578, 66618); (66579, 66619); (66580, 66620);
   (66581, 66621); (66582, 66622); (66583, 66623); (66584, 66624);
   (66585, 66625); (66586, 66626); (66587, 66627); (66588, 66628);
   (66589, 66629); (66590, 66630); (66591, 66631); (66592, 66632);
   (66593, 66633); (66594, 66634); (66595, 66635); (66596, 66636);
   (66597, 66637); (66598, 66638); (66599, 66639); (66736, 66776);
   (66737, 66777); (66738, 66778); (66739, 66779); (66740, 66780);
   (66741, 66781); (66742, 66782); (66743, 66783); (66744, 66784);
   (66745, 66785); (66746, 66786); (66747, 66787); (66748, 66788);
   (66749, 66789); (66750, 66790); (66751, 66791); (66752, 66792);
   (66753, 66793); (66754, 66794); (66755, 66795); (66756, 66796);
   (66757, 66797); (66758, 66798); (66759, 66799); (66760, 66800);
   (66761, 66801); (66762, 66802); (66763, 66803); (66764, 66804);
   (66765, 66805); (66766, 66806); (66767, 66807); (66768, 66808);
   (66769, 66809); (66770, 66810); (66771, 66811); (66928, 66967);
   (66929, 66968); (66930, 66969); (66931, 66970); (66932, 66971);
   (66933, 66972); (66934, 66973); (66935, 66974); (66936, 66975);
   (66937, 66976); (66938, 66977); (66940, 66979); (66941, 66980);
   (66942, 66981); (66943, 66982); (66944, 66983); (66945, 66984);
   (66946, 66985); (66947, 66986); (66948, 66987); (66949, 66988);
   (66950, 66989); (66951, 66990); (66952, 66991); (66953, 66992);
   (66954, 66993); (66956, 66995); (66957, 66996); (66958, 66997);
   (66959, 66998); (66960, 66999); (66961, 67000); (66962, 67001);
   (66964, 67003); (66965, 67004); (68736, 68800); (68737, 68801);
   (68738, 68802); (68739, 68803); (68740, 68804); (68741, 68805);
   (68742, 68806); (68743, 68807); (68744, 68808); (68745, 68809);
   (68746, 68810); (68747, 68811); (68748, 68812); (68749, 68813);
   (68750, 68814); (68751, 68815); (68752, 68816); (68753, 68817);
   (68754, 68818); (68755, 68819); (68756, 68820); (68757, 68821);
   (68758, 68822); (68759, 68823); (68760, 68824); (68761, 68825);
   (68762, 68826); (68763, 68827); (68764, 68828); (68765, 68829);
   (68766, 68830); (68767, 68831); (68768, 68832); (68769, 68833);
   (68770, 68834); (68771, 68835); (68772, 68836); (68773, 68837);
   (68774, 68838); (68775, 68839); (68776, 68840); (68777, 68841);
   (68778, 68842); (68779, 68843); (68780, 68844); (68781, 68845);
   (68782, 68846); (68783, 68847); (68784, 68848); (68785, 68849);
   (68786, 68850); (71840, 71872); (71841, 71873); (71842, 71874);
   (71843, 71875); (71844, 71876); (71845, 71877); (71846, 71878);
   (71847, 71879); (71848, 71880); (71849, 71881); (71850, 71882);
   (71851, 71883); (71852, 71884); (71853, 71885); (71854, 71886);
   (71855, 71887); (71856, 71888); (71857, 71889); (71858, 71890);
   (71859, 71891); (71860, 71892); (71861, 71893); (71862, 71894);
   (71863, 71895); (71864, 71896); (71865, 71897); (71866, 71898);
   (71867, 71899); (71868, 71900); (71869, 71901); (71870, 71902);
   (71871, 71903); (93760, 93792); (93761, 93793); (93762, 93794);
   (93763, 93795); (93764, 93796); (93765, 93797); (93766, 93798);
   (93767, 93799); (93768, 93800); (93769, 93801); (93770, 93802);
   (93771, 93803); (93772, 93804); (93773, 93805); (93774, 93806);
   (93775, 93807); (93776, 93808); (93777, 93809); (93778, 93810);
   (93779, 93811); (93780, 93812); (93781, 93813); (93782, 93814);
   (93783, 93815); (93784, 93816); (93785, 93817); (93786, 93818);
   (93787, 93819); (93788, 93820); (93789, 93821); (93790, 93822);
   (93791, 93823); (125184, 125218); (125185, 125219); (125186, 125220);
   (125187, 125221); (125188, 125222); (125189, 125223); (125190, 125224);
   (125191, 125225); (125192, 125226); (125193, 125227); (125194, 125228);
   (125195, 125229); (125196, 125230); (125197, 125231); (125198, 125232);
   (125199, 125233); (125200, 125234); (125201, 125235); (125202, 125236);
   (125203, 125237); (125204, 125238); (125205, 125239); (125206, 125240);
   (125207, 125241); (125208, 125242); (125209, 125243); (125210, 125244);
   (125211, 125245); (125212, 125246); (125213, 125247); (125214, 125248);
   (125215, 125249); (125216, 125250); (125217, 125251)
  ].

Definition whitespace : list N :=
  [
   9; 10; 11; 12; 13; 28; 29; 30; 31; 32; 133; 160; 5760; 8192; 8193; 8194;
   8195; 8196; 8197; 8198; 8199; 8200; 8201; 8202; 8232; 8233; 8239; 8287;
   12288
  ].

Definition case_ignorable_ranges : list (N * N) :=
  [
   (39, 39); (46, 46); (58, 58); (94, 94); (96, 96); (168, 168); (173, 173);
   (175, 175); (180, 180); (183, 184); (688, 879); (884, 885); (890, 890);
   (900, 901); (903, 903); (1155, 1161); (1369, 1369); (1375, 1375);
   (1425, 1469); (1471, 1471); (1473, 1474); (1476, 1477); (1479, 1479);
   (1524, 1524); (1536, 1541); (1552, 1562); (1564, 1564); (1600, 1600);
   (1611, 1631); (1648, 1648); (1750, 1757); (1759, 1768); (1770, 1773);
   (1807, 1807); (1809, 1809); (1840, 1866); (1958, 1968); (2027, 2037);
   (2042, 2042); (2045, 2045); (2070, 2093); (2137, 2139); (2184, 2184);
   (2192, 2193); (2200, 2207); (2249, 2306); (2362, 2362); (2364, 2364);
   (2369, 2376); (2381, 2381); (2385, 2391); (2402, 2403); (2417, 2417);
   (2433, 2433); (2492, 2492); (2497, 2500); (2509, 2509); (2530, 2531);
   (2558, 2558); (2561, 2562); (2620, 2620); (2625, 2626); (2631, 2632);
   (2635, 2637); (2641, 2641); (2672, 2673); (2677, 2677); (2689, 2690);
   (2748, 2748); (2753, 2757); (2759, 2760); (2765, 2765); (2786, 2787);
   (2810, 2815); (2817, 2817); (2876, 2876); (2879, 2879); (2881, 2884);
   (2893, 2893); (2901, 2902); (2914, 2915); (2946, 2946); (3008, 3008);
   (3021, 3021); (3072, 3072); (3076, 3076); (3132, 3132); (3134, 3136);
   (3142, 3144); (3146, 3149); (3157, 3158); (3170, 3171); (3201, 3201);
   (3260, 3260); (3263, 3263); (3270, 3270); (3276, 3277); (3298, 3299);
   (3328, 3329); (3387, 3388); (3393, 3396); (3405, 3405); (3426, 3427);
   (3457, 3457); (3530, 3530); (3538, 3540); (3542, 3542); (3633, 3633);
   (3636, 3642); (3654, 3662); (3761, 3761); (3764, 3772); (3782, 3782);
   (3784, 3789); (3864, 3865); (3893, 3893); (3895, 3895); (3897, 3897);
   (3953, 3966); (3968, 3972); (3974, 3975); (3981, 3991); (3993, 4028);
   (4038, 4038); (4141, 4144); (4146, 4151); (4153, 4154); (4157, 4158);
   (4184, 4185); (4190, 4192); (4209, 4212); (4226, 4226); (4229, 4230);
   (4237, 4237); (4253, 4253); (4348, 4348); (4957, 4959); (5906, 5908);
   (5938, 5939); (5970, 5971); (6002, 6003); (6068, 6069); (6071, 6077);
   (6086, 6086); (6089, 6099); (6103, 6103); (6109, 6109); (6155, 6159);
   (6211, 6211); (6277, 6278); (6313, 6313); (6432, 6434); (6439, 6440);
   (6450, 6450); (6457, 6459); (6679, 6680); (6683, 6683); (6742, 6742);
   (6744, 6750); (6752, 6752); (6754, 6754); (6757, 6764); (6771, 6780);
   (6783, 6783); (6823, 6823); (6832, 6862); (6912, 6915); (6964, 6964);
   (6966, 6970); (6972, 6972); (6978, 6978); (7019, 7027); (7040, 7041);
   (7074, 7077); (7080, 7081); (7083, 7085); (7142, 7142); (7144, 7145);
   (7149, 7149); (7151, 7153); (7212, 7219); (7222, 7223); (7288, 7293);
   (7376, 7378); (7380, 7392); (7394, 7400); (7405, 7405); (7412, 7412);
   (7416, 7417); (7468, 7530); (7544, 7544); (7579, 7679); (8125, 8125);
   (8127, 8129); (8141, 8143); (8157, 8159); (8173, 8175); (8189, 8190);
   (8203, 8207); (8216, 8217); (8228, 8228); (8231, 8231); (8234, 8238);
   (8288, 8292); (8294, 8303); (8305, 8305); (8319, 8319); (8336, 8348);
   (8400, 8432); (11388, 11389); (11503, 11505); (11631, 11631);
   (11647, 11647); (11744, 11775); (11823, 11823); (12293, 12293);
   (12330, 12333); (12337, 12341); (12347, 12347); (12441, 12446);
   (12540, 12542); (40981, 40981); (42232, 42237); (42508, 42508);
   (42607, 42610); (42612, 42621); (42623, 42623); (42652, 42655);
   (42736, 42737); (42752, 42785); (42864, 42864); (42888, 42890);
   (42994, 42996); (43000, 43001); (43010, 43010); (43014, 43014);
   (43019, 43019); (43045, 43046); (43052, 43052); (43204, 43205);
   (43232, 43249); (43263, 43263); (43302, 43309); (43335, 43345);
   (43392, 43394); (43443, 43443); (43446, 43449); (43452, 43453);
   (43471, 43471); (43493, 43494); (43561, 43566); (43569, 43570);
   (43573, 43574); (43587, 43587); (43596, 43596); (43632, 43632);
   (43644, 43644); (43696, 43696); (43698, 43700); (43703, 43704);
   (43710, 43711); (43713, 43713); (43741, 43741); (43756, 43757);
   (43763, 43764); (43766, 43766); (43867, 43871); (43881, 43883);
   (44005, 44005); (44008, 44008); (44013, 44013); (64286, 64286);
   (64434, 64450); (65024, 65039); (65043, 65043); (65056, 65071);
   (65106, 65106); (65109, 65109); (65279, 65279); (65287, 65287);
   (65294, 65294); (65306, 65306); (65342, 65342); (65344, 65344);
   (65392, 65392); (65438, 65439); (65507, 65507); (65529, 65531);
   (66045, 66045); (66272, 66272); (66422, 66426); (67456, 67461);
   (67463, 67504); (67506, 67514); (68097, 68099); (68101, 68102);
   (68108, 68111); (68152, 68154); (68159, 68159); (68325, 68326);
   (68900, 68903); (69291, 69292); (69446, 69456); (69506, 69509);
   (69633, 69633); (69688, 69702); (69744, 69744); (69747, 69748);
   (69759, 69761); (69811, 69814); (69817, 69818); (69821, 69821);
   (69826, 69826); (69837, 69837); (69888, 69890); (69927, 69931);
   (69933, 69940); (70003, 70003); (70016, 70017); (70070, 70078);
   (70089, 70092); (70095, 70095); (70191, 70193); (70196, 70196);
   (70198, 70199); (70206, 70206); (70367, 70367); (70371, 70378);
   (70400, 70401); (70459, 70460); (70464, 70464); (70502, 70508);
   (70512, 70516); (70712, 70719); (70722, 70724); (70726, 70726);
   (70750, 70750); (70835, 70840); (70842, 70842); (70847, 70848);
   (70850, 70851); (71090, 71093); (71100, 71101); (71103, 71104);
   (71132, 71133); (71219, 71226); (71229, 71229); (71231, 71232);
   (71339, 71339); (71341, 71341); (71344, 71349); (71351, 71351);
   (71453, 71455); (71458, 71461); (71463, 71467); (71727, 71735);
   (71737, 71738); (71995, 71996); (71998, 71998); (72003, 72003);
   (72148, 72151); (72154, 72155); (72160, 72160); (72193, 72202);
   (72243, 72248); (72251, 72254); (72263, 72263); (72273, 72278);
   (72281, 72283); (72330, 72342); (72344, 72345); (72752, 72758);
   (72760, 72765); (72767, 72767); (72850, 72871); (72874, 72880);
   (72882, 72883); (72885, 72886); (73009, 73014); (73018, 73018);
   (73020, 73021); (73023, 73029); (73031, 73031); (73104, 73105);
   (73109, 73109); (73111, 73111); (73459, 73460); (78896, 78904);
   (92912, 92916); (92976, 92982); (92992, 92995); (94031, 94031);
   (94095, 94111); (94176, 94177); (94179, 94180); (110576, 110579);
   (110581, 110587); (110589, 110590); (113821, 113822); (113824, 113827);
   (118528, 118573); (118576, 118598); (119143, 119145); (119155, 119170);
   (119173, 119179); (119210, 119213); (119362, 119364); (121344, 121398);
   (121403, 121452); (121461, 121461); (121476, 121476); (121499, 121503);
   (121505, 121519); (122880, 122886); (122888, 122904); (122907, 122913);
   (122915, 122916); (122918, 122922); (123184, 123197); (123566, 123566);
   (123628, 123631); (125136, 125142); (125252, 125259); (127995, 127999);
   (917505, 917505); (917536, 917631); (917760, 917999)
  ].

Definition cased_ranges : list (N * N) :=
  [
   (65, 90); (97, 122); (170, 170); (181, 181); (186, 186); (192, 214);
   (216, 246); (248, 442); (444, 447); (452, 659); (661, 696); (704, 705);
   (736, 740); (837, 837); (880, 883); (886, 887); (890, 893); (895, 895);
   (902, 902); (904, 906); (908, 908); (910, 929); (931, 1013);
   (1015, 1153); (1162, 1327); (1329, 1366); (1376, 1416); (4256, 4293);
   (4295, 4295); (4301, 4301); (4304, 4346); (4349, 4351); (5024, 5109);
   (5112, 5117); (7296, 7304); (7312, 7354); (7357, 7359); (7424, 7615);
   (7680, 7957); (7960, 7965); (7968, 8005); (8008, 8013); (8016, 8023);
   (8025, 8025); (8027, 8027); (8029, 8029); (8031, 8061); (8064, 8116);
   (8118, 8124); (8126, 8126); (8130, 8132); (8134, 8140); (8144, 8147);
   (8150, 8155); (8160, 8172); (8178, 8180); (8182, 8188); (8305, 8305);
   (8319, 8319); (8336, 8348); (8450, 8450); (8455, 8455); (8458, 8467);
   (8469, 8469); (8473, 8477); (8484, 8484); (8486, 8486); (8488, 8488);
   (8490, 8493); (8495, 8500); (8505, 8505); (8508, 8511); (8517, 8521);
   (8526, 8526); (8544, 8575); (8579, 8580); (9398, 9449); (11264, 11492);
   (11499, 11502); (11506, 11507); (11520, 11557); (11559, 11559);
   (11565, 11565); (42560, 42605); (42624, 42653); (42786, 42887);
   (42891, 42894); (42896, 42954); (42960, 42961); (42963, 42963);
   (42965, 42969); (42997, 42998); (43000, 43002); (43824, 43866);
   (43868, 43880); (43888, 43967); (64256, 64262); (64275, 64279);
   (65313, 65338); (65345, 65370); (66560, 66639); (66736, 66771);
   (66776, 66811); (66928, 66938); (66940, 66954); (66956, 66962);
   (66964, 66965); (66967, 66977); (66979, 66993); (66995, 67001);
   (67003, 67004); (67456, 67456); (67459, 67461); (67463, 67504);
   (67506, 67514); (68736, 68786); (68800, 68850); (71840, 71903);
   (93760, 93823); (119808, 119892); (119894, 119964); (119966, 119967);
   (119970, 119970); (119973, 119974); (119977, 119980); (119982, 119993);
   (119995, 119995); (119997, 120003); (120005, 120069); (120071, 120074);
   (120077, 120084); (120086, 120092); (120094, 120121); (120123, 120126);
   (120128, 120132); (120134, 120134); (120138, 120144); (120146, 120485);
   (120488, 120512); (120514, 120538); (120540, 120570); (120572, 120596);
   (120598, 120628); (120630, 120654); (120656, 120686); (120688, 120712);
   (120714, 120744); (120746, 120770); (120772, 120779); (122624, 122633);
   (122635, 122654); (125184, 125251); (127280, 127305); (127312, 127337);
   (127344, 127369)
  ].

Fixpoint assoc (c : N) (table : list (N * N)) : option N :=
  match table with
  | [] => None
  | (k, v) :: rest => if k =? c then Some v else assoc c rest
  end.

Definition in_ranges (c : N) (ranges : list (N * N)) : bool :=
  existsb (fun r => (fst r <=? c) && (c <=? snd r)) ranges.

(** [_PyUnicode_IsWhitespace], [_PyUnicode_IsCaseIgnorable] and
    [_PyUnicode_IsCased] *)
Definition is_whitespace (c : N) : bool := existsb (N.eqb c) whitespace.
Definition is_case_ignorable (c : N) : bool := in_ranges c case_ignorable_ranges.
Definition is_cased (c : N) : bool := in_ranges c cased_ranges.

(** [_PyUnicode_ToLowerFull]: U+0130, the capital I with a dot above,
    becomes an i followed by the combining dot U+0307. *)
Definition to_lower_full (c : N) : list N :=
  if c =? 0x130 then [0x69; 0x307]
  else match assoc c lowercase_table with
       | Some d => [d]
       | None => [c]
       end.

Fixpoint skip_case_ignorable (l : list N) : list N :=
  match l with
  | [] => []
  | c :: rest => if is_case_ignorable c then skip_case_ignorable rest else l
  end.

(** [handle_capital_sigma]: a capital sigma becomes the final sigma U+03C2
    when a cased letter stands before it and none after it, case-ignorable
    code points skipped on both sides, and U+03C3 otherwise.  [before] is
    what was read, last code point first, [after] what follows. *)
Definition handle_capital_sigma (before after : list N) : N :=
  let final_sigma :=
    match skip_case_ignorable before with
    | c :: _ => is_cased c
    | [] => false
    end in
  let final_sigma :=
    final_sigma &&
    match skip_case_ignorable after with
    | c :: _ => negb (is_cased c)
    | [] => true
    end in
  if final_sigma then 0x3C2 else 0x3C3.

(** [lower_ucs4] *)
Definition lower_ucs4 (before : list N) (c : N) (after : list N) : list N :=
  if c =? 0x3A3 then [handle_capital_sigma before after] else to_lower_full c.

(** [do_lower] *)
Fixpoint do_lower (before l : list N) : list N :=
  match l with
  | [] => []
  | c :: after => lower_ucs4 before c after ++ do_lower (c :: before) after
  end.

Definition lower (l : list N) : list N := do_lower [] l.

Definition is_empty (l : list N) : bool :=
  match l with
  | [] => true
  | _ :: _ => false
  end.

(** [do_strip]: the white space at the left end is passed, then the white
    space at the right end of what is left. *)
Fixpoint lstrip (l : list N) : list N :=
  match l with
  | [] => []
  | c :: rest => if is_whitespace c then lstrip rest else l
  end.

Fixpoint rstrip (l : list N) : list N :=
  match l with
  | [] => []
  | c :: rest =>
      let r := rstrip rest in
      if is_whitespace c && is_empty r then [] else c :: r
  end.

Definition strip (l : list N) : list N := rstrip (lstrip l).

(** A code point that lowering leaves as it is, wherever it stands. *)
Definition lower_fixed (c : N) : bool :=
  negb (c =? 0x3A3) && negb (c =? 0x130) &&
  match assoc c lowercase_table with
  | Some _ => false
  | None => true
  end.

(** What a code point [c] can be lowered to: [d] is left alone by a second
    lowering, is a scalar value when [c] is one and is white space only
    when [c] is. *)
Definition lowered (c d : N) : Prop :=
  lower_fixed d = true /\
  (scalar c = true -> scalar d = true) /\
  (is_whitespace c = false -> is_whitespace d = false).

(** No white space at the start. *)
Definition starts_clean (l : list N) : bool :=
  match l with
  | [] => true
  | c :: _ => negb (is_whitespace c)
  end.

End Unicode.

(** ** The [str] methods used by the code *)

Module Str.

Definition is_upper (c : ascii) : bool :=
  let n := N_of_ascii c in (65 <=? n)%N && (n <=? 90)%N.

Definition lower_char (c : ascii) : ascii :=
  if is_upper c then ascii_of_N (N_of_ascii c + 32) else c.

(** [s.isascii()] *)
Fixpoint isascii (s : string) : bool :=
  match s with
  | EmptyString => true
  | String c s' => (N_of_ascii c <? 128)%N && isascii s'
  end.

(** [ascii_upper_or_lower], the path of [unicode_lower] for a string of
    ASCII characters *)
Fixpoint ascii_lower (s : string) : string :=
  match s with
  | EmptyString => EmptyString
  | String c s' => String (lower_char c) (ascii_lower s')
  end.

(** [s.lower()] *)
Definition lower (s : string) : string :=
  if isascii s then ascii_lower s
  else Unicode.utf8_encode (Unicode.lower (Unicode.utf8_decode s)).

(** [s.strip()] *)
Definition strip (s : string) : string :=
  Unicode.utf8_encode (Unicode.strip (Unicode.utf8_decode s)).

Definition is_empty (s : string) : bool :=
  match s with
  | EmptyString => true
  | String _ _ => false
  end.

(** [s.startswith(p)] *)
Fixpoint startswith (p s : string) : bool :=
  match p, s with
  | EmptyString, _ => true
  | String a p', String b s' => if Ascii.eqb a b then startswith p' s' else false
  | String _ _, EmptyString => false
  end.

(** [k in s] for two strings: the substring test. *)
Fixpoint contains (k s : string) : bool :=
  if startswith k s then true
  else match s with
       | EmptyString => false
       | String _ s' => contains k s'
       end.

(** The meaning of [k in s]: [k] occurs somewhere inside [s]. *)
Definition occurs_in (k s : string) : Prop :=
  exists pre post, s = String.append pre (String.append k post).

(** Two ASCII characters that are the same letter: [a] itself, or [a] a
    capital and [b] its small letter. *)
Definition same_letter (a b : ascii) : Prop :=
  a = b \/
  ((65 <= N_of_ascii a)%N /\ (N_of_ascii a <= 90)%N /\
   N_of_ascii b = (N_of_ascii a + 32)%N).

(** [s] spells [word], capitals of [s] read as small letters. *)
Fixpoint spells (s word : string) : Prop :=
  match s, word with
  | EmptyString, EmptyString => True
  | String a s', String b word' => same_letter a b /\ spells s' word'
  | _, _ => False
  end.

(** No capital letter. *)
Fixpoint no_capital (s : string) : bool :=
  match s with
  | EmptyString => true
  | String c s' => negb (is_upper c) && no_capital s'
  end.

End Str.

(** ** app/models/schemas.py *)

Module schemas.

Record ProductLocation : Type := mkProductLocation {
  product_name : string;
  category : string;
  aisle : string;
  section : string;
  price : Q;
  in_stock : bool
}.

(** [self._banana_keywords] and [self._apple_keywords].  They are Python
    sets; [any] only asks whether some element matches, so the order in
    which a set is iterated does not show in the result. *)
Definition _banana_keywords : list string := ["banana"; "plantain"].
Definition _apple_keywords : list string :=
  ["granny smith"; "red delicious"; "golden delicious"; "apple"].

(** [any(k in lbl for k in keywords)] *)
Fixpoint any_keyword_in (keywords : list string) (lbl : string) : bool :=
  match keywords with
  | [] => false
  | k :: rest => if Str.contains k lbl then true else any_keyword_in rest lbl
  end.

(** [for lbl in low: if any(...): return ...]; [true] when the loop returns. *)
Fixpoint loop_returns (keywords : list string) (low : list string) : bool :=
  match low with
  | [] => false
  | lbl :: rest =>
      if any_keyword_in keywords lbl then true else loop_returns keywords rest
  end.

Definition _map_label (imagenet_labels : list string) : string :=
  let low := map Str.lower imagenet_labels in
  if loop_returns _banana_keywords low then "banana"
  else if loop_returns _apple_keywords low then "apple"
  else "neither".

(** Some name of the list, lowercased, contains one of the keywords. *)
Definition some_name_contains (keywords : list string)
    (imagenet_labels : list string) : Prop :=
  exists lbl k,
    In lbl imagenet_labels /\ In k keywords /\
    Str.occurs_in k (Str.lower lbl).

(** Some name of the list mentions one of the keywords, in small or in
    capital letters: what "a name, lowercased, contains a keyword" says of
    names written in ASCII, stated on the letters themselves. *)
Definition mentions (keywords : list string)
    (imagenet_labels : list string) : Prop :=
  exists lbl k pre mid post,
    In lbl imagenet_labels /\ In k keywords /\
    lbl = String.append pre (String.append mid post) /\
    Str.spells mid k.

(** The label of two lists of names read as one list. *)
Definition merge_labels (a b : string) : string :=
  if String.eqb a "banana" || String.eqb b "banana" then "banana"
  else if String.eqb a "apple" || String.eqb b "apple" then "apple"
  else "neither".

Record DetectedProduct : Type := mkDetectedProduct {
  name : string;
  confidence : Q
}.

Record LocateResponse : Type := mkLocateResponse {
  detected_product : DetectedProduct;
  location : option ProductLocation;
  message : string
}.

Section Classifier.

Context {Image : Type}.

(** MobileNetV2 behind [predict]: the image converted to RGB when its
    mode is another one, transformed and run through the network, the
    softmax, [probs.topk(topk, dim=1)], and the class indices replaced by
    their ImageNet names: the [topk] best classes with their probabilities,
    best first.  Each of these steps can raise, and [predict] handles no
    exception: [convert] and the transform read the data of an image that
    [Image.open] has only identified, and [topk] refuses a [topk] above the
    number of classes.  The probabilities are numbers: a softmax that
    gives [nan] is left out. *)
Variable top_classes : Image -> nat -> exc (list (string * Q)).

(** [ProductClassifier.predict] of schemas.py *)
Definition predict (img : Image) (topk : nat)
  : exc (string * Q * list (string * Q)) :=
  let* best := top_classes img topk in
  let pvals := map snd best in
  let labels := map fst best in
  let coarse := _map_label labels in
  match pvals with
  | [] => Raise IndexError
  | confidence :: _ => Ok (coarse, confidence, combine labels pvals)
  end.

End Classifier.

End schemas.

(** ** Python numbers *)

(** [int(x)] of a float: truncation towards zero.  The code applies it to
    [width * 0.5] and [width * 0.15]; on the sizes an image can have, the
    product computed in doubles truncates to the same integer as the exact
    product, which is the one taken here. *)
Definition int_of_float (x : Q) : Z :=
  if Qle_bool 0 x then Qfloor x else Qceiling x.

(** [round(x)] to an integer, ties to the even neighbour. *)
Definition round_half_even (x : Q) : Z :=
  let f := Qfloor x in
  match Qcompare (x - inject_Z f) (1 # 2) with
  | Lt => f
  | Gt => f + 1
  | Eq => if Z.even f then f else f + 1
  end.

(** [round(x, 2)] *)
Definition round2 (x : Q) : Q := Qmake (round_half_even (x * 100)) 100.

(** ** The [random] module

    The generator is the sequence of its raw outputs; a draw consumes the
    head of the sequence.  Every value of the requested range is produced
    by some raw output, and no other value is. *)

Module random.

Definition rng : Type := nat -> N.
Definition M (A : Type) : Type := rng -> exc (A * rng).

Definition ret {A} (a : A) : M A := fun g => Ok (a, g).
Definition bind {A B} (m : M A) (k : A -> M B) : M B :=
  fun g => match m g with
           | Ok (a, g') => k a g'
           | Raise e => Raise e
           end.
Definition throw {A} (e : exn) : M A := fun _ => Raise e.

Definition next (g : rng) : N * rng := (g 0%nat, fun n => g (S n)).

(** The generator after one draw. *)
Definition rest (g : rng) : rng := snd (next g).

(** What [randint] raises on an empty range. *)
Definition empty_range : exn := ValueError "empty range for randrange()".

(** [random.randint(a, b)]: an integer of [a..b], [ValueError] when the
    range is empty. *)
Definition randint (a b : Z) : M Z :=
  fun g =>
    if b <? a then Raise empty_range
    else let (r, g') := next g in Ok (a + Z.of_N r mod (b - a + 1), g').

(** [random.random()]: a multiple of 2^-53 in the interval [0, 1). *)
Definition random : M Q :=
  fun g => let (r, g') := next g in
           Ok (Qmake (Z.of_N r mod 2 ^ 53) (2 ^ 53), g').

(** [random.uniform(a, b)] is [a + (b - a) * random()]. *)
Definition uniform (a b : Q) : M Q :=
  bind random (fun u => ret (a + (b - a) * u)%Q).

(** The generator whose raw outputs are all zero. *)
Definition zeros : rng := fun _ => 0%N.

End random.

Notation "'let!' x ':=' m 'in' k" := (random.bind m (fun x => k))
  (at level 10, x pattern, m at level 100, k at level 200).

(** ** app/model.py: the placeholder classifier *)

Module model.

(** [ProductClassifier.predict]: the image is not looked at. *)
Definition predict {Image : Type} (image : Image) : string * Q :=
  let label := "banana" in
  let confidence := 0.95%Q in
  (label, confidence).

End model.

(** ** app/services/vision.py *)

Module vision.

Definition RGB : Type := (Z * Z * Z)%type.

(** A decoded RGB image: [image.size] and the pixel buffer. *)
Record Image : Type := mkImage {
  width : Z;
  height : Z;
  pixels : list RGB
}.

(** One simulated detection, the dict
    [{"label": .., "confidence": .., "bbox": [x1, y1, x2, y2]}]. *)
Record Detection : Type := mkDetection {
  label : string;
  confidence : Q;
  bbox : list Z
}.

Section Loading.

(** [Image.open(io.BytesIO(b)).convert("RGB")]: Pillow's decoder, [None]
    when it raises. *)
Variable PIL_open : list Byte.byte -> option Image.

Definition load_image (image_bytes : list Byte.byte) : exc Image :=
  match PIL_open image_bytes with
  | Some image => Ok image
  | None => Raise (ValueError "Could not open image")
  end.

Definition classify_image (image : Image) : string * Q :=
  model.predict image.

(** [not content_type or not content_type.startswith("image/")] *)
Definition not_an_image (content_type : option string) : bool :=
  match content_type with
  | None => true
  | Some ct => Str.is_empty ct || negb (Str.startswith "image/" ct)
  end.

Definition process_bytes_for_single_product
    (file_bytes : list Byte.byte) (content_type : option string)
  : exc (Image * string * Q) :=
  if not_an_image content_type
  then Raise (ValueError "Please upload an image file.")
  else
    let* image := load_image file_bytes in
    let '(label, confidence) := classify_image image in
    Ok (image, label, confidence).

End Loading.

(** The deduplication loop: [seen] is the set, [unique_labels] the list. *)
Fixpoint dedup_loop (labels_pool : list string) (seen : gset string)
    (unique_labels : list string) : list string :=
  match labels_pool with
  | [] => unique_labels
  | lbl :: rest =>
      if decide (lbl ∈ seen) then dedup_loop rest seen unique_labels
      else dedup_loop rest ({[lbl]} ∪ seen) (unique_labels ++ [lbl])
  end.

(** One iteration of [for i in range(num_detections)]. *)
Definition detection_step (width height : Z) (unique_labels : list string)
    (i : nat) : random.M Detection :=
  match unique_labels !! i with
  | None => random.throw IndexError
  | Some label =>
      let! u := random.uniform 0.55 0.97 in
      let conf := round2 u in
      let! x1 := random.randint 0 (Z.max 0 (int_of_float (inject_Z width * 0.5))) in
      let! y1 := random.randint 0 (Z.max 0 (int_of_float (inject_Z height * 0.5))) in
      let! x2 := random.randint
              (x1 + Z.max 10 (int_of_float (inject_Z width * 0.15))) width in
      let! y2 := random.randint
              (y1 + Z.max 10 (int_of_float (inject_Z height * 0.15))) height in
      random.ret (mkDetection label conf [x1; y1; x2; y2])
  end.

Fixpoint detection_loop (width height : Z) (unique_labels : list string)
    (range : list nat) (detections : list Detection)
  : random.M (list Detection) :=
  match range with
  | [] => random.ret detections
  | i :: rest =>
      let! d := detection_step width height unique_labels i in
      detection_loop width height unique_labels rest (detections ++ [d])
  end.

Definition fake_multi_detections (image : Image) (base_label : string)
  : random.M (list Detection) :=
  let '(width, height) := (width image, height image) in
  let labels_pool := [base_label; "banana"; "apple"; "cereal"; "milk"] in
  let unique_labels := dedup_loop labels_pool ∅ [] in
  let num_detections := Nat.min 3 (length unique_labels) in
  detection_loop width height unique_labels (seq 0 num_detections) [].

(** Every range that [random.randint] is asked for along one side of
    length [side] has an element, whatever was drawn before: the first
    corner is drawn in [0 .. max(0, int(side * 0.5))], the second corner in
    [first + max(10, int(side * 0.15)) .. side]. *)
Definition ranges_nonempty (side : Z) : Prop :=
  0 <= Z.max 0 (int_of_float (inject_Z side * 0.5)) /\
  forall first,
    0 <= first <= Z.max 0 (int_of_float (inject_Z side * 0.5)) ->
    first + Z.max 10 (int_of_float (inject_Z side * 0.15)) <= side.

(** A detection with a confidence of [0.55, 0.97] and a box
    [x1, y1, x2, y2] inside an image of the given size. *)
Definition valid_detection (width height : Z) (d : Detection) : Prop :=
  (0.55 <= confidence d <= 0.97)%Q /\
  exists x1 y1 x2 y2,
    bbox d = [x1; y1; x2; y2] /\
    0 <= x1 < x2 /\ x2 <= width /\ 0 <= y1 < y2 /\ y2 <= height.

(** The raw outputs that draw the largest first corner on both axes. *)
Definition far_corner (width height : Z) : random.rng :=
  fun n => match n with
           | 1%nat => Z.to_N (Z.max 0 (int_of_float (inject_Z width * 0.5)))
           | 2%nat => Z.to_N (Z.max 0 (int_of_float (inject_Z height * 0.5)))
           | _ => 0%N
           end.

(** *** Image objects

    [draw_detections] mutates an image through [ImageDraw], so here images
    are objects of a store, named by their identity. *)

Abbreviation obj := positive (only parsing).
Abbreviation store := (gmap obj Image) (only parsing).

Definition IO (A : Type) : Type := SE store A.

(** [image.copy()]: a new object with the same contents. *)
Definition Image_copy (image : obj) : IO obj :=
  fun h => match h !! image with
           | Some img => let annotated := fresh (dom h) in
                         (Ok annotated, <[annotated := img]> h)
           | None => (Raise AttributeError, h)
           end.

(** A computation writes to no object but [draw], and keeps [draw]. *)
Definition writes_only {A} (draw : obj) (m : IO A) : Prop :=
  forall h,
    (forall o, o <> draw -> snd (m h) !! o = h !! o) /\
    (is_Some (h !! draw) -> is_Some (snd (m h) !! draw)).

Section Drawing.

(** Pillow's rasterisers, as functions of the pixel buffer they are
    given: the buffer they leave, and the exception they raise if any.
    [rectangle xy fill outline width], [text xy text fill]. *)
Variable PIL_rectangle :
  list Z -> option RGB -> option RGB -> Z -> Image -> Image * option exn.
Variable PIL_text :
  Z * Z -> string -> option RGB -> Image -> Image * option exn.

(** A method of [ImageDraw.Draw(im)] draws into the object [im]. *)
Definition draw_with (prim : Image -> Image * option exn) (im : obj)
  : IO unit :=
  fun h => match h !! im with
           | Some img =>
               let (img', e) := prim img in
               (match e with None => Ok tt | Some e => Raise e end,
                <[im := img']> h)
           | None => (Raise AttributeError, h)
           end.

Definition draw_rectangle (draw : obj) (xy : list Z)
    (fill outline : option RGB) (width : Z) : IO unit :=
  draw_with (PIL_rectangle xy fill outline width) draw.

Definition draw_text (draw : obj) (xy : Z * Z) (text : string)
    (fill : option RGB) : IO unit :=
  draw_with (PIL_text xy text fill) draw.

(** [x1, y1, x2, y2 = det["bbox"]] *)
Definition unpack4 (l : list Z) : IO (Z * Z * Z * Z) :=
  match l with
  | [x1; y1; x2; y2] => se_ret (x1, y1, x2, y2)
  | _ => se_raise (ValueError "wrong number of values to unpack")
  end.

(** The body of [for det in detections].  The text of the label shows
    [int(conf * 100)], with the product taken exactly; Python takes it in
    doubles, where it can fall just below the whole number, so that the
    text of a confidence of 0.57 reads 56.  The text only reaches
    [PIL_text]. *)
Definition draw_one (draw : obj) (det : Detection) : IO unit :=
  se_bind (unpack4 (bbox det)) (fun '(x1, y1, x2, y2) =>
  let label := label det in
  let conf := confidence det in
  se_bind (draw_rectangle draw [x1; y1; x2; y2] None (Some (37, 99, 235)) 3)
    (fun _ =>
  let text := label +:+ " " +:+ pretty (int_of_float (conf * 100)) +:+ "%" in
  se_try_pass
    (se_bind
       (draw_rectangle draw [x1; y1 - 16; x1 + 110; y1]
          (Some (37, 99, 235)) None 1)
       (fun _ =>
        draw_text draw (x1 + 4, y1 - 14) text (Some (255, 255, 255)))))).

Fixpoint draw_loop (draw : obj) (detections : list Detection) : IO unit :=
  match detections with
  | [] => se_ret tt
  | det :: rest => se_bind (draw_one draw det) (fun _ => draw_loop draw rest)
  end.

Definition draw_detections (image : obj) (detections : list Detection)
  : IO obj :=
  se_bind (Image_copy image) (fun annotated =>
  let draw := annotated in
  se_bind (draw_loop draw detections) (fun _ =>
  se_ret annotated)).

End Drawing.

(** Pillow draws the outline of the box of the detection: [rectangle], as
    [draw_detections] calls it for this detection, does not raise. *)
Definition draws_box
    (PIL_rectangle :
       list Z -> option RGB -> option RGB -> Z -> Image -> Image * option exn)
    (det : Detection) : Prop :=
  forall im,
    snd (PIL_rectangle (bbox det) None (Some (37, 99, 235)) 3 im) = None.

(** The labels that follow the base label in the detections. *)
Definition other_labels (base_label : string) : list string :=
  if String.eqb base_label "banana" then ["apple"; "cereal"]
  else if String.eqb base_label "apple" then ["banana"; "cereal"]
  else ["banana"; "apple"].

(** What one detection is drawn from: a confidence of whole hundredths, a
    first corner in the upper left quarter, and a box of at least 10 pixels
    and at least 15% of the image along each axis. *)
Definition drawn_detection (width height : Z) (d : Detection) : Prop :=
  exists k x1 y1 x2 y2,
    confidence d = Qmake k 100 /\ 55 <= k <= 97 /\
    bbox d = [x1; y1; x2; y2] /\
    0 <= x1 <= width / 2 /\ x1 + Z.max 10 (3 * width / 20) <= x2 <= width /\
    0 <= y1 <= height / 2 /\ y1 + Z.max 10 (3 * height / 20) <= y2 <= height.

(** A decoded image is a new object of the store. *)
Definition Image_new (img : Image) : IO obj :=
  fun h => let image := fresh (dom h) in (Ok image, <[image := img]> h).

End vision.

(** ** app/services/database.py *)

Module database.

Import schemas.

(** A row of the [products] table. *)
Record Row : Type := mkRow {
  row_product_name : string;
  row_category : string;
  row_aisle : string;
  row_section : string;
  row_price : Q;
  row_in_stock : Z
}.

(** The table is the list of its rows, oldest first. *)
Definition table : Type := list Row.

(** [product_name TEXT PRIMARY KEY]: no two rows carry the same name.
    SQLite keeps this true of every state of the table. *)
Definition primary_key (t : table) : Prop :=
  List.NoDup (map row_product_name t).

Definition name_is (name : string) (r : Row) : bool :=
  String.eqb (row_product_name r) name.

(** [SELECT * FROM products WHERE product_name = ?] *)
Definition select_by_name (name : string) (t : table) : list Row :=
  List.filter (name_is name) t.

(** [cur.fetchone()] *)
Definition fetchone (rows : list Row) : option Row :=
  match rows with
  | [] => None
  | row :: _ => Some row
  end.

(** [INSERT OR REPLACE INTO products ... VALUES (...)]: a row with the same
    key is deleted before the new one is inserted. *)
Definition insert_or_replace (t : table) (r : Row) : table :=
  List.filter (fun r' => negb (name_is (row_product_name r) r')) t ++ [r].

(** [cur.executemany(INSERT OR REPLACE ..., rows)] *)
Definition executemany (rows : list Row) (t : table) : table :=
  fold_left insert_or_replace rows t.

(** A record of [csv.DictReader] over a file with the header
    [product_name,category,aisle,section,price,stock].  Every record has
    its six cells: a line with fewer cells, for which [DictReader] puts
    [None] in the record, is left out. *)
Record CsvRecord : Type := mkCsvRecord {
  csv_product_name : string;
  csv_category : string;
  csv_aisle : string;
  csv_section : string;
  csv_price : string;
  csv_stock : string
}.

Section Seeding.

(** [float(s)] on a string: the number read, [None] when [float] raises
    [ValueError].  The prices are numbers: [float] also reads "nan" and
    "inf", which are no numbers and are left out ([nan] is stored as NULL,
    which the column [price] refuses). *)
Variable float_of_string : string -> option Q.

(** The body of [for row in reader]. *)
Definition seed_row (row : CsvRecord) : exc Row :=
  let name := Str.lower (Str.strip (csv_product_name row)) in
  let category := csv_category row in
  let aisle := csv_aisle row in
  let section := csv_section row in
  let* price :=
    match float_of_string (csv_price row) with
    | Some x => Ok x
    | None => Raise (ValueError "could not convert string to float")
    end in
  let in_stock :=
    if existsb (String.eqb (Str.lower (Str.strip (csv_stock row))))
         ["true"; "1"; "yes"]
    then 1 else 0 in
  Ok (mkRow name category aisle section price in_stock).

Fixpoint seed_rows (reader : list CsvRecord) (rows : list Row)
  : exc (list Row) :=
  match reader with
  | [] => Ok rows
  | row :: rest =>
      let* r := seed_row row in
      seed_rows rest (rows ++ [r])
  end.

(** [csv] is the content of [self.csv_path], [None] when the file does
    not exist; [t] is the table as [CREATE TABLE IF NOT EXISTS] leaves
    it. *)
Definition _ensure_schema_and_seed (csv : option (list CsvRecord))
    (t : table) : exc table :=
  let count := length t in
  match csv with
  | Some reader =>
      if Nat.eqb count 0 then
        let* rows := seed_rows reader [] in
        match rows with
        | [] => Ok t
        | _ :: _ => Ok (executemany rows t)
        end
      else Ok t
  | None => Ok t
  end.

End Seeding.

Definition to_location (row : Row) : ProductLocation :=
  mkProductLocation (row_product_name row) (row_category row)
    (row_aisle row) (row_section row) (row_price row)
    (negb (row_in_stock row =? 0)).

(** [ProductDatabase.lookup] *)
Definition lookup (t : table) (product_name : string)
  : option ProductLocation :=
  let name := Str.lower (Str.strip product_name) in
  let row := fetchone (select_by_name name t) in
  match row with
  | None => None
  | Some row => Some (to_location row)
  end.

(** Some row of the table carries the name. *)
Definition has_name (name : string) (t : table) : Prop :=
  exists r, In r t /\ row_product_name r = name.

(** [ORDER BY aisle, product_name]: both columns are TEXT and are compared
    byte by byte. *)
Definition row_leb (r1 r2 : Row) : bool :=
  match String.compare (row_aisle r1) (row_aisle r2) with
  | Lt => true
  | Gt => false
  | Eq => String.leb (row_product_name r1) (row_product_name r2)
  end.

Definition row_le (r1 r2 : Row) : Prop := row_leb r1 r2 = true.

#[global] Instance row_le_dec (r1 r2 : Row) : Decision (row_le r1 r2) :=
  decide (row_leb r1 r2 = true).

(** [SELECT * FROM products ORDER BY aisle, product_name] *)
Definition select_ordered (t : table) : list Row := merge_sort row_le t.

(** [ProductDatabase.all_products] *)
Definition all_products (t : table) : list ProductLocation :=
  map to_location (select_ordered t).

(** The order of [all_products] on the records it returns. *)
Definition location_le (p1 p2 : ProductLocation) : Prop :=
  match String.compare (aisle p1) (aisle p2) with
  | Lt => True
  | Gt => False
  | Eq => String.leb (product_name p1) (product_name p2) = true
  end.

(** The names of the table are stripped and lowercased, as seeding stores
    them. *)
Definition normalized (t : table) : Prop :=
  Forall (fun r => Str.lower (Str.strip (row_product_name r)) =
                   row_product_name r) t.

(** The row that seeding stores for a record whose price reads as [x]. *)
Definition row_of_record (record : CsvRecord) (x : Q) : Row :=
  mkRow (Str.lower (Str.strip (csv_product_name record)))
    (csv_category record) (csv_aisle record) (csv_section record) x
    (if existsb (String.eqb (Str.lower (Str.strip (csv_stock record))))
          ["true"; "1"; "yes"]
     then 1 else 0).

(** Seeding stores the row [r] for the record. *)
Definition seeds (float_of_string : string -> option Q)
    (record : CsvRecord) (r : Row) : Prop :=
  exists x, float_of_string (csv_price record) = Some x /\
            r = row_of_record record x.

End database.

(** ** app/api/routes.py *)

Module routes.

Import schemas.

(** The [location] and [meta] dicts of a result. *)
Record Location : Type := mkLocation {
  loc_aisle : string;
  loc_section : string
}.

Record Meta : Type := mkMeta {
  meta_category : string;
  meta_price : Q;
  meta_in_stock : bool
}.

(** The result dict.  [location] and [meta] are [None] in Python when they
    are [None] here; the key [message] is absent when [message] is [None]. *)
Record Result : Type := mkResult {
  predicted_label : string;
  confidence : Q;
  found_in_database : bool;
  message : option string;
  location : option Location;
  meta : option Meta
}.

(** *** The request log *)

(** A line of data/requests.log, by the fields of its f-string. *)
Record LogLine : Type := mkLogLine {
  log_ts : string;
  log_label : string;
  log_conf : Q;
  log_found : bool;
  log_aisle : string;
  log_section : string
}.

(** The part of the file system that [_log_request] touches: the log file
    ([None] while it does not exist), the clock, and which of the three
    system calls fails with [OSError]. *)
Record FileSystem : Type := mkFileSystem {
  log_file : option (list LogLine);
  now : string;
  mkdir_fails : bool;
  open_fails : bool;
  write_fails : bool
}.

Definition FS (A : Type) : Type := SE FileSystem A.

(** [log_path.parent.mkdir(parents=True, exist_ok=True)] *)
Definition mkdir_parent : FS unit :=
  fun fs => if mkdir_fails fs then (Raise OSError, fs) else (Ok tt, fs).

(** [log_path.open("a")]: creates the file when it is missing. *)
Definition open_append : FS unit :=
  fun fs =>
    if open_fails fs then (Raise OSError, fs)
    else (Ok tt,
          mkFileSystem (Some (default [] (log_file fs))) (now fs)
            (mkdir_fails fs) (open_fails fs) (write_fails fs)).

(** [f.write(line)] *)
Definition write (line : LogLine) : FS unit :=
  fun fs =>
    if write_fails fs then (Raise OSError, fs)
    else (Ok tt,
          mkFileSystem (Some (default [] (log_file fs) ++ [line])) (now fs)
            (mkdir_fails fs) (open_fails fs) (write_fails fs)).

Definition datetime_now : FS string := fun fs => (Ok (now fs), fs).

(** [result.get('location', {}).get(key)]: the key [location] is always
    present, so the default is not used, and [None] has no [get]. *)
Definition location_get {A} (result : Result) (key : Location -> A) : FS A :=
  match location result with
  | Some loc => se_ret (key loc)
  | None => se_raise AttributeError
  end.

Definition _log_request (result : Result) : FS unit :=
  se_try_pass
    (se_bind mkdir_parent (fun _ =>
     se_bind open_append (fun _ =>
     se_bind datetime_now (fun ts =>
     se_bind (location_get result loc_aisle) (fun aisle =>
     se_bind (location_get result loc_section) (fun section =>
     write (mkLogLine ts (predicted_label result) (confidence result)
              (found_in_database result) aisle section))))))).

(** *** The endpoints *)

Record UploadFile : Type := mkUploadFile {
  file_bytes : list Byte.byte;
  content_type : option string
}.

(** How a handler ends: with the value it returns, or with the
    [HTTPException] it raises; an exception that is not an [HTTPException]
    is answered with status 500.  What FastAPI does around the handler is
    not told here: a request without the field [file] is answered with
    status 422 before the handler runs, and the value returned is encoded
    afterwards. *)
Inductive Response (A : Type) : Type :=
| Reply (body : A)
| HTTPException (status_code : Z) (detail : string).
Arguments Reply {A} body.
Arguments HTTPException {A} status_code detail.

Definition internal_error {A} : Response A :=
  HTTPException 500 "Internal Server Error".

(** The holes of the result page's template. *)
Inductive DetailsBlock : Type :=
| DetailRows (aisle section category : string) (price : Q) (stock_text : string)
| NoDetails.

Record ResultPage : Type := mkResultPage {
  page_label : string;
  page_confidence_pct : Q;
  page_bar_color : string;
  page_preview : option (string * list Byte.byte);
  page_details : DetailsBlock;
  page_status_text : string
}.

Section Endpoints.

Variable PIL_open : list Byte.byte -> option vision.Image.

(** The module-level [db]: its table. *)
Variable db : database.table.

(** [POST /api/predict] *)
Definition predict_api (file : UploadFile)
  : FileSystem -> Response Result * FileSystem :=
  fun fs =>
    match vision.process_bytes_for_single_product PIL_open
            (file_bytes file) (content_type file) with
    | Raise (ValueError e) => (HTTPException 400 e, fs)
    | Raise _ => (internal_error, fs)
    | Ok (image, label, confidence_value) =>
        let product_info := database.lookup db label in
        let result :=
          match product_info with
          | None =>
              mkResult label confidence_value false
                (Some ("No location info found for '" +:+ label +:+ "'."))
                None None
          | Some product_info =>
              mkResult label confidence_value true None
                (Some (mkLocation (aisle product_info) (section product_info)))
                (Some (mkMeta (category product_info) (price product_info)
                         (in_stock product_info)))
          end in
        let (_, fs') := _log_request result fs in
        (Reply result, fs')
    end.

(** [POST /predict] *)
Definition predict_html (file : UploadFile)
  : FileSystem -> Response ResultPage * FileSystem :=
  fun fs =>
    match vision.process_bytes_for_single_product PIL_open
            (file_bytes file) (content_type file) with
    | Raise (ValueError e) => (HTTPException 400 e, fs)
    | Raise _ => (internal_error, fs)
    | Ok (image, label, confidence_value) =>
        let product_info := database.lookup db label in
        let result :=
          match product_info with
          | None =>
              mkResult label confidence_value false
                (Some ("No location info found for '" +:+ label +:+ "'."))
                None None
          | Some product_info =>
              mkResult label confidence_value true None
                (Some (mkLocation (aisle product_info) (section product_info)))
                (Some (mkMeta (category product_info) (price product_info)
                         (in_stock product_info)))
          end in
        let (_, fs') := _log_request result fs in
        (* the data URL of the preview *)
        let mime :=
          match content_type file with
          | Some ct => if Str.is_empty ct then "image/jpeg" else ct
          | None => "image/jpeg"
          end in
        let img_data_url := Some (mime, file_bytes file) in
        let label := predicted_label result in
        let confidence_value := confidence result in
        let confidence_pct := (confidence_value * 100)%Q in
        let found := found_in_database result in
        let bar_color :=
          if Qle_bool 0.8 confidence_value then "#16a34a"
          else if Qle_bool 0.5 confidence_value then "#eab308"
          else "#dc2626" in
        (* aisle, section, category, price, in_stock: all of them set,
           or all of them None *)
        let fields :=
          if found then
            match location result with
            | Some loc =>
                match meta result with
                | Some m =>
                    Ok (Some (loc_aisle loc, loc_section loc,
                              meta_category m, meta_price m,
                              meta_in_stock m))
                | None => Raise TypeError
                end
            | None => Ok None
            end
          else Ok None in
        match fields with
        | Raise _ => (internal_error, fs')
        | Ok fields =>
            let status_text :=
              if found then "Found in database ✅"
              else "Not in database ❌" in
            let in_stock := option_map snd fields in
            let stock_text :=
              match in_stock with
              | Some true => "In stock"
              | Some false => "Out of stock"
              | None => "Unknown"
              end in
            let preview_block := img_data_url in
            let details_block :=
              match fields with
              | Some (aisle, section, category, price, _) =>
                  DetailRows aisle section category price stock_text
              | None => NoDetails
              end in
            (Reply (mkResultPage label confidence_pct bar_color
                      preview_block details_block status_text), fs')
        end
    end.

End Endpoints.

(** How a result is shown on the page of [/predict]. *)
Definition render (file : UploadFile) (result : Result) : ResultPage :=
  mkResultPage (predicted_label result) (confidence result * 100)%Q
    (if Qle_bool 0.8 (confidence result) then "#16a34a"
     else if Qle_bool 0.5 (confidence result) then "#eab308"
     else "#dc2626")
    (Some (match content_type file with
           | Some ct => if Str.is_empty ct then "image/jpeg" else ct
           | None => "image/jpeg"
           end, file_bytes file))
    (match location result, meta result with
     | Some loc, Some m =>
         if found_in_database result
         then DetailRows (loc_aisle loc) (loc_section loc) (meta_category m)
                (meta_price m)
                (if meta_in_stock m then "In stock" else "Out of stock")
         else NoDetails
     | _, _ => NoDetails
     end)
    (if found_in_database result then "Found in database ✅"
     else "Not in database ❌").

(** The result dict that both handlers build from a label, a confidence
    and the outcome of the lookup. *)
Definition result_of (label : string) (confidence_value : Q)
    (product_info : option schemas.ProductLocation) : Result :=
  match product_info with
  | None =>
      mkResult label confidence_value false
        (Some ("No location info found for '" +:+ label +:+ "'."))
        None None
  | Some p =>
      mkResult label confidence_value true None
        (Some (mkLocation (schemas.aisle p) (schemas.section p)))
        (Some (mkMeta (schemas.category p) (schemas.price p)
                 (schemas.in_stock p)))
  end.

Definition map_response {A B} (f : A -> B) (r : Response A) : Response B :=
  match r with
  | Reply a => Reply (f a)
  | HTTPException c d => HTTPException c d
  end.

(** *** [/products/basic] *)

Section Basic.

(** An image file as [Image.open] leaves it: the format is identified
    and the header is read, the pixel data are not decoded yet. *)
Context {ImageFile : Type}.

(** [Image.open(io.BytesIO(file_bytes))], [None] when it raises. *)
Variable Image_open : list Byte.byte -> option ImageFile.

(** The classifier on such a file: decoding the data is its first step,
    and a file whose data do not decode makes it raise. *)
Variable top_classes : ImageFile -> nat -> exc (list (string * Q)).

(** [POST /products/basic]; [classifier.predict(image)] runs with the
    default [topk = 5]. *)
Definition classify_basic_product (file : UploadFile)
  : Response LocateResponse :=
  if vision.not_an_image (content_type file)
  then HTTPException 400 "Please upload an image file."
  else
    match Image_open (file_bytes file) with
    | None => HTTPException 400 "Could not read image."
    | Some image =>
        match schemas.predict top_classes image 5 with
        | Raise _ => internal_error
        | Ok (label, confidence, _) =>
            let detected := mkDetectedProduct label confidence in
            let msg :=
              if String.eqb label "neither"
              then "No banana or apple detected."
              else "Detected " +:+ label +:+ "." in
            Reply (mkLocateResponse detected None msg)
        end
    end.

End Basic.

(** *** [/products] *)

(** A row of the catalogue table, by the cells of its f-string. *)
Record CatalogRow : Type := mkCatalogRow {
  cat_product_name : string;
  cat_category : string;
  cat_aisle : string;
  cat_section : string;
  cat_price : Q;
  cat_stock_text : string
}.

(** The body of [for p in products]. *)
Definition catalog_row (p : ProductLocation) : CatalogRow :=
  let stock_text := if in_stock p then "In stock" else "Out of stock" in
  mkCatalogRow (product_name p) (category p) (aisle p) (section p) (price p)
    stock_text.

Fixpoint catalog_loop (products : list ProductLocation)
    (rows_html : list CatalogRow) : list CatalogRow :=
  match products with
  | [] => rows_html
  | p :: rest => catalog_loop rest (rows_html ++ [catalog_row p])
  end.

(** [GET /products]: the rows of the page. *)
Definition list_products (db : database.table) : list CatalogRow :=
  let products := database.all_products db in
  catalog_loop products [].

(** *** [/detect] and [/api/detect] *)

(** The dict that [/api/detect] returns. *)
Record DetectReply : Type := mkDetectReply {
  base_prediction_label : string;
  base_prediction_confidence : Q;
  detections : list vision.Detection
}.

(** A row of the detections table, and the holes of the page of [/detect]. *)
Record DetectionRow : Type := mkDetectionRow {
  det_label : string;
  det_confidence : Q;
  det_box : Z * Z * Z * Z
}.

Record DetectPage : Type := mkDetectPage {
  detect_base_label : string;
  detect_base_pct : Q;
  original_url : list Byte.byte;
  annotated_url : list Byte.byte;
  detect_rows : list DetectionRow
}.

Section Detect.

Variable PIL_open : list Byte.byte -> option vision.Image.
Variable top_classes : vision.Image -> nat -> exc (list (string * Q)).

(** [POST /api/detect]; [g] is the state of the generator when the request
    arrives. *)
Definition detect_api (file : UploadFile) (g : random.rng)
  : Response DetectReply :=
  if vision.not_an_image (content_type file)
  then HTTPException 400 "Please upload an image file."
  else
    match PIL_open (file_bytes file) with
    | None => HTTPException 400 "Could not open image."
    | Some image =>
        match schemas.predict top_classes image 5 with
        | Raise _ => internal_error
        | Ok (base_label, base_conf, _) =>
            match vision.fake_multi_detections image base_label g with
            | Raise _ => internal_error
            | Ok (detections, _) =>
                Reply (mkDetectReply base_label base_conf detections)
            end
        end
    end.

Variable PIL_rectangle :
  list Z -> option vision.RGB -> option vision.RGB -> Z ->
  vision.Image -> vision.Image * option exn.
Variable PIL_text :
  Z * Z -> string -> option vision.RGB ->
  vision.Image -> vision.Image * option exn.

(** [img.save(buf, format="JPEG")] and the bytes it leaves in [buf]. *)
Variable JPEG_save : vision.Image -> exc (list Byte.byte).

(** [to_data_url(img)]: the JPEG bytes of the object as it is now. *)
Definition to_data_url (img : positive) : vision.IO (list Byte.byte) :=
  fun h => match h !! img with
           | Some im => (JPEG_save im, h)
           | None => (Raise AttributeError, h)
           end.

(** [for det in detections: rows_html += ...] *)
Fixpoint detection_rows (detections : list vision.Detection)
    (rows_html : list DetectionRow) : exc (list DetectionRow) :=
  match detections with
  | [] => Ok rows_html
  | det :: rest =>
      match vision.bbox det with
      | [x1; y1; x2; y2] =>
          detection_rows rest
            (rows_html ++
             [mkDetectionRow (vision.label det) (vision.confidence det)
                (x1, y1, x2, y2)])
      | _ => Raise (ValueError "wrong number of values to unpack")
      end
  end.

(** [POST /detect] *)
Definition detect_html (file : UploadFile) (g : random.rng)
  : gmap positive vision.Image ->
    Response DetectPage * gmap positive vision.Image :=
  fun h =>
    if vision.not_an_image (content_type file)
    then (HTTPException 400 "Please upload an image file.", h)
    else
      match PIL_open (file_bytes file) with
      | None => (HTTPException 400 "Could not open image.", h)
      | Some decoded =>
          let body : vision.IO DetectPage :=
            se_bind (vision.Image_new decoded) (fun image =>
            match schemas.predict top_classes decoded 5 with
            | Raise e => se_raise e
            | Ok (base_label, base_conf, _) =>
                match vision.fake_multi_detections decoded base_label g with
                | Raise e => se_raise e
                | Ok (detections, _) =>
                    se_bind (vision.draw_detections PIL_rectangle PIL_text
                               image detections) (fun annotated =>
                    se_bind (to_data_url image) (fun original_url =>
                    se_bind (to_data_url annotated) (fun annotated_url =>
                    match detection_rows detections [] with
                    | Raise e => se_raise e
                    | Ok rows_html =>
                        se_ret (mkDetectPage base_label (base_conf * 100)%Q
                                  original_url annotated_url rows_html)
                    end)))
                end
            end) in
          match body h with
          | (Ok page, h') => (Reply page, h')
          | (Raise _, h') => (internal_error, h')
          end
      end.

End Detect.

(** The lines of the log file; a missing file has none. *)
Definition log_lines (fs : FileSystem) : list LogLine :=
  default [] (log_file fs).

(** The order of the rows of the catalogue page. *)
Definition catalog_le (row1 row2 : CatalogRow) : Prop :=
  match String.compare (cat_aisle row1) (cat_aisle row2) with
  | Lt => True
  | Gt => False
  | Eq => String.leb (cat_product_name row1) (cat_product_name row2) = true
  end.

(** The row of the detections table shows the detection. *)
Definition shows (row : DetectionRow) (det : vision.Detection) : Prop :=
  det_label row = vision.label det /\
  det_confidence row = vision.confidence det /\
  let '(x1, y1, x2, y2) := det_box row in vision.bbox det = [x1; y1; x2; y2].

End routes.

(** ** Sample data *)

Module sample.

Import vision database routes.

(** A decoder that accepts every non-empty file as a 640 x 480 image. *)
Definition PIL_open (b : list Byte.byte) : option Image :=
  match b with
  | [] => None
  | _ :: _ => Some (mkImage 640 480 [])
  end.

Definition image : Image := mkImage 640 480 [].

Definition upload : UploadFile :=
  mkUploadFile [Byte.x89; Byte.x50; Byte.x4e; Byte.x47] (Some "image/png").

Definition products : table :=
  [mkRow "banana" "produce" "1" "A" 0.59 1;
   mkRow "apple" "produce" "1" "B" 0.99 0].

Definition csv : list CsvRecord :=
  [mkCsvRecord "  Banana " "produce" "1" "A" "0.59" "yes";
   mkCsvRecord "APPLE" "produce" "1" "B" "0.99" "no"].

(** Enough of [float] for the prices of [csv]. *)
Definition float_of_string (s : string) : option Q :=
  if String.eqb s "0.59" then Some 0.59%Q
  else if String.eqb s "0.99" then Some 0.99%Q
  else None.

Definition disk : FileSystem :=
  mkFileSystem None "2024-05-01T12:00:00" false false false.

Definition full_disk : FileSystem :=
  mkFileSystem (Some []) "2024-05-01T12:00:00" false false true.

Definition rng : random.rng := fun n => N.of_nat (37 * n + 13).

(** Rasterisers that paint the whole buffer, the second of which fails. *)
Definition PIL_rectangle (xy : list Z) (fill outline : option RGB)
    (width : Z) (im : Image) : Image * option exn :=
  let colour := default (0, 0, 0) (from_option Some outline fill) in
  (mkImage (vision.width im) (vision.height im)
     (map (fun _ => colour) (pixels im)), None).

Definition PIL_text (xy : Z * Z) (text : string) (fill : option RGB)
    (im : Image) : Image * option exn :=
  (im, Some OSError).

Definition photo : Image := mkImage 2 1 [(9, 9, 9); (7, 7, 7)].

Definition detections : list Detection :=
  [mkDetection "banana" 0.91 [0; 0; 2; 1]].

(** A network that ranks an apple first and a banana second. *)
Definition top_classes (img : Image) (topk : nat)
  : exc (list (string * Q)) :=
  Ok (firstn topk
        [("Granny Smith", 0.61%Q); ("banana", 0.22%Q); ("orange", 0.08%Q);
         ("lemon", 0.05%Q); ("fig", 0.01%Q)]).

(** A decoder for thumbnails of 8 x 8 pixels. *)
Definition thumbnail : Image := mkImage 8 8 [].

Definition open_thumbnail (b : list Byte.byte) : option Image :=
  match b with
  | [] => None
  | _ :: _ => Some thumbnail
  end.

(** A JPEG encoder that writes one byte per pixel. *)
Definition JPEG_save (im : Image) : exc (list Byte.byte) :=
  Ok (map (fun _ => Byte.xff) (pixels im)).

(** A rasteriser for the label text that succeeds. *)
Definition PIL_text_ok (xy : Z * Z) (text : string) (fill : option RGB)
    (im : Image) : Image * option exn :=
  (im, None).

(** A CSV file that names the banana twice. *)
Definition first_banana : CsvRecord :=
  mkCsvRecord "Banana" "produce" "1" "A" "0.59" "yes".

Definition last_banana : CsvRecord :=
  mkCsvRecord " BANANA " "fruit" "7" "C" "0.99" "no".

Definition csv_twice : list CsvRecord := [first_banana; last_banana].

(** A CSV file whose last record has no price. *)
Definition csv_no_price : list CsvRecord :=
  [first_banana; mkCsvRecord "kiwi" "produce" "2" "A" "n/a" "yes"].

(** Detections the second of which has a box that lacks a number. *)
Definition bad_detections : list Detection :=
  [mkDetection "apple" 0.88 [0; 0; 1; 1];
   mkDetection "banana" 0.91 [0; 0; 2];
   mkDetection "cereal" 0.6 [1; 0; 2; 1]].

End sample.

(** * Properties *)

(** ** Strings *)

Section StrFacts.

Import Str.

Lemma startswith_append (p post : string) :
  startswith p (String.append p post) = true.
Proof.
  induction p as [|a p IH]; simpl; [reflexivity|].
  rewrite Ascii.eqb_refl. exact IH.
Qed.

Lemma startswith_inv (p s : string) :
  startswith p s = true -> exists post, s = String.append p post.
Proof.
  revert s. induction p as [|a p IH]; intros s H.
  - exists s. reflexivity.
  - destruct s as [|b s]; simpl in H; [discriminate|].
    destruct (Ascii.eqb a b) eqn:E; [|discriminate].
    apply Ascii.eqb_eq in E. subst b.
    destruct (IH _ H) as [post ->]. exists post. reflexivity.
Qed.

Lemma contains_occurs (k s : string) :
  contains k s = true <-> occurs_in k s.
Proof.
  split.
  - induction s as [|c s IH]; simpl.
    + destruct (startswith k "") eqn:E; [|discriminate].
      intros _. apply startswith_inv in E. destruct E as [post E].
      exists "", post. exact E.
    + destruct (startswith k (String c s)) eqn:E.
      * intros _. apply startswith_inv in E. destruct E as [post E].
        exists "", post. exact E.
      * intros H. destruct (IH H) as (pre & post & ->).
        exists (String c pre), post. reflexivity.
  - intros (pre & post & ->).
    induction pre as [|c pre IH]; simpl.
    + destruct k; simpl.
      * destruct post; reflexivity.
      * rewrite Ascii.eqb_refl, startswith_append. reflexivity.
    + destruct (startswith k _); [reflexivity|]. exact IH.
Qed.

End StrFacts.

(** ** Unicode strings *)

Section UnicodeFacts.

Import Unicode.
Local Open Scope N_scope.

Ltac bool_prop :=
  repeat first [rewrite andb_true_iff | rewrite orb_true_iff
               | rewrite N.leb_le | rewrite N.ltb_lt | rewrite N.eqb_eq].
Ltac bool_prop_in H :=
  repeat first [rewrite andb_true_iff in H | rewrite orb_true_iff in H
               | rewrite N.leb_le in H | rewrite N.ltb_lt in H
               | rewrite N.eqb_eq in H].
Ltac bool_true := bool_prop; lia.
Ltac bool_false := apply not_true_is_false; bool_prop; lia.
Ltac euclid := zify; Z.to_euclidean_division_equations; lia.

Lemma byte_embedding (b : N) : b < 256 -> N_of_ascii (ascii_of_N b) = b.
Proof. apply N_ascii_embedding. Qed.

Lemma append_cons (a : ascii) (s t : string) :
  String.append (String a s) t = String a (String.append s t).
Proof. reflexivity. Qed.

Lemma append_empty (t : string) : String.append EmptyString t = t.
Proof. reflexivity. Qed.

Lemma scalar_spec (c : N) :
  scalar c = true <-> c < 0xD800 \/ (0xE000 <= c /\ c < 0x110000).
Proof. unfold scalar. bool_prop. reflexivity. Qed.

Lemma decode_encode_codepoint (c : N) (rest : string) :
  scalar c = true ->
  utf8_decode (String.append (string_of_bytes (encode_codepoint c)) rest) =
  c :: utf8_decode rest.
Proof.
  intros Hv. apply scalar_spec in Hv. unfold encode_codepoint.
  destruct (N.ltb_spec c 0x80) as [H1|H1];
    [|destruct (N.ltb_spec c 0x800) as [H2|H2];
      [|destruct (N.ltb_spec c 0x10000) as [H3|H3]]].
  - cbn [string_of_bytes]. rewrite ?append_cons, append_empty.
    cbn [utf8_decode].
    rewrite byte_embedding by lia.
    replace (c <? 0x80) with true by (symmetry; bool_true). reflexivity.
  - set (q := c / 64). set (r := c mod 64).
    assert (2 <= q <= 31) by (subst q; euclid).
    assert (r < 64) by (subst r; euclid).
    assert (c = q * 64 + r) as E by (subst q r; euclid).
    cbn [string_of_bytes]. rewrite ?append_cons, append_empty.
    cbn [utf8_decode].
    rewrite !byte_embedding by lia.
    replace (0xC0 + q <? 0x80) with false by (symmetry; bool_false).
    replace (two_bytes (0xC0 + q) (0x80 + r)) with true
      by (symmetry; unfold two_bytes, continuation; bool_true).
    f_equal. lia.
  - set (p := c / 4096). set (q := (c / 64) mod 64). set (r := c mod 64).
    assert (p <= 15) by (subst p; euclid).
    assert (q < 64) by (subst q; euclid).
    assert (r < 64) by (subst r; euclid).
    assert (c = p * 4096 + q * 64 + r) as E by (subst p q r; euclid).
    cbn [string_of_bytes]. rewrite ?append_cons, append_empty.
    cbn [utf8_decode].
    rewrite !byte_embedding by lia.
    replace (0xE0 + p <? 0x80) with false by (symmetry; bool_false).
    replace (two_bytes (0xE0 + p) (0x80 + q)) with false
      by (symmetry; unfold two_bytes, continuation; bool_false).
    replace (three_bytes (0xE0 + p) (0x80 + q) (0x80 + r)) with true
      by (symmetry; unfold three_bytes, continuation; bool_true).
    f_equal. lia.
  - set (o := c / 262144). set (p := (c / 4096) mod 64).
    set (q := (c / 64) mod 64). set (r := c mod 64).
    assert (o <= 4) by (subst o; euclid).
    assert (p < 64) by (subst p; euclid).
    assert (q < 64) by (subst q; euclid).
    assert (r < 64) by (subst r; euclid).
    assert (c = o * 262144 + p * 4096 + q * 64 + r) as E
      by (subst o p q r; euclid).
    cbn [string_of_bytes]. rewrite ?append_cons, append_empty.
    cbn [utf8_decode].
    rewrite !byte_embedding by lia.
    replace (0xF0 + o <? 0x80) with false by (symmetry; bool_false).
    replace (two_bytes (0xF0 + o) (0x80 + p)) with false
      by (symmetry; unfold two_bytes, continuation; bool_false).
    replace (three_bytes (0xF0 + o) (0x80 + p) (0x80 + q)) with false
      by (symmetry; unfold three_bytes, continuation; bool_false).
    replace (four_bytes (0xF0 + o) (0x80 + p) (0x80 + q) (0x80 + r)) with true
      by (symmetry; unfold four_bytes, continuation; bool_true).
    f_equal. lia.
Qed.

(** Decoding what was encoded gives the code points back. *)
Lemma decode_encode (l : list N) :
  Forall (fun c => scalar c = true) l -> utf8_decode (utf8_encode l) = l.
Proof.
  induction 1 as [|c l Hc _ IH]; [reflexivity|].
  cbn [utf8_encode]. rewrite decode_encode_codepoint by exact Hc.
  rewrite IH. reflexivity.
Qed.

Lemma byte_bound (a : ascii) : N_of_ascii a < 256.
Proof. apply N_ascii_bounded. Qed.

(** The decoder gives scalar values only. *)
Lemma decode_scalar (s : string) :
  Forall (fun c => scalar c = true) (utf8_decode s).
Proof.
  assert (forall n s, (String.length s <= n)%nat ->
                      Forall (fun c => scalar c = true) (utf8_decode s)) as H.
  { clear s. induction n as [|n IH]; intros s Hlen.
    - destruct s; simpl in Hlen; [constructor | lia].
    - destruct s as [|a1 r1]; [constructor|].
      simpl in Hlen.
      assert (Forall (fun c => scalar c = true) (utf8_decode r1)) as Hr1
        by (apply IH; lia).
      assert (scalar replacement = true) as Hrep by reflexivity.
      pose proof (byte_bound a1) as B1.
      cbn [utf8_decode].
      destruct (N.ltb_spec (N_of_ascii a1) 0x80) as [L1|L1].
      { constructor; [apply scalar_spec; lia | exact Hr1]. }
      destruct r1 as [|a2 r2]; [constructor; assumption|].
      pose proof (byte_bound a2) as B2.
      destruct (two_bytes (N_of_ascii a1) (N_of_ascii a2)) eqn:E2.
      { unfold two_bytes, continuation in E2. bool_prop_in E2.
        constructor; [apply scalar_spec; lia|].
        apply IH. simpl in Hlen |- *. lia. }
      destruct r2 as [|a3 r3]; [constructor; assumption|].
      pose proof (byte_bound a3) as B3.
      destruct (three_bytes (N_of_ascii a1) (N_of_ascii a2) (N_of_ascii a3))
        eqn:E3.
      { unfold three_bytes, continuation in E3. bool_prop_in E3.
        constructor; [apply scalar_spec; lia|].
        apply IH. simpl in Hlen |- *. lia. }
      destruct r3 as [|a4 r4]; [constructor; assumption|].
      pose proof (byte_bound a4) as B4.
      destruct (four_bytes (N_of_ascii a1) (N_of_ascii a2) (N_of_ascii a3)
                  (N_of_ascii a4)) eqn:E4.
      { unfold four_bytes, continuation in E4. bool_prop_in E4.
        constructor; [apply scalar_spec; lia|].
        apply IH. simpl in Hlen |- *. lia. }
      constructor; assumption. }
  apply (H (String.length s)). lia.
Qed.

(** *** The tables *)

Lemma assoc_In (c d : N) (table : list (N * N)) :
  assoc c table = Some d -> In (c, d) table.
Proof.
  induction table as [|[k v] rest IH]; simpl; [discriminate|].
  destruct (N.eqb_spec k c) as [->|_].
  - intros [= ->]. now left.
  - intros H. right. apply IH, H.
Qed.

(** What the table gives is a scalar value, is no white space and is left
    alone by a second lowering. *)
Lemma lowercase_table_values :
  forallb (fun kv => scalar (snd kv) && negb (is_whitespace (snd kv)) &&
                     lower_fixed (snd kv)) lowercase_table = true.
Proof. vm_compute. reflexivity. Qed.

Lemma lowercase_table_value (c d : N) :
  assoc c lowercase_table = Some d ->
  scalar d = true /\ is_whitespace d = false /\ lower_fixed d = true.
Proof.
  intros H. apply assoc_In in H.
  pose proof (proj1 (forallb_forall _ _) lowercase_table_values _ H) as P.
  cbn [snd] in P. apply andb_prop in P. destruct P as [P P3].
  apply andb_prop in P. destruct P as [P1 P2].
  apply negb_true_iff in P2. auto.
Qed.

Lemma lower_ucs4_spec (before : list N) (c : N) (after : list N) :
  exists d ds, lower_ucs4 before c after = d :: ds /\
               Forall (lowered c) (d :: ds).
Proof.
  unfold lower_ucs4. destruct (N.eqb_spec c 0x3A3) as [->|Hsigma].
  - eexists _, _. split; [reflexivity|]. constructor; [|constructor].
    unfold handle_capital_sigma.
    match goal with |- lowered _ (if ?b then _ else _) => destruct b end;
      repeat split; intros; vm_compute; reflexivity.
  - unfold to_lower_full. destruct (N.eqb_spec c 0x130) as [->|Hdot].
    + eexists _, _. split; [reflexivity|].
      repeat constructor; intros; vm_compute; reflexivity.
    + destruct (assoc c lowercase_table) as [d|] eqn:E.
      * eexists _, _. split; [reflexivity|]. constructor; [|constructor].
        destruct (lowercase_table_value _ _ E) as (P1 & P2 & P3).
        repeat split; auto.
      * eexists _, _. split; [reflexivity|]. constructor; [|constructor].
        repeat split; auto.
        unfold lower_fixed. rewrite E.
        apply N.eqb_neq in Hsigma, Hdot. rewrite Hsigma, Hdot. reflexivity.
Qed.

Lemma lower_ucs4_fixed (before : list N) (c : N) (after : list N) :
  lower_fixed c = true -> lower_ucs4 before c after = [c].
Proof.
  unfold lower_fixed, lower_ucs4, to_lower_full. intros H.
  apply andb_prop in H. destruct H as [H H3].
  apply andb_prop in H. destruct H as [H1 H2].
  apply negb_true_iff in H1, H2. rewrite H1, H2.
  destruct (assoc c lowercase_table); [discriminate | reflexivity].
Qed.

Lemma do_lower_fixed (before l : list N) :
  Forall (fun c => lower_fixed c = true) l -> do_lower before l = l.
Proof.
  intros H. revert before.
  induction H as [|c l Hc _ IH]; intros before; [reflexivity|].
  cbn [do_lower]. rewrite lower_ucs4_fixed by exact Hc. rewrite IH.
  reflexivity.
Qed.

Lemma do_lower_lowered (before l : list N) :
  Forall (fun d => lower_fixed d = true) (do_lower before l).
Proof.
  revert before. induction l as [|c l IH]; intros before; [constructor|].
  cbn [do_lower]. apply Forall_app. split; [|apply IH].
  destruct (lower_ucs4_spec before c l) as (d & ds & -> & H).
  eapply List.Forall_impl; [|exact H]. intros a Ha. apply Ha.
Qed.

Lemma do_lower_scalar (before l : list N) :
  Forall (fun c => scalar c = true) l ->
  Forall (fun c => scalar c = true) (do_lower before l).
Proof.
  intros H. revert before.
  induction H as [|c l Hc _ IH]; intros before; [constructor|].
  cbn [do_lower]. apply Forall_app. split; [|apply IH].
  destruct (lower_ucs4_spec before c l) as (d & ds & -> & H).
  eapply List.Forall_impl; [|exact H]. intros a Ha. apply Ha, Hc.
Qed.

Lemma do_lower_nil (before l : list N) :
  do_lower before l = [] -> l = [].
Proof.
  destruct l as [|c l]; [reflexivity|]. cbn [do_lower].
  destruct (lower_ucs4_spec before c l) as (d & ds & -> & _). discriminate.
Qed.

(** *** White space at the ends *)

Lemma lstrip_starts_clean (l : list N) : starts_clean (lstrip l) = true.
Proof.
  induction l as [|c l IH]; [reflexivity|]. cbn [lstrip].
  destruct (is_whitespace c) eqn:E; [exact IH|]. cbn [starts_clean]. rewrite E. reflexivity.
Qed.

Lemma lstrip_clean (l : list N) : starts_clean l = true -> lstrip l = l.
Proof.
  destruct l as [|c l]; [reflexivity|]. cbn [starts_clean lstrip]. intros H.
  apply negb_true_iff in H. rewrite H. reflexivity.
Qed.

Lemma rstrip_starts_clean (l : list N) :
  starts_clean l = true -> starts_clean (rstrip l) = true.
Proof.
  destruct l as [|c l]; [reflexivity|]. cbn [starts_clean rstrip]. intros H.
  apply negb_true_iff in H. rewrite H. cbn [andb starts_clean]. rewrite H.
  reflexivity.
Qed.

Lemma rstrip_idem (l : list N) : rstrip (rstrip l) = rstrip l.
Proof.
  induction l as [|c l IH]; [reflexivity|]. cbn [rstrip].
  destruct (is_whitespace c && is_empty (rstrip l)) eqn:E; [reflexivity|].
  cbn [rstrip]. rewrite IH, E. reflexivity.
Qed.

Lemma rstrip_app (p t : list N) :
  rstrip (p ++ t) = if is_empty (rstrip t) then rstrip p else p ++ rstrip t.
Proof.
  induction p as [|x p IH].
  - cbn [app rstrip]. destruct (rstrip t); reflexivity.
  - cbn [app rstrip]. rewrite IH.
    destruct (rstrip t) as [|y r] eqn:E; cbn [is_empty]; [reflexivity|].
    destruct p; cbn [app is_empty]; rewrite andb_false_r; reflexivity.
Qed.

Lemma rstrip_no_whitespace (p : list N) :
  Forall (fun c => is_whitespace c = false) p -> rstrip p = p.
Proof.
  induction 1 as [|c p Hc _ IH]; [reflexivity|].
  cbn [rstrip]. rewrite IH, Hc. reflexivity.
Qed.

Lemma lstrip_Forall (P : N -> Prop) (l : list N) :
  Forall P l -> Forall P (lstrip l).
Proof.
  induction 1 as [|c l Hc Hl IH]; [constructor|]. cbn [lstrip].
  destruct (is_whitespace c); [exact IH | constructor; assumption].
Qed.

Lemma rstrip_Forall (P : N -> Prop) (l : list N) :
  Forall P l -> Forall P (rstrip l).
Proof.
  induction 1 as [|c l Hc Hl IH]; [constructor|]. cbn [rstrip].
  destruct (is_whitespace c && is_empty (rstrip l));
    constructor; assumption.
Qed.

Lemma strip_Forall (P : N -> Prop) (l : list N) :
  Forall P l -> Forall P (strip l).
Proof. intros H. apply rstrip_Forall, lstrip_Forall, H. Qed.

(** Lowering puts no white space at the ends. *)
Lemma do_lower_starts_clean (before l : list N) :
  starts_clean l = true -> starts_clean (do_lower before l) = true.
Proof.
  destruct l as [|c l]; [reflexivity|]. cbn [starts_clean do_lower].
  intros H. apply negb_true_iff in H.
  destruct (lower_ucs4_spec before c l) as (d & ds & -> & Hd).
  inversion Hd as [|? ? (_ & _ & Hw) _]. cbn [app starts_clean].
  rewrite (Hw H). reflexivity.
Qed.

Lemma do_lower_rstrip (before l : list N) :
  rstrip l = l -> rstrip (do_lower before l) = do_lower before l.
Proof.
  revert before. induction l as [|c l IH]; intros before; [reflexivity|].
  cbn [rstrip do_lower].
  destruct (is_whitespace c && is_empty (rstrip l)) eqn:E; [discriminate|].
  intros [= Hl]. rewrite rstrip_app, (IH _ Hl).
  destruct (do_lower (c :: before) l) as [|y t] eqn:Et; cbn [is_empty];
    [|reflexivity].
  apply do_lower_nil in Et. subst l. cbn [rstrip is_empty] in E. rewrite andb_true_r in E.
  rewrite app_nil_r. apply rstrip_no_whitespace.
  destruct (lower_ucs4_spec before c []) as (d & ds & -> & Hd).
  eapply List.Forall_impl; [|exact Hd]. intros a (_ & _ & Hw). apply Hw, E.
Qed.

(** *** [strip().lower()] *)

Lemma lower_strip_fixed (l : list N) :
  let m := lower (strip l) in lower (strip m) = m.
Proof.
  intros m.
  assert (strip m = m) as ->.
  { unfold strip. rewrite lstrip_clean.
    - apply do_lower_rstrip. unfold strip. apply rstrip_idem.
    - apply do_lower_starts_clean. unfold strip.
      apply rstrip_starts_clean, lstrip_starts_clean. }
  apply do_lower_fixed, do_lower_lowered.
Qed.

Lemma lower_char_spec (c : ascii) :
  (N_of_ascii c <? 128) = true ->
  forall before after,
    lower_ucs4 before (N_of_ascii c) after = [N_of_ascii (Str.lower_char c)].
Proof.
  intros H before after. unfold lower_ucs4.
  destruct c as [[] [] [] [] [] [] [] []];
    try discriminate H; vm_compute; reflexivity.
Qed.

Lemma lower_char_ascii (c : ascii) :
  (N_of_ascii c <? 128) = true -> (N_of_ascii (Str.lower_char c) <? 128) = true.
Proof.
  destruct c as [[] [] [] [] [] [] [] []]; intros H;
    try discriminate H; reflexivity.
Qed.

Lemma decode_ascii (c : ascii) (s : string) :
  (N_of_ascii c <? 128) = true ->
  utf8_decode (String c s) = N_of_ascii c :: utf8_decode s.
Proof. intros H. cbn [utf8_decode]. rewrite H. reflexivity. Qed.

Lemma encode_ascii (c : ascii) (l : list N) :
  (N_of_ascii c <? 128) = true ->
  utf8_encode (N_of_ascii c :: l) = String c (utf8_encode l).
Proof.
  intros H. cbn [utf8_encode]. unfold encode_codepoint. rewrite H.
  cbn [string_of_bytes]. rewrite append_cons, append_empty, ascii_N_embedding.
  reflexivity.
Qed.

(** On ASCII strings the Unicode algorithm is [ascii_lower]. *)
Lemma ascii_lower_unicode (s : string) (before : list N) :
  Str.isascii s = true ->
  utf8_encode (do_lower before (utf8_decode s)) = Str.ascii_lower s.
Proof.
  revert before. induction s as [|c s IH]; intros before H; [reflexivity|].
  cbn [Str.isascii] in H. apply andb_prop in H. destruct H as [Hc Hs].
  rewrite decode_ascii by exact Hc. cbn [do_lower Str.ascii_lower].
  rewrite lower_char_spec by exact Hc. cbn [app].
  rewrite encode_ascii by (apply lower_char_ascii, Hc).
  rewrite IH by exact Hs. reflexivity.
Qed.

Lemma lower_unicode (s : string) :
  Str.lower s = utf8_encode (lower (utf8_decode s)).
Proof.
  unfold Str.lower. destruct (Str.isascii s) eqn:E; [|reflexivity].
  symmetry. apply ascii_lower_unicode, E.
Qed.

Lemma decode_lower_strip (s : string) :
  utf8_decode (Str.lower (Str.strip s)) = lower (strip (utf8_decode s)).
Proof.
  rewrite lower_unicode. unfold Str.strip.
  assert (Forall (fun c => scalar c = true) (strip (utf8_decode s))) as H
    by apply strip_Forall, decode_scalar.
  rewrite (decode_encode _ H).
  apply decode_encode, do_lower_scalar, H.
Qed.

(** [n.strip().lower()] is idempotent. *)
Lemma normalize_idem (s : string) :
  Str.lower (Str.strip (Str.lower (Str.strip s))) = Str.lower (Str.strip s).
Proof.
  rewrite (lower_unicode (Str.strip (Str.lower (Str.strip s)))).
  unfold Str.strip at 1. rewrite decode_lower_strip.
  assert (Forall (fun c => scalar c = true)
            (strip (lower (strip (utf8_decode s))))) as H
    by apply strip_Forall, do_lower_scalar, strip_Forall, decode_scalar.
  rewrite (decode_encode _ H).
  rewrite (lower_strip_fixed (utf8_decode s)).
  rewrite lower_unicode. unfold Str.strip.
  rewrite decode_encode by apply strip_Forall, decode_scalar.
  reflexivity.
Qed.

(** Capitals with accents, the final sigma, the dotted capital I, and
    white space that is not ASCII. *)
Example lower_strip_unicode :
  Str.lower "ÉCLAIR" = "éclair" /\
  Str.lower "ΟΔΟΣ ΟΣΟ" = "οδος οσο" /\
  Str.lower (utf8_encode [0x130]) = utf8_encode [0x69; 0x307] /\
  Str.strip (utf8_encode [0xA0; 0x2003; 0x6B; 0x69; 0x77; 0x69; 0x85]) =
  "kiwi".
Proof. vm_compute. repeat split. Qed.

End UnicodeFacts.

(** ** Names written in ASCII *)

Section AsciiNames.

Import Str.

Lemma same_letter_lower_char (a : ascii) : same_letter a (lower_char a).
Proof.
  unfold same_letter, lower_char, is_upper.
  destruct ((65 <=? N_of_ascii a)%N && (N_of_ascii a <=? 90)%N) eqn:E;
    [|now left].
  apply andb_prop in E. destruct E as [E1 E2].
  apply N.leb_le in E1, E2. right. repeat split; [assumption..|].
  apply N_ascii_embedding. lia.
Qed.

Lemma lower_char_same_letter (a b : ascii) :
  same_letter a b -> is_upper b = false -> lower_char a = b.
Proof.
  unfold same_letter, lower_char. intros [->|(H1 & H2 & H3)] Hb.
  - rewrite Hb. reflexivity.
  - unfold is_upper.
    replace ((65 <=? N_of_ascii a)%N && (N_of_ascii a <=? 90)%N) with true
      by (symmetry; apply andb_true_intro; split; apply N.leb_le; assumption).
    rewrite <- H3. apply ascii_N_embedding.
Qed.

Lemma spells_ascii_lower (s : string) : spells s (ascii_lower s).
Proof.
  induction s as [|a s IH]; [exact I|].
  split; [apply same_letter_lower_char | exact IH].
Qed.

Lemma ascii_lower_spells (s word : string) :
  spells s word -> no_capital word = true -> ascii_lower s = word.
Proof.
  revert word. induction s as [|a s IH]; intros [|b word] H Hw;
    try contradiction; [reflexivity|].
  destruct H as [Hab H]. cbn [no_capital] in Hw.
  apply andb_prop in Hw. destruct Hw as [Hb Hw].
  apply negb_true_iff in Hb. cbn [ascii_lower].
  rewrite (lower_char_same_letter _ _ Hab Hb), (IH _ H Hw). reflexivity.
Qed.

Lemma ascii_lower_app (s t : string) :
  ascii_lower (String.append s t) =
  String.append (ascii_lower s) (ascii_lower t).
Proof.
  induction s as [|a s IH]; [reflexivity|].
  rewrite !append_cons. cbn [ascii_lower]. rewrite IH, append_cons.
  reflexivity.
Qed.

Lemma ascii_lower_app_inv (s u v : string) :
  ascii_lower s = String.append u v ->
  exists s1 s2, s = String.append s1 s2 /\
                ascii_lower s1 = u /\ ascii_lower s2 = v.
Proof.
  revert s. induction u as [|a u IH]; intros s H.
  - exists EmptyString, s. repeat split. exact H.
  - destruct s as [|b s]; [discriminate|].
    rewrite append_cons in H. cbn [ascii_lower] in H.
    injection H as Hb H. destruct (IH _ H) as (s1 & s2 & -> & H1 & H2).
    exists (String b s1), s2. repeat split; [|exact H2].
    cbn [ascii_lower]. rewrite Hb, H1. reflexivity.
Qed.

(** In a name written in ASCII, the lowercased name contains a word
    without capitals when a part of the name spells it. *)
Lemma occurs_in_lower (k lbl : string) :
  isascii lbl = true -> no_capital k = true ->
  occurs_in k (lower lbl) <->
  exists pre mid post,
    lbl = String.append pre (String.append mid post) /\ spells mid k.
Proof.
  intros Hlbl Hk. unfold lower. rewrite Hlbl. unfold occurs_in. split.
  - intros (pre & post & H).
    apply ascii_lower_app_inv in H. destruct H as (s1 & s2 & -> & H1 & H2).
    apply ascii_lower_app_inv in H2. destruct H2 as (s3 & s4 & -> & H3 & H4).
    exists s1, s3, s4. split; [reflexivity|].
    rewrite <- H3. apply spells_ascii_lower.
  - intros (pre & mid & post & -> & H).
    exists (ascii_lower pre), (ascii_lower post).
    rewrite !ascii_lower_app, (ascii_lower_spells _ _ H Hk). reflexivity.
Qed.

Lemma some_name_mentions (keywords labels : list string) :
  Forall (fun lbl => isascii lbl = true) labels ->
  Forall (fun k => no_capital k = true) keywords ->
  schemas.some_name_contains keywords labels <->
  schemas.mentions keywords labels.
Proof.
  intros Hl Hk. unfold schemas.some_name_contains, schemas.mentions.
  rewrite List.Forall_forall in Hl, Hk. split.
  - intros (lbl & k & Hin & Hkin & H).
    apply (occurs_in_lower _ _ (Hl _ Hin) (Hk _ Hkin)) in H.
    destruct H as (pre & mid & post & E & H).
    exists lbl, k, pre, mid, post. auto.
  - intros (lbl & k & pre & mid & post & Hin & Hkin & E & H).
    exists lbl, k. repeat split; [assumption..|].
    apply (occurs_in_lower _ _ (Hl _ Hin) (Hk _ Hkin)).
    exists pre, mid, post. auto.
Qed.

End AsciiNames.

(** ** The keyword mapping of the classifier *)

Section MapLabel.

Import schemas.

Lemma any_keyword_in_spec (keywords : list string) (lbl : string) :
  any_keyword_in keywords lbl = true <->
  exists k, In k keywords /\ Str.occurs_in k lbl.
Proof.
  induction keywords as [|k ks IH]; simpl.
  - split; [discriminate | intros (k & [] & _)].
  - destruct (Str.contains k lbl) eqn:E.
    + split; [|reflexivity]. intros _. exists k. split; [now left|].
      apply contains_occurs. exact E.
    + rewrite IH. split.
      * intros (k' & Hin & Hocc). exists k'. split; [now right | exact Hocc].
      * intros (k' & [-> | Hin] & Hocc).
        -- apply contains_occurs in Hocc. congruence.
        -- exists k'. split; assumption.
Qed.

Lemma loop_returns_spec (keywords : list string) (labels : list string) :
  loop_returns keywords (map Str.lower labels) = true <->
  some_name_contains keywords labels.
Proof.
  unfold some_name_contains.
  induction labels as [|l ls IH]; simpl.
  - split; [discriminate | intros (lbl & k & [] & _)].
  - destruct (any_keyword_in keywords (Str.lower l)) eqn:E.
    + split; [|reflexivity]. intros _.
      apply any_keyword_in_spec in E. destruct E as (k & Hin & Hocc).
      exists l, k. split; [now left | split; assumption].
    + rewrite IH. split.
      * intros (lbl & k & Hl & Hk & Hocc).
        exists lbl, k. split; [now right | split; assumption].
      * intros (lbl & k & [<- | Hl] & Hk & Hocc).
        -- assert (any_keyword_in keywords (Str.lower l) = true) as E'
             by (apply any_keyword_in_spec; exists k; split; assumption).
           congruence.
        -- exists lbl, k. split; [assumption | split; assumption].
Qed.

(** C3. [_map_label] returns one of "banana", "apple", "neither": "banana"
    when some name, lowercased, contains one of the banana keywords
    "banana" and "plantain", wherever that name stands in the list;
    otherwise "apple" when some name, lowercased, contains one of the
    apple keywords "granny smith", "red delicious", "golden delicious" and
    "apple"; otherwise "neither".  For names written in ASCII, a
    lowercased name contains a keyword exactly when a part of the name
    spells the keyword in small or capital letters. *)
Theorem map_label_spec (imagenet_labels : list string) :
  let banana :=
    some_name_contains ["banana"; "plantain"] imagenet_labels in
  let apple :=
    some_name_contains
      ["granny smith"; "red delicious"; "golden delicious"; "apple"]
      imagenet_labels in
  (banana -> _map_label imagenet_labels = "banana") /\
  (~ banana -> apple -> _map_label imagenet_labels = "apple") /\
  (~ banana -> ~ apple -> _map_label imagenet_labels = "neither") /\
  (_map_label imagenet_labels = "banana" \/
   _map_label imagenet_labels = "apple" \/
   _map_label imagenet_labels = "neither") /\
  (Forall (fun lbl => Str.isascii lbl = true) imagenet_labels ->
   (banana <-> mentions ["banana"; "plantain"] imagenet_labels) /\
   (apple <->
    mentions ["granny smith"; "red delicious"; "golden delicious"; "apple"]
      imagenet_labels)).
Proof.
  intros banana apple.
  pose proof (loop_returns_spec _banana_keywords imagenet_labels) as Hb.
  pose proof (loop_returns_spec _apple_keywords imagenet_labels) as Ha.
  change (some_name_contains _banana_keywords imagenet_labels) with banana
    in Hb.
  change (some_name_contains _apple_keywords imagenet_labels) with apple
    in Ha.
  unfold _map_label.
  destruct (loop_returns _banana_keywords (map Str.lower imagenet_labels));
    destruct (loop_returns _apple_keywords (map Str.lower imagenet_labels));
    (split; [|split; [|split; [|split]]]);
    try (intros Hascii; split; apply some_name_mentions;
         solve [exact Hascii | repeat constructor]);
    intros; auto; try (exfalso; intuition congruence).
Qed.

(** A banana name after an apple name still gives "banana". *)
Example map_label_precedence :
  _map_label ["Granny Smith"; "Plantain chips"] = "banana" /\
  _map_label ["Granny Smith"; "pineapple"] = "apple" /\
  _map_label ["tabby cat"] = "neither".
Proof. repeat split. Qed.

End MapLabel.

(** ** The request log *)

Section LogRequest.

Import routes.

Lemma se_try_pass_returns {S} (body : SE S unit) (s : S) :
  fst (se_try_pass body s) = Ok tt.
Proof.
  unfold se_try_pass. destruct (body s) as [[[]|e] s']; reflexivity.
Qed.

Lemma log_request_returns (result : Result) (fs : FileSystem) :
  fst (_log_request result fs) = Ok tt.
Proof. apply se_try_pass_returns. Qed.

(** A result without a location is never logged: [None] has no [get], and
    the [AttributeError] is swallowed with the rest. *)
Lemma log_request_without_location (result : Result) (fs : FileSystem) :
  location result = None ->
  mkdir_fails fs = false -> open_fails fs = false ->
  log_file (snd (_log_request result fs)) = Some (default [] (log_file fs)).
Proof.
  intros Hloc Hm Ho.
  unfold _log_request, se_try_pass, se_bind, mkdir_parent, open_append,
    datetime_now, location_get.
  rewrite Hm, Ho, Hloc. reflexivity.
Qed.

(** With a location and no failing call the line is appended. *)
Lemma log_request_appends (result : Result) (loc : Location) (fs : FileSystem) :
  location result = Some loc ->
  mkdir_fails fs = false -> open_fails fs = false -> write_fails fs = false ->
  log_file (snd (_log_request result fs)) =
  Some (default [] (log_file fs) ++
        [mkLogLine (now fs) (predicted_label result) (confidence result)
           (found_in_database result) (loc_aisle loc) (loc_section loc)]).
Proof.
  intros Hloc Hm Ho Hw.
  unfold _log_request, se_try_pass, se_bind, mkdir_parent, open_append,
    datetime_now, location_get, write, se_ret.
  rewrite Hm, Ho, Hloc. simpl. rewrite Hw. reflexivity.
Qed.

End LogRequest.

(** ** The prediction endpoints *)

Section Predict.

Import routes.

Variable PIL_open : list Byte.byte -> option vision.Image.
Variable db : database.table.

Lemma process_bytes_accepts (file : UploadFile) (image : vision.Image) :
  vision.not_an_image (content_type file) = false ->
  PIL_open (file_bytes file) = Some image ->
  vision.process_bytes_for_single_product PIL_open
    (file_bytes file) (content_type file) = Ok (image, "banana", 0.95%Q).
Proof.
  intros Hct Himg.
  unfold vision.process_bytes_for_single_product, vision.load_image.
  rewrite Hct, Himg. reflexivity.
Qed.

Lemma process_bytes_label (file : UploadFile) image label conf :
  vision.process_bytes_for_single_product PIL_open
    (file_bytes file) (content_type file) = Ok (image, label, conf) ->
  vision.not_an_image (content_type file) = false /\
  PIL_open (file_bytes file) = Some image /\
  label = "banana" /\ conf = 0.95%Q.
Proof.
  unfold vision.process_bytes_for_single_product, vision.load_image.
  destruct (vision.not_an_image (content_type file)); [discriminate|].
  destruct (PIL_open (file_bytes file)) as [img|]; [|discriminate].
  simpl. intros H. injection H as <- <- <-. repeat split.
Qed.

Lemma predict_api_accepts (file : UploadFile) (image : vision.Image)
    (fs : FileSystem) :
  vision.not_an_image (content_type file) = false ->
  PIL_open (file_bytes file) = Some image ->
  let result := result_of "banana" 0.95%Q (database.lookup db "banana") in
  predict_api PIL_open db file fs =
  (Reply result, snd (_log_request result fs)).
Proof.
  intros Hct Himg result. unfold predict_api.
  rewrite (process_bytes_accepts file image Hct Himg).
  fold (result_of "banana" 0.95%Q (database.lookup db "banana")).
  fold result. destruct (_log_request result fs). reflexivity.
Qed.

Lemma predict_html_refines (file : UploadFile) (fs : FileSystem) :
  predict_html PIL_open db file fs =
  (map_response (render file) (fst (predict_api PIL_open db file fs)),
   snd (predict_api PIL_open db file fs)).
Proof.
  unfold predict_html, predict_api.
  destruct (vision.process_bytes_for_single_product PIL_open
              (file_bytes file) (content_type file))
    as [[[image label] conf]|[]]; try reflexivity.
  destruct (database.lookup db label) as [p|];
    match goal with
    | |- context [_log_request ?r fs] => destruct (_log_request r fs)
    end; reflexivity.
Qed.

End Predict.

Section PredictClaims.

Import routes.

(** C1, as the code has it.  [/predict] and [/api/predict] take the label
    from the placeholder classifier of app/model.py, which does not look at
    the image: every upload that is accepted (an image content type and
    bytes that Pillow decodes) is answered with the label "banana" and the
    confidence 0.95, on the page and in the JSON payload, and the
    classifier returns that pair for every image. *)
Theorem predicted_label_is_banana
    (PIL_open : list Byte.byte -> option vision.Image)
    (db : database.table) (file : UploadFile) (image : vision.Image)
    (fs : FileSystem) :
  vision.not_an_image (content_type file) = false ->
  PIL_open (file_bytes file) = Some image ->
  vision.classify_image image = ("banana", 0.95%Q) /\
  (exists result fs',
     predict_api PIL_open db file fs = (Reply result, fs') /\
     predicted_label result = "banana" /\ confidence result = 0.95%Q) /\
  (exists page fs',
     predict_html PIL_open db file fs = (Reply page, fs') /\
     page_label page = "banana" /\ page_confidence_pct page == 95).
Proof.
  intros Hct Himg. split; [reflexivity|].
  pose proof (predict_api_accepts PIL_open db file image fs Hct Himg) as Hapi.
  cbv zeta in Hapi. split.
  - eexists _, _. split; [exact Hapi|].
    destruct (database.lookup db "banana"); split; reflexivity.
  - rewrite predict_html_refines, Hapi. simpl.
    eexists _, _. split; [reflexivity|].
    destruct (database.lookup db "banana"); split; reflexivity.
Qed.

(** C4. A request with a valid image goes through content-type validation,
    classification, the lookup of the predicted label and rendering:
    [found_in_database] is true exactly when the lookup of the predicted
    label returned a record, and then [location] carries that record's
    aisle and section. *)
Theorem predict_pipeline
    (PIL_open : list Byte.byte -> option vision.Image)
    (db : database.table) (file : UploadFile) (image : vision.Image)
    (fs : FileSystem) :
  vision.not_an_image (content_type file) = false ->
  PIL_open (file_bytes file) = Some image ->
  exists label conf result fs',
    vision.process_bytes_for_single_product PIL_open
      (file_bytes file) (content_type file) = Ok (image, label, conf) /\
    (label, conf) = vision.classify_image image /\
    predict_api PIL_open db file fs = (Reply result, fs') /\
    predict_html PIL_open db file fs = (Reply (render file result), fs') /\
    predicted_label result = label /\
    (found_in_database result = true <->
     exists record, database.lookup db label = Some record) /\
    (forall record,
       database.lookup db label = Some record ->
       location result =
       Some (mkLocation (schemas.aisle record) (schemas.section record))) /\
    (database.lookup db label = None -> location result = None).
Proof.
  intros Hct Himg.
  pose proof (predict_api_accepts PIL_open db file image fs Hct Himg) as Hapi.
  cbv zeta in Hapi.
  eexists "banana", 0.95%Q, _, _.
  split; [apply process_bytes_accepts; assumption|].
  split; [reflexivity|].
  split; [exact Hapi|].
  split; [rewrite predict_html_refines, Hapi; reflexivity|].
  destruct (database.lookup db "banana") as [p|]; simpl.
  - split; [reflexivity|]. split; [split; eauto|].
    split; [|discriminate]. intros record H. injection H as <-. reflexivity.
  - split; [reflexivity|]. split.
    + split; [discriminate | intros [record H]; discriminate].
    + split; [discriminate | reflexivity].
Qed.

(** The request is refused before anything else when the content type is
    not an image type, and next when the bytes do not decode. *)
Lemma predict_rejects
    (PIL_open : list Byte.byte -> option vision.Image)
    (db : database.table) (file : UploadFile) (fs : FileSystem) :
  (vision.not_an_image (content_type file) = true ->
   predict_api PIL_open db file fs =
   (HTTPException 400 "Please upload an image file.", fs)) /\
  (vision.not_an_image (content_type file) = false ->
   PIL_open (file_bytes file) = None ->
   predict_api PIL_open db file fs =
   (HTTPException 400 "Could not open image", fs)).
Proof.
  unfold predict_api, vision.process_bytes_for_single_product,
    vision.load_image.
  split.
  - intros ->. reflexivity.
  - intros -> ->. reflexivity.
Qed.

(** C5. [/predict] and [/api/predict] compute the same result: the page
    is the rendering of the payload that [/api/predict] returns, the two
    handlers refuse the same requests with the same error, and they leave
    the same log. *)
Theorem predict_html_renders_predict_api
    (PIL_open : list Byte.byte -> option vision.Image)
    (db : database.table) (file : UploadFile) (fs : FileSystem) :
  predict_html PIL_open db file fs =
  (map_response (render file) (fst (predict_api PIL_open db file fs)),
   snd (predict_api PIL_open db file fs)).
Proof. apply predict_html_refines. Qed.

Lemma predict_api_ignores_file_system
    (PIL_open : list Byte.byte -> option vision.Image)
    (db : database.table) (file : UploadFile) (fs1 fs2 : FileSystem) :
  fst (predict_api PIL_open db file fs1) =
  fst (predict_api PIL_open db file fs2).
Proof.
  unfold predict_api.
  destruct (vision.process_bytes_for_single_product PIL_open
              (file_bytes file) (content_type file))
    as [[[image label] conf]|[]]; try reflexivity.
  do 2 match goal with
       | |- context [_log_request ?r ?fs] => destruct (_log_request r fs)
       end.
  reflexivity.
Qed.

(** C7. [_log_request] never raises, whatever the result and whichever of
    its system calls fail, and the answer of both endpoints is the same
    whether the log could be written or not. *)
Theorem log_request_never_breaks_the_app
    (PIL_open : list Byte.byte -> option vision.Image)
    (db : database.table) (file : UploadFile) (result : Result)
    (fs1 fs2 : FileSystem) :
  fst (_log_request result fs1) = Ok tt /\
  fst (predict_api PIL_open db file fs1) =
  fst (predict_api PIL_open db file fs2) /\
  fst (predict_html PIL_open db file fs1) =
  fst (predict_html PIL_open db file fs2).
Proof.
  split; [apply log_request_returns|].
  split; [apply predict_api_ignores_file_system|].
  rewrite !predict_html_refines. simpl.
  rewrite (predict_api_ignores_file_system PIL_open db file fs1 fs2).
  reflexivity.
Qed.

(** C1, as the spec has it, fails: no request is ever answered with the
    label "apple". *)
Lemma apple_is_never_predicted :
  ~ (exists (PIL_open : list Byte.byte -> option vision.Image)
            (db : database.table) (file : UploadFile) (fs fs' : FileSystem)
            (result : Result),
       predict_api PIL_open db file fs = (Reply result, fs') /\
       predicted_label result = "apple").
Proof.
  intros (PIL_open & db & file & fs & fs' & result & Hapi & Hlabel).
  unfold predict_api in Hapi.
  destruct (vision.process_bytes_for_single_product PIL_open
              (file_bytes file) (content_type file))
    as [[[image label] conf]|e] eqn:E.
  - apply process_bytes_label in E. destruct E as (_ & _ & -> & ->).
    destruct (_log_request _ fs) in Hapi.
    injection Hapi as <- _.
    destruct (database.lookup db "banana"); discriminate.
  - destruct e; discriminate.
Qed.

End PredictClaims.

(** ** The products table *)

Section Database.

Import database.

Lemma name_is_true (name : string) (r : Row) :
  name_is name r = true <-> row_product_name r = name.
Proof. unfold name_is. apply String.eqb_eq. Qed.

Lemma name_is_false (name : string) (r : Row) :
  name_is name r = false <-> row_product_name r <> name.
Proof. unfold name_is. apply String.eqb_neq. Qed.

Lemma select_by_name_In (name : string) (t : table) (r : Row) :
  In r (select_by_name name t) <-> In r t /\ row_product_name r = name.
Proof.
  unfold select_by_name. rewrite filter_In, name_is_true. reflexivity.
Qed.

Lemma select_absent (name : string) (t : table) :
  ~ In name (map row_product_name t) -> select_by_name name t = [].
Proof.
  induction t as [|r t IH]; simpl; [reflexivity|]. intros H.
  destruct (name_is name r) eqn:E.
  - apply name_is_true in E. tauto.
  - apply IH. tauto.
Qed.

(** Under the primary key a name selects at most one row. *)
Lemma select_at_most_one (name : string) (t : table) :
  primary_key t -> (length (select_by_name name t) <= 1)%nat.
Proof.
  unfold primary_key.
  induction t as [|r t IH]; simpl; intros Hpk; [lia|].
  apply List.NoDup_cons_iff in Hpk. destruct Hpk as [Hr Hpk].
  destruct (name_is name r) eqn:E.
  - apply name_is_true in E. subst name.
    fold (select_by_name (row_product_name r) t).
    rewrite (select_absent _ _ Hr). simpl. lia.
  - apply IH. exact Hpk.
Qed.

Lemma fetchone_In (rows : list Row) (row : Row) :
  fetchone rows = Some row -> In row rows.
Proof. destruct rows; simpl; [discriminate|]. intros [= ->]. now left. Qed.

Lemma fetchone_None (rows : list Row) : fetchone rows = None <-> rows = [].
Proof. destruct rows; simpl; split; congruence. Qed.

Lemma primary_key_empty : primary_key [].
Proof. constructor. Qed.

Lemma insert_or_replace_In (t : table) (r r' : Row) :
  In r' (insert_or_replace t r) <->
  r' = r \/ (In r' t /\ row_product_name r' <> row_product_name r).
Proof.
  unfold insert_or_replace.
  rewrite in_app_iff, filter_In, negb_true_iff, name_is_false. simpl.
  intuition congruence.
Qed.

(** [INSERT OR REPLACE] keeps the primary key. *)
Lemma primary_key_insert_or_replace (t : table) (r : Row) :
  primary_key t -> primary_key (insert_or_replace t r).
Proof.
  unfold primary_key, insert_or_replace. intros Hpk.
  rewrite map_app. simpl.
  apply List.NoDup_app.
  - induction t as [|x t IH]; simpl; [constructor|].
    apply List.NoDup_cons_iff in Hpk. destruct Hpk as [Hx Hpk].
    destruct (negb (name_is (row_product_name r) x)); [|auto].
    simpl. constructor; [|auto].
    intros Hin. apply in_map_iff in Hin.
    destruct Hin as (y & Hy & Hin). apply filter_In in Hin.
    apply Hx, in_map_iff. exists y. tauto.
  - constructor; [|constructor]. intros [].
  - intros n Hn [<-|[]].
    apply in_map_iff in Hn. destruct Hn as (y & Hy & Hin).
    apply filter_In in Hin. destruct Hin as [_ Hin].
    apply negb_true_iff, name_is_false in Hin. congruence.
Qed.

Lemma primary_key_executemany (rows : list Row) (t : table) :
  primary_key t -> primary_key (executemany rows t).
Proof.
  unfold executemany. revert t.
  induction rows as [|r rows IH]; simpl; intros t Hpk; [exact Hpk|].
  apply IH, primary_key_insert_or_replace, Hpk.
Qed.

Lemma has_name_insert_or_replace (name : string) (t : table) (r : Row) :
  has_name name (insert_or_replace t r) <->
  row_product_name r = name \/ has_name name t.
Proof.
  unfold has_name. split.
  - intros (r' & Hin & Hn). apply insert_or_replace_In in Hin.
    destruct Hin as [-> | [Hin _]]; [now left | right; eauto].
  - intros [Hn | (r' & Hin & Hn)].
    + exists r. split; [|exact Hn]. apply insert_or_replace_In. now left.
    + destruct (string_dec (row_product_name r') (row_product_name r)) as [E|E].
      * exists r. split; [apply insert_or_replace_In; now left | congruence].
      * exists r'. split; [|exact Hn]. apply insert_or_replace_In. tauto.
Qed.

Lemma has_name_executemany (name : string) (rows : list Row) (t : table) :
  has_name name (executemany rows t) <-> has_name name rows \/ has_name name t.
Proof.
  unfold executemany. revert t.
  induction rows as [|r rows IH]; simpl; intros t.
  - unfold has_name at 2. simpl. split; [tauto|].
    intros [(r & [] & _) | H]; exact H.
  - rewrite IH, has_name_insert_or_replace. unfold has_name at 1 3. simpl.
    split.
    + intros [(r' & Hin & Hn) | [Hn | H]]; eauto 6.
    + intros [(r' & [<- | Hin] & Hn) | H]; eauto 6.
Qed.

Lemma lookup_has_name (t : table) (q : string) :
  has_name (Str.lower (Str.strip q)) t ->
  exists p, lookup t q = Some p /\
            schemas.product_name p = Str.lower (Str.strip q).
Proof.
  intros (r & Hin & Hn). unfold lookup.
  destruct (fetchone (select_by_name (Str.lower (Str.strip q)) t))
    as [row|] eqn:E.
  - exists (to_location row). split; [reflexivity|].
    apply fetchone_In, select_by_name_In in E. simpl. tauto.
  - apply fetchone_None in E.
    assert (In r (select_by_name (Str.lower (Str.strip q)) t)) as H
      by (apply select_by_name_In; tauto).
    rewrite E in H. destruct H.
Qed.

End Database.

Section SeedingFacts.

Import database.

Variable float_of_string : string -> option Q.

Lemma seed_row_name (record : CsvRecord) (r : Row) :
  seed_row float_of_string record = Ok r ->
  row_product_name r = Str.lower (Str.strip (csv_product_name record)).
Proof.
  unfold seed_row.
  destruct (float_of_string (csv_price record)); simpl; [|discriminate].
  intros [= <-]. reflexivity.
Qed.

Lemma seed_rows_names (reader : list CsvRecord) (acc rows : list Row) :
  seed_rows float_of_string reader acc = Ok rows ->
  forall record, In record reader ->
    has_name (Str.lower (Str.strip (csv_product_name record))) rows.
Proof.
  revert acc. induction reader as [|x reader IH]; simpl; intros acc H record.
  - intros [].
  - destruct (seed_row float_of_string x) as [r|e] eqn:E; simpl in H;
      [|discriminate].
    intros [<- | Hin]; [|exact (IH _ H _ Hin)].
    assert (forall rd a rs, seed_rows float_of_string rd a = Ok rs ->
              forall y, In y a -> In y rs) as Hacc.
    { clear. induction rd as [|z rd IH]; simpl; intros a rs H y Hy.
      - injection H as <-. exact Hy.
      - destruct (seed_row float_of_string z); simpl in H; [|discriminate].
        apply (IH _ _ H). apply in_app_iff. now left. }
    exists r. split; [|apply seed_row_name, E].
    apply (Hacc _ _ _ H). apply in_app_iff. right. now left.
Qed.

(** After seeding an empty table every record of the CSV file has a row
    under its stripped and lowercased name, and the key is respected. *)
Lemma seeded_table (reader : list CsvRecord) (t : table) :
  _ensure_schema_and_seed float_of_string (Some reader) [] = Ok t ->
  primary_key t /\
  forall record, In record reader ->
    has_name (Str.lower (Str.strip (csv_product_name record))) t.
Proof.
  unfold _ensure_schema_and_seed. simpl.
  destruct (seed_rows float_of_string reader []) as [rows|e] eqn:E; simpl;
    [|discriminate].
  pose proof (seed_rows_names _ _ _ E) as Hnames.
  destruct rows as [|r rows]; intros [= <-].
  - split; [apply primary_key_empty | exact Hnames].
  - split; [apply (primary_key_executemany (r :: rows)), primary_key_empty|].
    intros record Hin. apply (has_name_executemany _ (r :: rows)). left. auto.
Qed.

Lemma ensure_schema_keeps_primary_key
    (csv : option (list CsvRecord)) (t t' : table) :
  primary_key t ->
  _ensure_schema_and_seed float_of_string csv t = Ok t' ->
  primary_key t'.
Proof.
  intros Hpk. unfold _ensure_schema_and_seed.
  destruct csv as [reader|]; [|intros [= <-]; exact Hpk].
  destruct (Nat.eqb (length t) 0); [|intros [= <-]; exact Hpk].
  destruct (seed_rows float_of_string reader []) as [[|r rows]|e]; simpl;
    intros [= <-]; [exact Hpk|].
  apply (primary_key_executemany (r :: rows)), Hpk.
Qed.

End SeedingFacts.

Section DatabaseClaims.

Import database.

(** C6. [lookup] returns [None] when no row carries the normalized name,
    and otherwise the one [ProductLocation] of the row that carries it,
    with its category, aisle, section, price and stock status; under the
    primary key no second row can match. *)
Theorem lookup_spec (t : table) (product_name : string) :
  primary_key t ->
  let name := Str.lower (Str.strip product_name) in
  (length (select_by_name name t) <= 1)%nat /\
  (lookup t product_name = None <-> ~ has_name name t) /\
  (forall p, lookup t product_name = Some p ->
     exists row,
       In row t /\ row_product_name row = name /\
       (forall row', In row' t -> row_product_name row' = name -> row' = row) /\
       schemas.product_name p = name /\
       schemas.category p = row_category row /\
       schemas.aisle p = row_aisle row /\
       schemas.section p = row_section row /\
       schemas.price p = row_price row /\
       schemas.in_stock p = negb (row_in_stock row =? 0)).
Proof.
  intros Hpk name.
  pose proof (select_at_most_one name t Hpk) as Hone.
  split; [exact Hone|]. unfold lookup. fold name.
  destruct (select_by_name name t) as [|row rows] eqn:E; simpl.
  - split.
    + split; [|reflexivity]. intros _ (r & Hin & Hn).
      assert (In r (select_by_name name t)) as H
        by (apply select_by_name_In; tauto).
      rewrite E in H. destruct H.
    + discriminate.
  - assert (In row (select_by_name name t)) as Hrow by (rewrite E; now left).
    apply select_by_name_In in Hrow. destruct Hrow as [Hin Hn].
    split.
    + split; [discriminate|]. intros H. exfalso. apply H. exists row. tauto.
    + intros p [= <-]. exists row. repeat split; try assumption.
      intros row' Hin' Hn'.
      assert (In row' (select_by_name name t)) as H
        by (apply select_by_name_In; tauto).
      rewrite E in H. simpl in Hone.
      destruct rows; [|simpl in Hone; lia].
      destruct H as [<- | []]. reflexivity.
Qed.

(** C9. [lookup] does not see the letter case or the surrounding white
    space of its argument, and a table seeded from the CSV file answers
    for every record of the file under any spelling of its name that
    strips and lowercases to the same string. *)
Theorem lookup_normalizes (float_of_string : string -> option Q)
    (t : table) (n : string) :
  lookup t n = lookup t (Str.lower (Str.strip n)) /\
  (forall reader seeded,
     _ensure_schema_and_seed float_of_string (Some reader) [] = Ok seeded ->
     forall record q,
       In record reader ->
       Str.lower (Str.strip q) =
       Str.lower (Str.strip (csv_product_name record)) ->
       exists p, lookup seeded q = Some p /\
                 schemas.product_name p =
                 Str.lower (Str.strip (csv_product_name record))).
Proof.
  split.
  - unfold lookup. rewrite normalize_idem. reflexivity.
  - intros reader seeded Hseed record q Hin Hq.
    apply seeded_table in Hseed. destruct Hseed as [_ Hnames].
    rewrite <- Hq. apply lookup_has_name. rewrite Hq. auto.
Qed.

End DatabaseClaims.

(** ** Numbers and random draws *)

Lemma int_of_float_scaled (w n : Z) (d : positive) :
  0 <= n ->
  int_of_float (inject_Z w * (n # d)) =
  if 0 <=? w then (w * n) / Z.pos d else - ((- w * n) / Z.pos d).
Proof.
  intros Hn.
  unfold int_of_float, Qle_bool, Qceiling, Qfloor, Qmult, Qopp, inject_Z.
  cbn [Qnum Qden]. rewrite Pos.mul_1_l, Z.mul_0_l, Z.mul_1_r.
  destruct (Z.leb_spec 0 (w * n)), (Z.leb_spec 0 w); try reflexivity.
  - assert (w * n = 0) as E by nia. rewrite E, Z.mul_opp_l, E. reflexivity.
  - nia.
  - rewrite Z.mul_opp_l. reflexivity.
Qed.

Lemma max_half (w : Z) :
  Z.max 0 (int_of_float (inject_Z w * 0.5)) = Z.max 0 (w / 2).
Proof.
  change 0.5%Q with (5 # 10)%Q. rewrite int_of_float_scaled by lia.
  destruct (Z.leb_spec 0 w); Z.to_euclidean_division_equations; lia.
Qed.

Lemma max_fifteen (w : Z) :
  Z.max 10 (int_of_float (inject_Z w * 0.15)) = Z.max 10 (3 * w / 20).
Proof.
  change 0.15%Q with (15 # 100)%Q. rewrite int_of_float_scaled by lia.
  destruct (Z.leb_spec 0 w); Z.to_euclidean_division_equations; lia.
Qed.

Lemma ranges_nonempty_iff (side : Z) : vision.ranges_nonempty side <-> 19 <= side.
Proof.
  unfold vision.ranges_nonempty. rewrite max_half, max_fifteen. split.
  - intros [_ H]. specialize (H (Z.max 0 (side / 2))).
    Z.to_euclidean_division_equations; lia.
  - intros H. split; [lia|]. intros first Hf.
    Z.to_euclidean_division_equations; lia.
Qed.

Lemma round_half_even_bounds (x : Q) (a b : Z) :
  (inject_Z a <= x <= inject_Z b)%Q -> a <= round_half_even x <= b.
Proof.
  intros [Ha Hb]. unfold round_half_even.
  pose proof (Qfloor_resp_le _ _ Ha) as Hfa. rewrite Qfloor_Z in Hfa.
  pose proof (Qfloor_resp_le _ _ Hb) as Hfb. rewrite Qfloor_Z in Hfb.
  pose proof (Qfloor_le x) as Hf.
  assert ((x - inject_Z (Qfloor x) < 1 # 2)%Q \/ Qfloor x < b) as Hcases.
  { destruct (Z.eq_dec (Qfloor x) b) as [E|E]; [left | right; lia].
    rewrite E. lra. }
  destruct (Qcompare_spec (x - inject_Z (Qfloor x)) (1 # 2)) as [E|E|E].
  - destruct Hcases as [H|H]; [lra|]. destruct (Z.even (Qfloor x)); lia.
  - lia.
  - destruct Hcases as [H|H]; [lra | lia].
Qed.

Lemma round2_bounds (u : Q) :
  (0.55 <= u <= 0.97)%Q -> (0.55 <= round2 u <= 0.97)%Q.
Proof.
  intros Hu. unfold round2.
  destruct (round_half_even_bounds (u * 100) 55 97) as [Hl Hh].
  { change (inject_Z 55) with 55%Q. change (inject_Z 97) with 97%Q. lra. }
  unfold Qle. simpl. lia.
Qed.

Section Random.

Import random.

Lemma randint_spec (a b : Z) (g : rng) :
  a <= b ->
  exists v, randint a b g = Ok (v, rest g) /\ a <= v <= b.
Proof.
  intros Hab. unfold randint.
  destruct (Z.ltb_spec b a); [lia|].
  eexists. split; [reflexivity|].
  pose proof (Z.mod_pos_bound (Z.of_N (fst (next g))) (b - a + 1)).
  simpl in *. lia.
Qed.

Lemma randint_empty (a b : Z) (g : rng) :
  b < a -> randint a b g = Raise empty_range.
Proof.
  intros Hab. unfold randint. destruct (Z.ltb_spec b a); [reflexivity | lia].
Qed.

(** Every element of the range is drawn by some raw output. *)
Lemma randint_reaches (a b v : Z) (g : rng) :
  a <= v <= b -> g 0%nat = Z.to_N (v - a) ->
  randint a b g = Ok (v, rest g).
Proof.
  intros Hv Hg. unfold randint.
  destruct (Z.ltb_spec b a); [lia|]. simpl. rewrite Hg.
  rewrite Z2N.id by lia. rewrite Z.mod_small by lia.
  f_equal. f_equal. lia.
Qed.

Lemma random_spec (g : rng) :
  exists u, random g = Ok (u, rest g) /\ (0 <= u < 1)%Q.
Proof.
  unfold random. simpl. eexists. split; [reflexivity|].
  pose proof (Z.mod_pos_bound (Z.of_N (g 0%nat)) (2 ^ 53) eq_refl) as H.
  unfold Qle, Qlt. cbn [Qnum Qden]. change (Z.pos (2 ^ 53)) with (2 ^ 53). lia.
Qed.

Lemma uniform_spec (g : rng) :
  exists v, uniform 0.55 0.97 g = Ok (v, rest g) /\ (0.55 <= v <= 0.97)%Q.
Proof.
  unfold uniform, bind, ret.
  destruct (random_spec g) as (u & -> & Hu).
  eexists. split; [reflexivity|]. lra.
Qed.

End Random.

Section Detections.

Import vision random.

Lemma dedup_loop_prefix (pool : list string) (seen : gset string)
    (acc : list string) :
  exists more, dedup_loop pool seen acc = acc ++ more.
Proof.
  revert seen acc. induction pool as [|l pool IH]; intros seen acc; simpl.
  - exists []. rewrite app_nil_r. reflexivity.
  - destruct (decide (l ∈ seen)); [apply IH|].
    destruct (IH ({[l]} ∪ seen) (acc ++ [l])) as [more ->].
    exists (l :: more). rewrite <- app_assoc. reflexivity.
Qed.

Lemma unique_labels_shape (base_label : string) :
  exists second third more,
    dedup_loop [base_label; "banana"; "apple"; "cereal"; "milk"] ∅ [] =
    base_label :: second :: third :: more.
Proof.
  destruct (decide (base_label = "banana")) as [->|Hb];
    [eexists _, _, _; vm_compute; reflexivity|].
  destruct (decide (base_label = "apple")) as [->|Ha];
    [eexists _, _, _; vm_compute; reflexivity|].
  cbn [dedup_loop app].
  destruct (decide (base_label ∈ (∅ : gset string))) as [H|_];
    [set_unfold in H; tauto|].
  destruct (decide ("banana" ∈ ({[base_label]} ∪ ∅ : gset string)))
    as [H|_]; [set_unfold in H; intuition congruence|].
  destruct (decide ("apple" ∈ ({["banana"]} ∪ ({[base_label]} ∪ ∅) : gset string)))
    as [H|_]; [set_unfold in H; intuition congruence|].
  repeat case_decide; eexists _, _, _; reflexivity.
Qed.

Lemma detection_step_ok (width height : Z) (unique_labels : list string)
    (i : nat) (lbl : string) (g : rng) :
  19 <= width -> 19 <= height ->
  unique_labels !! i = Some lbl ->
  exists d g',
    detection_step width height unique_labels i g = Ok (d, g') /\
    label d = lbl /\ valid_detection width height d.
Proof.
  intros Hw Hh Hl. unfold detection_step. rewrite Hl.
  rewrite !max_half, !max_fifteen. unfold random.bind.
  destruct (uniform_spec g) as (u & -> & Hu).
  destruct (randint_spec 0 (Z.max 0 (width / 2)) (rest g)) as (x1 & -> & Hx1);
    [lia|].
  destruct (randint_spec 0 (Z.max 0 (height / 2)) (rest (rest g)))
    as (y1 & -> & Hy1); [lia|].
  destruct (randint_spec (x1 + Z.max 10 (3 * width / 20)) width
              (rest (rest (rest g)))) as (x2 & -> & Hx2);
    [Z.to_euclidean_division_equations; lia|].
  destruct (randint_spec (y1 + Z.max 10 (3 * height / 20)) height
              (rest (rest (rest (rest g))))) as (y2 & -> & Hy2);
    [Z.to_euclidean_division_equations; lia|].
  eexists _, _. split; [reflexivity|]. split; [reflexivity|].
  split; [apply round2_bounds, Hu|]. simpl.
  exists x1, y1, x2, y2. split; [reflexivity|]. lia.
Qed.

Lemma detection_loop_ok (width height : Z) (unique_labels : list string)
    (range : list nat) (detections : list Detection) (g : rng) :
  19 <= width -> 19 <= height ->
  Forall (fun i => is_Some (unique_labels !! i)) range ->
  exists ds g',
    detection_loop width height unique_labels range detections g =
    Ok (detections ++ ds, g') /\
    Forall2 (fun i d => unique_labels !! i = Some (label d) /\
                        valid_detection width height d) range ds.
Proof.
  intros Hw Hh. revert detections g.
  induction range as [|i range IH]; intros detections g Hr.
  - exists [], g. rewrite app_nil_r. split; [reflexivity | constructor].
  - apply Forall_cons in Hr. destruct Hr as [[lbl Hi] Hr].
    destruct (detection_step_ok width height unique_labels i lbl g Hw Hh Hi)
      as (d & g1 & Hstep & Hlbl & Hd).
    destruct (IH (detections ++ [d]) g1 Hr) as (ds & g' & Hloop & Hall).
    exists (d :: ds), g'. split.
    + cbn [detection_loop]. unfold random.bind. rewrite Hstep, Hloop.
      rewrite <- app_assoc. reflexivity.
    + constructor; [|exact Hall]. subst lbl. split; assumption.
Qed.

Lemma fake_multi_detections_ok (image : Image) (base_label : string)
    (g : rng) :
  19 <= width image -> 19 <= height image ->
  exists first second third g',
    fake_multi_detections image base_label g =
    Ok ([first; second; third], g') /\
    label first = base_label /\
    Forall (valid_detection (width image) (height image))
      [first; second; third].
Proof.
  intros Hw Hh. unfold fake_multi_detections.
  destruct (unique_labels_shape base_label) as (l2 & l3 & more & ->).
  cbn [length Nat.min seq].
  destruct (detection_loop_ok (width image) (height image)
              (base_label :: l2 :: l3 :: more) [0; 1; 2]%nat [] g Hw Hh)
    as (ds & g' & Hloop & Hall).
  { repeat constructor; eexists; reflexivity. }
  rewrite Hloop.
  inversion Hall as [|? d1 ? ds1 [H1 V1] Hall1]; subst.
  inversion Hall1 as [|? d2 ? ds2 [H2 V2] Hall2]; subst.
  inversion Hall2 as [|? d3 ? ds3 [H3 V3] Hall3]; subst.
  inversion Hall3; subst.
  exists d1, d2, d3, g'. split; [reflexivity|].
  split; [simpl in H1; congruence|].
  do 3 (constructor; [assumption|]). constructor.
Qed.

End Detections.

Section SmallImages.

Import vision random.

Lemma detection_step_small (width height : Z) (unique_labels : list string)
    (i : nat) (lbl : string) (g : rng) :
  width < 10 \/ height < 10 ->
  unique_labels !! i = Some lbl ->
  detection_step width height unique_labels i g = Raise empty_range.
Proof.
  intros Hsmall Hl. unfold detection_step. rewrite Hl.
  rewrite !max_half, !max_fifteen. unfold random.bind.
  destruct (uniform_spec g) as (u & -> & Hu).
  destruct (randint_spec 0 (Z.max 0 (width / 2)) (rest g)) as (x1 & -> & Hx1);
    [lia|].
  destruct (randint_spec 0 (Z.max 0 (height / 2)) (rest (rest g)))
    as (y1 & -> & Hy1); [lia|].
  destruct (Z.lt_ge_cases width (x1 + Z.max 10 (3 * width / 20))) as [Hx|Hx].
  - rewrite randint_empty by exact Hx. reflexivity.
  - destruct (randint_spec _ _ (rest (rest (rest g))) Hx) as (x2 & -> & Hx2).
    rewrite randint_empty by lia. reflexivity.
Qed.

Lemma detection_step_far_corner (width height : Z)
    (unique_labels : list string) (i : nat) (lbl : string) :
  width <= 18 \/ height <= 18 ->
  unique_labels !! i = Some lbl ->
  detection_step width height unique_labels i (far_corner width height) =
  Raise empty_range.
Proof.
  intros Hsmall Hl. unfold detection_step. rewrite Hl. unfold random.bind.
  destruct (uniform_spec (far_corner width height)) as (u & -> & Hu).
  rewrite (randint_reaches 0 _ (Z.max 0 (int_of_float (inject_Z width * 0.5))))
    by (first [lia | rewrite Z.sub_0_r; reflexivity]).
  rewrite (randint_reaches 0 _ (Z.max 0 (int_of_float (inject_Z height * 0.5))))
    by (first [lia | rewrite Z.sub_0_r; reflexivity]).
  rewrite !max_half, !max_fifteen.
  destruct (Z.lt_ge_cases width
              (Z.max 0 (width / 2) + Z.max 10 (3 * width / 20))) as [Hx|Hx].
  - rewrite randint_empty by exact Hx. reflexivity.
  - destruct (randint_spec _ _ (rest (rest (rest (far_corner width height)))) Hx)
      as (x2 & -> & Hx2).
    rewrite randint_empty; [reflexivity|].
    Z.to_euclidean_division_equations; lia.
Qed.

Lemma detection_loop_raises (width height : Z) (unique_labels : list string)
    (i : nat) (range : list nat) (detections : list Detection)
    (g : rng) (e : exn) :
  detection_step width height unique_labels i g = Raise e ->
  detection_loop width height unique_labels (i :: range) detections g =
  Raise e.
Proof.
  intros H. cbn [detection_loop]. unfold random.bind. rewrite H. reflexivity.
Qed.

Lemma fake_multi_detections_small (image : Image) (base_label : string)
    (g : rng) :
  width image < 10 \/ height image < 10 ->
  fake_multi_detections image base_label g = Raise empty_range.
Proof.
  intros Hsmall. unfold fake_multi_detections.
  destruct (unique_labels_shape base_label) as (l2 & l3 & more & ->).
  cbn [length Nat.min seq].
  apply detection_loop_raises.
  apply (detection_step_small _ _ _ _ base_label); [exact Hsmall | reflexivity].
Qed.

Lemma fake_multi_detections_far_corner (image : Image) (base_label : string) :
  width image <= 18 \/ height image <= 18 ->
  fake_multi_detections image base_label
    (far_corner (width image) (height image)) = Raise empty_range.
Proof.
  intros Hsmall. unfold fake_multi_detections.
  destruct (unique_labels_shape base_label) as (l2 & l3 & more & ->).
  cbn [length Nat.min seq].
  apply detection_loop_raises.
  apply (detection_step_far_corner _ _ _ _ base_label);
    [exact Hsmall | reflexivity].
Qed.

(** C2. When the image is large enough for every range asked of
    [random.randint] to have an element, [fake_multi_detections] returns,
    for every base label and every sequence of draws, exactly three
    detections: the first carries the base label, every confidence lies in
    [0.55, 0.97], and every box [x1, y1, x2, y2] satisfies
    0 <= x1 < x2 <= width and 0 <= y1 < y2 <= height. *)
Theorem fake_multi_detections_spec (image : Image) (base_label : string)
    (g : rng) :
  ranges_nonempty (width image) ->
  ranges_nonempty (height image) ->
  exists detections g',
    fake_multi_detections image base_label g = Ok (detections, g') /\
    length detections = 3%nat /\
    (exists first others,
       detections = first :: others /\ label first = base_label) /\
    Forall (valid_detection (width image) (height image)) detections.
Proof.
  intros Hw Hh. apply ranges_nonempty_iff in Hw, Hh.
  destruct (fake_multi_detections_ok image base_label g Hw Hh)
    as (d1 & d2 & d3 & g' & Hrun & Hlabel & Hvalid).
  exists [d1; d2; d3], g'. split; [exact Hrun|]. split; [reflexivity|].
  split; [|exact Hvalid]. exists d1, [d2; d3]. split; [reflexivity|exact Hlabel].
Qed.

(** C8. There are decodable images on which [fake_multi_detections]
    raises the [ValueError] of [random.randint]: on an image less than 10
    pixels wide or high every call raises it, and the function returns for
    every sequence of draws exactly when the image is at least 19 pixels
    wide and 19 pixels high. *)
Theorem fake_multi_detections_needs_min_size :
  (exists image base_label g,
     0 < width image /\ 0 < height image /\
     fake_multi_detections image base_label g = Raise empty_range) /\
  (forall image base_label g,
     width image < 10 \/ height image < 10 ->
     fake_multi_detections image base_label g = Raise empty_range) /\
  (forall image base_label,
     (forall g, returns (fake_multi_detections image base_label g)) <->
     19 <= width image /\ 19 <= height image).
Proof.
  split; [|split].
  - exists (mkImage 8 8 []), "banana", (fun _ => 0%N).
    split; [reflexivity|]. split; [reflexivity|].
    apply fake_multi_detections_small. left. reflexivity.
  - intros image base_label g. apply fake_multi_detections_small.
  - intros image base_label. split.
    + intros Hret.
      destruct (Z.le_gt_cases 19 (width image)) as [Hw|Hw],
               (Z.le_gt_cases 19 (height image)) as [Hh|Hh];
        [split; assumption|..];
        destruct (Hret (far_corner (width image) (height image))) as [a Ha];
        rewrite fake_multi_detections_far_corner in Ha by lia;
        discriminate.
    + intros [Hw Hh] g.
      destruct (fake_multi_detections_ok image base_label g Hw Hh)
        as (d1 & d2 & d3 & g' & Hrun & _).
      eexists. exact Hrun.
Qed.

End SmallImages.

(** ** Drawing on a copy *)

Section DrawingFacts.

Import vision.

Variable PIL_rectangle :
  list Z -> option RGB -> option RGB -> Z -> Image -> Image * option exn.
Variable PIL_text :
  Z * Z -> string -> option RGB -> Image -> Image * option exn.

Lemma writes_only_ret {A} (draw : obj) (a : A) : writes_only draw (se_ret a).
Proof. intros h. split; auto. Qed.

Lemma writes_only_raise {A} (draw : obj) (e : exn) :
  writes_only draw (@se_raise store A e).
Proof. intros h. split; auto. Qed.

Lemma writes_only_bind {A B} (draw : obj) (m : IO A) (k : A -> IO B) :
  writes_only draw m -> (forall a, writes_only draw (k a)) ->
  writes_only draw (se_bind m k).
Proof.
  intros Hm Hk h. unfold se_bind.
  destruct (Hm h) as [Hm1 Hm2].
  destruct (m h) as [[a|e] h1]; simpl in *.
  - destruct (Hk a h1) as [Hk1 Hk2]. split.
    + intros o Ho. rewrite Hk1, Hm1 by exact Ho. reflexivity.
    + auto.
  - split; assumption.
Qed.

Lemma writes_only_try_pass (draw : obj) (m : IO unit) :
  writes_only draw m -> writes_only draw (se_try_pass m).
Proof.
  intros Hm h. unfold se_try_pass. specialize (Hm h).
  destruct (m h) as [[a|e] h1]; exact Hm.
Qed.

Lemma writes_only_draw_with (prim : Image -> Image * option exn) (draw : obj) :
  writes_only draw (draw_with prim draw).
Proof.
  intros h. unfold draw_with.
  destruct (h !! draw) as [img|] eqn:E.
  - destruct (prim img) as [img' e]. simpl. split.
    + intros o Ho. apply lookup_insert_ne. congruence.
    + intros _. rewrite lookup_insert_eq. eauto.
  - simpl. split; [reflexivity|]. intros [x Hx]. discriminate.
Qed.

Lemma writes_only_draw_one (draw : obj) (det : Detection) :
  writes_only draw (draw_one PIL_rectangle PIL_text draw det).
Proof.
  unfold draw_one. apply writes_only_bind.
  - unfold unpack4.
    destruct (bbox det) as [|x1 [|y1 [|x2 [|y2 [|]]]]];
      first [apply writes_only_ret | apply writes_only_raise].
  - intros [[[x1 y1] x2] y2]. apply writes_only_bind.
    + apply writes_only_draw_with.
    + intros _. apply writes_only_try_pass, writes_only_bind.
      * apply writes_only_draw_with.
      * intros _. apply writes_only_draw_with.
Qed.

Lemma writes_only_draw_loop (draw : obj) (detections : list Detection) :
  writes_only draw (draw_loop PIL_rectangle PIL_text draw detections).
Proof.
  induction detections as [|det rest IH]; simpl.
  - apply writes_only_ret.
  - apply writes_only_bind; [apply writes_only_draw_one | intros _; exact IH].
Qed.

Lemma draw_one_returns (draw : obj) (det : Detection) (h : store) :
  (forall xy fill outline width im,
     snd (PIL_rectangle xy fill outline width im) = None) ->
  length (bbox det) = 4%nat ->
  is_Some (h !! draw) ->
  fst (draw_one PIL_rectangle PIL_text draw det h) = Ok tt.
Proof.
  intros Hrect Hlen [img Himg]. unfold draw_one.
  destruct (bbox det) as [|x1 [|y1 [|x2 [|y2 [|]]]]]; try discriminate.
  unfold unpack4, se_bind, se_ret, draw_rectangle, draw_with at 1.
  rewrite Himg.
  specialize (Hrect [x1; y1; x2; y2] None (Some (37, 99, 235)) 3 img).
  destruct (PIL_rectangle _ _ _ _ img) as [img' e]. simpl in Hrect.
  subst e. apply se_try_pass_returns.
Qed.

Lemma draw_loop_returns (draw : obj) (detections : list Detection)
    (h : store) :
  (forall xy fill outline width im,
     snd (PIL_rectangle xy fill outline width im) = None) ->
  Forall (fun det => length (bbox det) = 4%nat) detections ->
  is_Some (h !! draw) ->
  fst (draw_loop PIL_rectangle PIL_text draw detections h) = Ok tt.
Proof.
  intros Hrect Hall. revert h.
  induction Hall as [|det rest Hdet Hall IH]; intros h Hdraw; simpl.
  - reflexivity.
  - unfold se_bind.
    pose proof (draw_one_returns draw det h Hrect Hdet Hdraw) as Hone.
    destruct (writes_only_draw_one draw det h) as [_ Hkept].
    destruct (draw_one PIL_rectangle PIL_text draw det h) as [r h1].
    simpl in Hone, Hkept. subst r. apply IH, Hkept, Hdraw.
Qed.

Lemma draw_one_draws (draw : obj) (det : Detection) (h : store) :
  length (bbox det) = 4%nat ->
  draws_box PIL_rectangle det ->
  is_Some (h !! draw) ->
  fst (draw_one PIL_rectangle PIL_text draw det h) = Ok tt.
Proof.
  intros Hlen Hbox [img Himg]. unfold draw_one. unfold draws_box in Hbox.
  destruct (bbox det) as [|x1 [|y1 [|x2 [|y2 [|]]]]]; try discriminate.
  unfold unpack4, se_bind, se_ret, draw_rectangle, draw_with at 1.
  rewrite Himg. specialize (Hbox img).
  destruct (PIL_rectangle _ _ _ _ img) as [img' e]. simpl in Hbox.
  subst e. apply se_try_pass_returns.
Qed.

Lemma draw_loop_draws (draw : obj) (detections : list Detection)
    (h : store) :
  Forall (fun det => length (bbox det) = 4%nat /\
                     draws_box PIL_rectangle det) detections ->
  is_Some (h !! draw) ->
  fst (draw_loop PIL_rectangle PIL_text draw detections h) = Ok tt.
Proof.
  intros Hall. revert h.
  induction Hall as [|det rest [Hlen Hbox] Hall IH]; intros h Hdraw; simpl.
  - reflexivity.
  - unfold se_bind.
    pose proof (draw_one_draws draw det h Hlen Hbox Hdraw) as Hone.
    destruct (writes_only_draw_one draw det h) as [_ Hkept].
    destruct (draw_one PIL_rectangle PIL_text draw det h) as [r h1].
    simpl in Hone, Hkept. subst r. apply IH, Hkept, Hdraw.
Qed.

(** A box that is not four numbers stops the loop, once the boxes before
    it are drawn. *)
Lemma draw_loop_bad_box (draw : obj) (good : list Detection)
    (bad : Detection) (rest : list Detection) (h : store) :
  Forall (fun det => length (bbox det) = 4%nat /\
                     draws_box PIL_rectangle det) good ->
  length (bbox bad) <> 4%nat ->
  is_Some (h !! draw) ->
  fst (draw_loop PIL_rectangle PIL_text draw (good ++ bad :: rest) h) =
  Raise (ValueError "wrong number of values to unpack").
Proof.
  intros Hgood Hbad. revert h.
  induction Hgood as [|det good [Hlen Hbox] Hgood IH]; intros h Hdraw.
  - cbn [app draw_loop]. unfold se_bind, draw_one, unpack4.
    destruct (bbox bad) as [|x1 [|y1 [|x2 [|y2 [|]]]]];
      try reflexivity. simpl in Hbad. lia.
  - cbn [app draw_loop]. unfold se_bind.
    pose proof (draw_one_draws draw det h Hlen Hbox Hdraw) as Hone.
    destruct (writes_only_draw_one draw det h) as [_ Hkept].
    destruct (draw_one PIL_rectangle PIL_text draw det h) as [r h1].
    simpl in Hone, Hkept. subst r. apply IH, Hkept, Hdraw.
Qed.

(** C10. [draw_detections] draws on a copy.  The object it works on is
    new, so it is not the input image; the input image, and every other
    object of the store, is after the call what it was before, also when
    the call raises; and when the outer rectangle can be drawn for every
    box the call returns the new object. *)
Theorem draw_detections_draws_on_a_copy (image : obj) (img : Image)
    (detections : list Detection) (h : store) :
  h !! image = Some img ->
  let out := draw_detections PIL_rectangle PIL_text image detections h in
  snd out !! image = Some img /\
  (forall o, is_Some (h !! o) -> snd out !! o = h !! o) /\
  (forall annotated,
     fst out = Ok annotated ->
     annotated <> image /\ h !! annotated = None /\
     is_Some (snd out !! annotated)) /\
  ((forall xy fill outline width im,
      snd (PIL_rectangle xy fill outline width im) = None) ->
   Forall (fun det => length (bbox det) = 4%nat) detections ->
   exists annotated, fst out = Ok annotated).
Proof.
  intros Himg out.
  set (annotated := fresh (dom h)).
  assert (h !! annotated = None) as Hfresh
    by (apply not_elem_of_dom, is_fresh).
  assert (annotated <> image) as Hne by congruence.
  assert (out =
          match draw_loop PIL_rectangle PIL_text annotated detections
                  (<[annotated := img]> h) with
          | (Ok _, h') => (Ok annotated, h')
          | (Raise e, h') => (Raise e, h')
          end) as Hout.
  { subst out. unfold draw_detections, se_bind, Image_copy. rewrite Himg.
    fold annotated. reflexivity. }
  destruct (writes_only_draw_loop annotated detections
              (<[annotated := img]> h)) as [Hother Hkept].
  assert (is_Some (<[annotated := img]> h !! annotated)) as Hnew
    by (rewrite lookup_insert_eq; eauto).
  assert (snd out =
          snd (draw_loop PIL_rectangle PIL_text annotated detections
                 (<[annotated := img]> h))) as Hsnd.
  { rewrite Hout. destruct (draw_loop _ _ _ _ _) as [[?|?] ?]; reflexivity. }
  assert (forall o, is_Some (h !! o) -> snd out !! o = h !! o) as Hframe.
  { intros o [x Ho]. rewrite Hsnd, Hother, lookup_insert_ne by congruence.
    reflexivity. }
  split; [rewrite Hframe by eauto; exact Himg|].
  split; [exact Hframe|]. split.
  - intros a Ha. rewrite Hout in Ha.
    destruct (draw_loop _ _ _ _ _) as [[?|?] ?] eqn:E; [|discriminate].
    injection Ha as <-. split; [exact Hne|]. split; [exact Hfresh|].
    rewrite Hsnd. apply Hkept, Hnew.
  - intros Hrect Hall. exists annotated. rewrite Hout.
    pose proof (draw_loop_returns annotated detections _ Hrect Hall Hnew) as H.
    destruct (draw_loop _ _ _ _ _) as [[?|?] ?]; [reflexivity|discriminate].
Qed.

End DrawingFacts.

(** ** The claims at the sample data *)

Section Samples.

Import vision database routes.

Lemma predicted_label_is_banana_witness :
  not_an_image (content_type sample.upload) = false /\
  sample.PIL_open (file_bytes sample.upload) = Some sample.image /\
  exists result fs',
    predict_api sample.PIL_open sample.products sample.upload sample.disk =
    (Reply result, fs') /\
    predicted_label result = "banana" /\ routes.confidence result = 0.95%Q.
Proof.
  split; [reflexivity|]. split; [reflexivity|].
  exact (proj1 (proj2 (predicted_label_is_banana sample.PIL_open
                         sample.products sample.upload sample.image
                         sample.disk eq_refl eq_refl))).
Defined.

Lemma predict_pipeline_witness :
  not_an_image (content_type sample.upload) = false /\
  sample.PIL_open (file_bytes sample.upload) = Some sample.image /\
  exists result fs',
    predict_api sample.PIL_open sample.products sample.upload sample.disk =
    (Reply result, fs') /\
    found_in_database result = true /\
    location result = Some (mkLocation "1" "A").
Proof.
  split; [reflexivity|]. split; [reflexivity|].
  destruct (predict_pipeline sample.PIL_open sample.products sample.upload
              sample.image sample.disk eq_refl eq_refl)
    as (label & conf & result & fs' & _ & Hc & Hapi & _ & _ & Hfound & Hloc & _).
  injection Hc as -> ->.
  exists result, fs'. split; [exact Hapi|]. split.
  - apply Hfound. eexists. reflexivity.
  - apply (Hloc (to_location (mkRow "banana" "produce" "1" "A" 0.59 1))).
    reflexivity.
Defined.

Lemma log_request_never_breaks_the_app_witness :
  fst (predict_api sample.PIL_open sample.products sample.upload sample.disk) =
  fst (predict_api sample.PIL_open sample.products sample.upload
         sample.full_disk) /\
  log_file (snd (predict_api sample.PIL_open sample.products sample.upload
                   sample.full_disk)) = Some [] /\
  log_file (snd (predict_api sample.PIL_open sample.products sample.upload
                   sample.disk)) =
  Some [mkLogLine "2024-05-01T12:00:00" "banana" 0.95 true "1" "A"].
Proof.
  split; [|split; reflexivity].
  exact (proj1 (proj2 (log_request_never_breaks_the_app sample.PIL_open
                         sample.products sample.upload
                         (mkResult "banana" 0.95 false None None None)
                         sample.disk sample.full_disk))).
Defined.

Lemma sample_products_primary_key : primary_key sample.products.
Proof.
  unfold primary_key. simpl.
  constructor; [simpl; intros [H|[]]; discriminate|].
  constructor; [intros []|]. constructor.
Defined.

Lemma lookup_spec_witness :
  primary_key sample.products /\
  (lookup sample.products " BANANA " = None <->
   ~ has_name "banana" sample.products) /\
  lookup sample.products " BANANA " =
  Some (schemas.mkProductLocation "banana" "produce" "1" "A" 0.59 true).
Proof.
  split; [exact sample_products_primary_key|].
  split; [|reflexivity].
  exact (proj1 (proj2 (lookup_spec sample.products " BANANA "
                         sample_products_primary_key))).
Defined.

Lemma lookup_normalizes_witness :
  _ensure_schema_and_seed sample.float_of_string (Some sample.csv) [] =
  Ok sample.products /\
  exists p, lookup sample.products "  bAnAnA " = Some p /\
            schemas.product_name p = "banana".
Proof.
  split; [reflexivity|].
  exact (proj2 (lookup_normalizes sample.float_of_string [] "")
           sample.csv sample.products eq_refl
           (mkCsvRecord "  Banana " "produce" "1" "A" "0.59" "yes")
           "  bAnAnA " (or_introl eq_refl) eq_refl).
Defined.

Lemma fake_multi_detections_spec_witness :
  ranges_nonempty 640 /\ ranges_nonempty 480 /\
  exists detections g',
    fake_multi_detections sample.image "apple" sample.rng =
    Ok (detections, g') /\
    length detections = 3%nat.
Proof.
  assert (ranges_nonempty 640) as Hw by (apply ranges_nonempty_iff; lia).
  assert (ranges_nonempty 480) as Hh by (apply ranges_nonempty_iff; lia).
  split; [exact Hw|]. split; [exact Hh|].
  destruct (fake_multi_detections_spec sample.image "apple" sample.rng Hw Hh)
    as (ds & g' & Hrun & Hlen & _).
  exists ds, g'. split; assumption.
Defined.

Lemma draw_detections_draws_on_a_copy_witness :
  ({[1%positive := sample.photo]} : gmap positive Image) !! 1%positive =
  Some sample.photo /\
  snd (draw_detections sample.PIL_rectangle sample.PIL_text 1%positive
         sample.detections {[1%positive := sample.photo]}) !! 1%positive =
  Some sample.photo.
Proof.
  split; [reflexivity|].
  exact (proj1 (draw_detections_draws_on_a_copy sample.PIL_rectangle
                  sample.PIL_text 1%positive sample.photo sample.detections
                  {[1%positive := sample.photo]} eq_refl)).
Defined.

(** The copy is painted, the photo is not. *)
Example draw_detections_sample :
  let out := draw_detections sample.PIL_rectangle sample.PIL_text 1%positive
               sample.detections {[1%positive := sample.photo]} in
  fst out = Ok 2%positive /\
  snd out !! 1%positive = Some sample.photo /\
  snd out !! 2%positive =
  Some (mkImage 2 1 [(37, 99, 235); (37, 99, 235)]).
Proof. vm_compute. repeat split. Qed.

End Samples.

(** * More of the code *)

(** ** The classifier of schemas.py *)

Section MapLabelMore.

Import schemas.

Lemma loop_returns_exists (keywords low : list string) :
  loop_returns keywords low = true <->
  exists lbl, In lbl low /\ any_keyword_in keywords lbl = true.
Proof.
  induction low as [|l low IH]; simpl.
  - split; [discriminate | intros (lbl & [] & _)].
  - destruct (any_keyword_in keywords l) eqn:E.
    + split; [|reflexivity]. intros _. exists l. split; [now left | exact E].
    + rewrite IH. split.
      * intros (lbl & Hin & H). exists lbl. split; [now right | exact H].
      * intros (lbl & [<- | Hin] & H); [congruence|]. exists lbl. tauto.
Qed.

Lemma loop_returns_same_names (keywords low1 low2 : list string) :
  (forall lbl, In lbl low1 <-> In lbl low2) ->
  loop_returns keywords low1 = loop_returns keywords low2.
Proof.
  intros Hsame. apply eq_true_iff_eq. rewrite !loop_returns_exists.
  split; intros (lbl & Hin & H); exists lbl; split; try apply Hsame; assumption.
Qed.

Lemma loop_returns_app (keywords low1 low2 : list string) :
  loop_returns keywords (low1 ++ low2) =
  loop_returns keywords low1 || loop_returns keywords low2.
Proof.
  induction low1 as [|l low1 IH]; simpl; [reflexivity|].
  destruct (any_keyword_in keywords l); [reflexivity | exact IH].
Qed.

(** X1. [_map_label] depends only on the set of the lowercased names: two
    lists with the same lowercased names get the same label, whatever the
    order, the repetitions and the letter case of the names. *)
Theorem map_label_same_names (labels1 labels2 : list string) :
  (forall lbl, In lbl (map Str.lower labels1) <-> In lbl (map Str.lower labels2)) ->
  _map_label labels1 = _map_label labels2.
Proof.
  intros Hsame. unfold _map_label.
  rewrite (loop_returns_same_names _banana_keywords _ _ Hsame).
  rewrite (loop_returns_same_names _apple_keywords _ _ Hsame).
  reflexivity.
Qed.

(** X2. The label of a concatenation is the merge of the labels of the
    parts: "banana" when a part is "banana", else "apple" when a part is
    "apple", else "neither". *)
Theorem map_label_app (labels1 labels2 : list string) :
  _map_label (labels1 ++ labels2) =
  merge_labels (_map_label labels1) (_map_label labels2).
Proof.
  unfold _map_label. rewrite map_app, !loop_returns_app.
  destruct (loop_returns _banana_keywords (map Str.lower labels1)),
           (loop_returns _banana_keywords (map Str.lower labels2)),
           (loop_returns _apple_keywords (map Str.lower labels1)),
           (loop_returns _apple_keywords (map Str.lower labels2));
    reflexivity.
Qed.

Lemma map_label_cases (labels : list string) :
  _map_label labels = "banana" \/ _map_label labels = "apple" \/
  _map_label labels = "neither".
Proof.
  unfold _map_label.
  destruct (loop_returns _banana_keywords _); [now left|].
  destruct (loop_returns _apple_keywords _); [right; now left | right; now right].
Qed.

Lemma combine_fst_snd {A B} (l : list (A * B)) :
  combine (map fst l) (map snd l) = l.
Proof. induction l as [|[a b] l IH]; simpl; [|rewrite IH]; reflexivity. Qed.

End MapLabelMore.

Section PredictConfidence.

Import schemas.

Context {Image : Type}.
Variable top_classes : Image -> nat -> exc (list (string * Q)).

(** X4. The confidence that comes with a label is the probability of the
    best class also when a lower class decides the label: when a class after
    the first contains a banana keyword, the result is "banana" with the
    probability of the first class. *)
Theorem predict_confidence_is_top_class (img : Image) (topk : nat)
    (class : string) (p : Q) (others : list (string * Q)) :
  top_classes img topk = Ok ((class, p) :: others) ->
  some_name_contains _banana_keywords (map fst others) ->
  predict top_classes img topk = Ok ("banana", p, (class, p) :: others).
Proof.
  intros Htop Hbanana. unfold predict. rewrite Htop.
  cbn [exc_bind map fst snd combine]. rewrite combine_fst_snd.
  assert (_map_label (class :: map fst others) = "banana") as ->; [|reflexivity].
  unfold _map_label.
  assert (loop_returns _banana_keywords
            (map Str.lower (class :: map fst others)) = true) as ->;
    [|reflexivity].
  apply loop_returns_spec.
  destruct Hbanana as (lbl & k & Hin & Hk & Hocc).
  exists lbl, k. split; [now right | split; assumption].
Qed.

End PredictConfidence.

(** ** The table: order, seeding, round trips *)

Section Order.

Lemma ascii_compare_refl (a : ascii) : Ascii.compare a a = Eq.
Proof. unfold Ascii.compare. apply N.compare_refl. Qed.

Lemma ascii_compare_lt_trans (a b c : ascii) :
  Ascii.compare a b = Lt -> Ascii.compare b c = Lt -> Ascii.compare a c = Lt.
Proof.
  unfold Ascii.compare. rewrite !N.compare_lt_iff. apply N.lt_trans.
Qed.

Lemma string_compare_refl (s : string) : String.compare s s = Eq.
Proof.
  induction s as [|a s IH]; simpl; [reflexivity|].
  rewrite ascii_compare_refl. exact IH.
Qed.

Lemma string_compare_eq (s1 s2 : string) :
  String.compare s1 s2 = Eq <-> s1 = s2.
Proof.
  split; [apply String.compare_eq_iff|]. intros ->. apply string_compare_refl.
Qed.

Lemma string_compare_lt_trans (s1 s2 s3 : string) :
  String.compare s1 s2 = Lt -> String.compare s2 s3 = Lt ->
  String.compare s1 s3 = Lt.
Proof.
  revert s2 s3. induction s1 as [|a s1 IH]; intros [|b s2] [|c s3]; simpl;
    try discriminate; try reflexivity.
  destruct (Ascii.compare a b) eqn:Eab; try discriminate;
    destruct (Ascii.compare b c) eqn:Ebc; try discriminate.
  - apply Ascii.compare_eq_iff in Eab, Ebc. subst.
    rewrite ascii_compare_refl. apply IH.
  - apply Ascii.compare_eq_iff in Eab. subst. rewrite Ebc. reflexivity.
  - apply Ascii.compare_eq_iff in Ebc. subst. rewrite Eab. reflexivity.
  - rewrite (ascii_compare_lt_trans a b c Eab Ebc). reflexivity.
Qed.

Lemma string_leb_iff (s1 s2 : string) :
  String.leb s1 s2 = true <-> String.compare s1 s2 = Lt \/ s1 = s2.
Proof.
  unfold String.leb. rewrite <- string_compare_eq.
  destruct (String.compare s1 s2); intuition discriminate.
Qed.

Lemma string_leb_trans (s1 s2 s3 : string) :
  String.leb s1 s2 = true -> String.leb s2 s3 = true -> String.leb s1 s3 = true.
Proof.
  rewrite !string_leb_iff.
  intros [H12 | ->] [H23 | ->]; auto.
  left. exact (string_compare_lt_trans _ _ _ H12 H23).
Qed.

Lemma string_compare_gt_lt (s1 s2 : string) :
  String.compare s1 s2 = Gt <-> String.compare s2 s1 = Lt.
Proof.
  rewrite (String.compare_antisym s2 s1).
  destruct (String.compare s1 s2); simpl; intuition discriminate.
Qed.

Import database.

Lemma row_le_iff (r1 r2 : Row) :
  row_le r1 r2 <->
  String.compare (row_aisle r1) (row_aisle r2) = Lt \/
  (row_aisle r1 = row_aisle r2 /\
   String.leb (row_product_name r1) (row_product_name r2) = true).
Proof.
  unfold row_le, row_leb.
  destruct (String.compare (row_aisle r1) (row_aisle r2)) eqn:E.
  - apply string_compare_eq in E. intuition discriminate.
  - intuition reflexivity.
  - split; [discriminate|]. intros [H | [H _]]; [discriminate|].
    rewrite H, string_compare_refl in E. discriminate.
Qed.

#[global] Instance row_le_total : Total row_le.
Proof.
  intros r1 r2. rewrite !row_le_iff.
  destruct (String.compare (row_aisle r1) (row_aisle r2)) eqn:E.
  - apply string_compare_eq in E.
    destruct (String.leb_total (row_product_name r1) (row_product_name r2));
      [left | right]; right; split; auto.
  - left. now left.
  - right. left. apply string_compare_gt_lt. exact E.
Qed.

#[global] Instance row_le_trans : Transitive row_le.
Proof.
  intros r1 r2 r3. rewrite !row_le_iff.
  intros [H12 | [E12 N12]] [H23 | [E23 N23]].
  - left. exact (string_compare_lt_trans _ _ _ H12 H23).
  - left. rewrite <- E23. exact H12.
  - left. rewrite E12. exact H23.
  - right. split; [congruence|]. exact (string_leb_trans _ _ _ N12 N23).
Qed.

Lemma location_le_row_le (r1 r2 : Row) :
  location_le (to_location r1) (to_location r2) <-> row_le r1 r2.
Proof.
  unfold location_le, row_le, row_leb. simpl.
  destruct (String.compare (row_aisle r1) (row_aisle r2));
    intuition discriminate.
Qed.

Lemma select_ordered_In (t : table) (r : Row) :
  In r (select_ordered t) <-> In r t.
Proof.
  unfold select_ordered. rewrite <- !list_elem_of_In.
  rewrite (merge_sort_Permutation row_le t). reflexivity.
Qed.

Lemma StronglySorted_map_to_location (l : list Row) :
  StronglySorted row_le l -> StronglySorted location_le (map to_location l).
Proof.
  induction 1 as [|r l Hl IH Hr]; simpl; constructor; [exact IH|].
  apply Forall_forall. intros p Hp. apply list_elem_of_In, in_map_iff in Hp.
  destruct Hp as (r' & <- & Hin). apply location_le_row_le.
  rewrite Forall_forall in Hr. apply Hr, list_elem_of_In, Hin.
Qed.

(** X6. [all_products] returns every row of the table exactly once, as a
    [ProductLocation], ordered by aisle and then by product name, both
    compared as text. *)
Theorem all_products_sorted_permutation (t : table) :
  Permutation (all_products t) (map to_location t) /\
  StronglySorted location_le (all_products t) /\
  length (all_products t) = length t.
Proof.
  unfold all_products, select_ordered.
  pose proof (merge_sort_Permutation row_le t) as Hperm.
  split; [apply Permutation_map, Hperm|].
  split; [apply StronglySorted_map_to_location, StronglySorted_merge_sort; apply _|].
  rewrite length_map. apply Permutation_length, Hperm.
Qed.

End Order.

Section SeedingMore.

Import database.

Variable float_of_string : string -> option Q.

Lemma seed_row_spec (record : CsvRecord) :
  match seed_row float_of_string record with
  | Ok r => seeds float_of_string record r
  | Raise e => e = ValueError "could not convert string to float" /\
               float_of_string (csv_price record) = None
  end.
Proof.
  unfold seed_row, seeds.
  destruct (float_of_string (csv_price record)) as [x|]; simpl.
  - exists x. split; reflexivity.
  - split; reflexivity.
Qed.

Lemma seed_rows_spec (reader : list CsvRecord) (acc : list Row) :
  match seed_rows float_of_string reader acc with
  | Ok rows => exists new, rows = acc ++ new /\
               Forall2 (seeds float_of_string) reader new
  | Raise e => e = ValueError "could not convert string to float" /\
               Exists (fun record => float_of_string (csv_price record) = None)
                 reader
  end.
Proof.
  revert acc. induction reader as [|record reader IH]; intros acc; simpl.
  - exists []. rewrite app_nil_r. split; [reflexivity | constructor].
  - pose proof (seed_row_spec record) as Hrow.
    destruct (seed_row float_of_string record) as [r|e]; simpl.
    + specialize (IH (acc ++ [r])).
      destruct (seed_rows float_of_string reader (acc ++ [r])) as [rows|e].
      * destruct IH as (new & -> & Hall). exists (r :: new).
        rewrite <- app_assoc. split; [reflexivity|]. constructor; assumption.
      * destruct IH as [-> Hex]. split; [reflexivity|]. now right.
    + destruct Hrow as [-> Hnone]. split; [reflexivity|]. now left.
Qed.

Lemma seeds_name (record : CsvRecord) (r : Row) :
  seeds float_of_string record r ->
  row_product_name r = Str.lower (Str.strip (csv_product_name record)).
Proof. intros (x & _ & ->). reflexivity. Qed.

End SeedingMore.

Section TableFacts.

Import database.

Lemma executemany_snoc (rows : list Row) (r : Row) (t : table) :
  executemany (rows ++ [r]) t = insert_or_replace (executemany rows t) r.
Proof. unfold executemany. rewrite fold_left_app. reflexivity. Qed.

(** The rows that [executemany] leaves: of the new rows, each one that no
    later row replaces; of the old rows, those whose key is not inserted. *)
Lemma executemany_In (rows : list Row) (t : table) (r : Row) :
  In r (executemany rows t) <->
  (exists l1 l2, rows = l1 ++ r :: l2 /\
     forall r', In r' l2 -> row_product_name r' <> row_product_name r) \/
  (In r t /\ forall r', In r' rows -> row_product_name r' <> row_product_name r).
Proof.
  induction rows as [|x rows IH] using rev_ind.
  - simpl. split.
    + intros H. right. split; [exact H | intros r' []].
    + intros [(l1 & l2 & H & _) | [H _]]; [|exact H].
      destruct l1; discriminate.
  - rewrite executemany_snoc, insert_or_replace_In, IH. split.
    + intros [-> | [[(l1 & l2 & -> & Hl2) | [Hin Hrows]] Hne]].
      * left. exists rows, []. split; [reflexivity | intros r' []].
      * left. exists l1, (l2 ++ [x]). split; [rewrite <- app_assoc; reflexivity|].
        intros r' Hr'. apply in_app_iff in Hr'.
        destruct Hr' as [Hr' | [<- | []]]; [auto | congruence].
      * right. split; [exact Hin|]. intros r' Hr'. apply in_app_iff in Hr'.
        destruct Hr' as [Hr' | [<- | []]]; [auto | congruence].
    + intros [(l1 & l2 & Heq & Hl2) | [Hin Hrows]].
      * destruct l2 as [|y l2 _] using rev_ind.
        -- apply app_inj_tail in Heq. destruct Heq as [_ ->]. now left.
        -- rewrite app_comm_cons, app_assoc in Heq.
           apply app_inj_tail in Heq. destruct Heq as [-> ->].
           right. split.
           ++ left. exists l1, l2. split; [reflexivity|].
              intros r' Hr'. apply Hl2, in_app_iff. now left.
           ++ intros E. apply (Hl2 y); [apply in_app_iff; right; now left|].
              congruence.
      * right. split.
        -- right. split; [exact Hin|]. intros r' Hr'.
           apply Hrows, in_app_iff. now left.
        -- intros E. apply (Hrows x); [apply in_app_iff; right; now left|].
           congruence.
Qed.

Lemma executemany_length (rows : list Row) (t : table) :
  (length (executemany rows t) <= length rows + length t)%nat.
Proof.
  induction rows as [|x rows IH] using rev_ind; [simpl; lia|].
  rewrite executemany_snoc, length_app. unfold insert_or_replace.
  rewrite length_app. simpl.
  pose proof (filter_length_le
                (fun r' => negb (name_is (row_product_name x) r'))
                (executemany rows t)).
  lia.
Qed.

Lemma lookup_row (t : table) (r : Row) :
  primary_key t -> In r t ->
  Str.lower (Str.strip (row_product_name r)) = row_product_name r ->
  lookup t (row_product_name r) = Some (to_location r).
Proof.
  intros Hpk Hin Hnorm. unfold lookup. rewrite Hnorm.
  pose proof (select_at_most_one (row_product_name r) t Hpk) as Hone.
  assert (In r (select_by_name (row_product_name r) t)) as Hsel
    by (apply select_by_name_In; tauto).
  destruct (select_by_name (row_product_name r) t) as [|r1 [|r2 rest]];
    simpl in *; [tauto | | lia].
  destruct Hsel as [-> | []]. reflexivity.
Qed.

Lemma lookup_In (t : table) (n : string) (p : schemas.ProductLocation) :
  lookup t n = Some p -> exists r, In r t /\ p = to_location r.
Proof.
  unfold lookup.
  destruct (fetchone (select_by_name (Str.lower (Str.strip n)) t)) as [r|] eqn:E;
    [|discriminate].
  intros [= <-]. exists r. split; [|reflexivity].
  apply fetchone_In, select_by_name_In in E. tauto.
Qed.

End TableFacts.

Section Forall2Facts.

Context {A B : Type} (P : A -> B -> Prop).

Lemma Forall2_In_r (l1 : list A) (l2 : list B) (y : B) :
  Forall2 P l1 l2 -> In y l2 -> exists x, In x l1 /\ P x y.
Proof.
  induction 1 as [|x y' l1 l2 Hxy _ IH]; simpl; [intros []|].
  intros [<- | Hin]; [exists x; auto|].
  destruct (IH Hin) as (x' & Hx' & Hp). exists x'. auto.
Qed.

Lemma Forall2_In_l (l1 : list A) (l2 : list B) (x : A) :
  Forall2 P l1 l2 -> In x l1 -> exists y, In y l2 /\ P x y.
Proof.
  induction 1 as [|x' y l1 l2 Hxy _ IH]; simpl; [intros []|].
  intros [<- | Hin]; [exists y; auto|].
  destruct (IH Hin) as (y' & Hy' & Hp). exists y'. auto.
Qed.

Lemma Forall2_split_l (before after : list A) (x : A) (l2 : list B) :
  Forall2 P (before ++ x :: after) l2 ->
  exists lb y la,
    l2 = lb ++ y :: la /\ Forall2 P before lb /\ P x y /\ Forall2 P after la.
Proof.
  revert l2. induction before as [|b before IH]; simpl; intros l2 H.
  - inversion H as [|? y ? la Hxy Hall]; subst.
    exists [], y, la. repeat split; [constructor | assumption..].
  - inversion H as [|? y0 ? l2' Hb Hall]; subst.
    destruct (IH _ Hall) as (lb & y & la & -> & Hlb & Hxy & Hla).
    exists (y0 :: lb), y, la. repeat split; [constructor|..]; assumption.
Qed.

End Forall2Facts.

Section SeedingTheorems.

Import database.

Variable float_of_string : string -> option Q.

Lemma seeded_rows (reader : list CsvRecord) (t : table) :
  _ensure_schema_and_seed float_of_string (Some reader) [] = Ok t ->
  exists rows, Forall2 (seeds float_of_string) reader rows /\
               t = executemany rows [].
Proof.
  unfold _ensure_schema_and_seed. simpl.
  pose proof (seed_rows_spec float_of_string reader []) as Hrows.
  destruct (seed_rows float_of_string reader []) as [rows|e]; simpl;
    [|discriminate].
  destruct Hrows as (new & -> & Hall). simpl.
  destruct new as [|r new]; intros [= <-].
  - exists []. split; [exact Hall | reflexivity].
  - exists (r :: new). split; [exact Hall | reflexivity].
Qed.

Lemma executemany_from_rows (rows : list Row) (r : Row) :
  In r (executemany rows []) -> In r rows.
Proof.
  intros Hr. apply executemany_In in Hr.
  destruct Hr as [(l1 & l2 & -> & _) | [[] _]].
  apply in_app_iff. right. now left.
Qed.

Lemma seeded_normalized (reader : list CsvRecord) (t : table) :
  _ensure_schema_and_seed float_of_string (Some reader) [] = Ok t ->
  normalized t.
Proof.
  intros Hseed. destruct (seeded_rows reader t Hseed) as (rows & Hall & ->).
  unfold normalized. apply Forall_forall. intros r Hr.
  apply list_elem_of_In, executemany_from_rows in Hr.
  destruct (Forall2_In_r _ _ _ _ Hall Hr) as (record & _ & Hrec).
  rewrite (seeds_name _ _ _ Hrec). apply normalize_idem.
Qed.

(** X7. On a table under the primary key whose names are stripped and
    lowercased, [all_products] and [lookup] agree: a record is listed
    exactly when looking its product name up returns it. *)
Theorem all_products_lookup (t : table) (p : schemas.ProductLocation) :
  primary_key t -> normalized t ->
  (In p (all_products t) <-> lookup t (schemas.product_name p) = Some p).
Proof.
  intros Hpk Hnorm. unfold all_products. rewrite in_map_iff. split.
  - intros (r & <- & Hin). apply (proj1 (select_ordered_In t r)) in Hin.
    apply (lookup_row t r Hpk Hin).
    unfold normalized in Hnorm. rewrite Forall_forall in Hnorm.
    apply Hnorm, list_elem_of_In, Hin.
  - intros Hl. destruct (lookup_In _ _ _ Hl) as (r & Hin & ->).
    exists r. split; [reflexivity | apply select_ordered_In, Hin].
Qed.

(** X8. When several records of the CSV file have the same stripped and
    lowercased name, the last one wins: after seeding, looking the name up
    returns the category, aisle, section, price and stock status of the
    last record with that name. *)
Theorem seeding_last_record_wins
    (before after : list CsvRecord) (record : CsvRecord) (t : table) :
  _ensure_schema_and_seed float_of_string
    (Some (before ++ record :: after)) [] = Ok t ->
  (forall later, In later after ->
     Str.lower (Str.strip (csv_product_name later)) <>
     Str.lower (Str.strip (csv_product_name record))) ->
  exists x,
    float_of_string (csv_price record) = Some x /\
    lookup t (csv_product_name record) =
    Some (to_location (row_of_record record x)).
Proof.
  intros Hseed Hlast.
  pose proof (seeded_table _ _ _ Hseed) as [Hpk _].
  destruct (seeded_rows _ _ Hseed) as (rows & Hall & ->).
  destruct (Forall2_split_l _ _ _ _ _ Hall)
    as (lb & r & la & -> & _ & (x & Hx & ->) & Hla).
  exists x. split; [exact Hx|].
  assert (In (row_of_record record x)
            (executemany (lb ++ row_of_record record x :: la) [])) as Hin.
  { apply executemany_In. left. exists lb, la. split; [reflexivity|].
    intros r' Hr'. destruct (Forall2_In_r _ _ _ _ Hla Hr') as (later & Hl & Hs).
    rewrite (seeds_name _ _ _ Hs). simpl. apply Hlast, Hl. }
  pose proof (lookup_row _ _ Hpk Hin (normalize_idem _)) as Hlookup.
  simpl in Hlookup. unfold lookup in *. rewrite normalize_idem in Hlookup.
  exact Hlookup.
Qed.

(** X9. Seeding an empty table stores the products of the CSV file and
    nothing else: the names of the table are the stripped and lowercased
    names of the records, and the table has at most one row per record. *)
Theorem seeding_adds_only_csv_products (reader : list CsvRecord) (t : table) :
  _ensure_schema_and_seed float_of_string (Some reader) [] = Ok t ->
  (forall n, has_name n t <->
     exists record, In record reader /\
                    Str.lower (Str.strip (csv_product_name record)) = n) /\
  (length t <= length reader)%nat.
Proof.
  intros Hseed.
  destruct (seeded_rows _ _ Hseed) as (rows & Hall & ->). split.
  - intros n. split.
    + intros (r & Hin & Hn). apply executemany_from_rows in Hin.
      destruct (Forall2_In_r _ _ _ _ Hall Hin) as (record & Hrec & Hs).
      exists record. split; [exact Hrec|]. rewrite <- Hn. symmetry.
      apply (seeds_name _ _ _ Hs).
    + intros (record & Hrec & Hn). apply has_name_executemany. left.
      destruct (Forall2_In_l _ _ _ _ Hall Hrec) as (r & Hin & Hs).
      exists r. split; [exact Hin|]. rewrite <- Hn. apply (seeds_name _ _ _ Hs).
  - pose proof (executemany_length rows []) as Hlen.
    rewrite (Forall2_length _ _ _ Hall). simpl in Hlen. lia.
Qed.

(** X11. A price that [float] refuses, in whatever record of the CSV
    file, makes the seeding of an empty table raise. *)
Theorem seeding_raises_on_bad_price (reader : list CsvRecord) :
  Exists (fun record => float_of_string (csv_price record) = None) reader ->
  raises (_ensure_schema_and_seed float_of_string (Some reader) []).
Proof.
  intros Hbad. unfold _ensure_schema_and_seed. simpl.
  pose proof (seed_rows_spec float_of_string reader []) as Hrows.
  destruct (seed_rows float_of_string reader []) as [rows|e]; simpl.
  - exfalso. destruct Hrows as (new & _ & Hall). clear -Hall Hbad.
    induction Hall as [|record r ? ? (x & Hx & _) _ IH].
    + inversion Hbad.
    + apply Exists_cons in Hbad. destruct Hbad as [H|H]; [congruence|].
      apply IH, H.
  - exists e. reflexivity.
Qed.

End SeedingTheorems.

Section Reseeding.

Import database.

(** X10. Seeding is done once: running [_ensure_schema_and_seed] again on
    the table it produced changes nothing, and a table that has a row is
    never seeded again, whatever the CSV file contains by then. *)
Theorem seeding_happens_once
    (float_of_string : string -> option Q) (csv : option (list CsvRecord))
    (t seeded : table) :
  _ensure_schema_and_seed float_of_string csv t = Ok seeded ->
  _ensure_schema_and_seed float_of_string csv seeded = Ok seeded /\
  (seeded <> [] ->
   forall float_of_string' csv',
     _ensure_schema_and_seed float_of_string' csv' seeded = Ok seeded).
Proof.
  intros Hseed.
  assert (forall f c, seeded <> [] ->
            _ensure_schema_and_seed f c seeded = Ok seeded) as Hskip.
  { intros f c Hne. unfold _ensure_schema_and_seed.
    destruct c as [reader|]; [|reflexivity].
    destruct seeded; [contradiction | reflexivity]. }
  split; [|intros Hne f c; apply Hskip, Hne].
  destruct seeded as [|r seeded]; [|apply Hskip; discriminate].
  revert Hseed. unfold _ensure_schema_and_seed.
  destruct csv as [reader|]; [|intros [= ->]; reflexivity].
  destruct t as [|r t]; simpl; [|discriminate].
  destruct (seed_rows float_of_string reader []) as [[|r rows]|e]; simpl;
    [reflexivity | | discriminate].
  intros [= H]. exfalso.
  assert (has_name (row_product_name r) (executemany (r :: rows) [])) as Hn.
  { apply has_name_executemany. left. exists r. split; [now left|reflexivity]. }
  assert (executemany (r :: rows) [] = []) as E by exact H.
  rewrite E in Hn. destruct Hn as (? & [] & _).
Qed.

End Reseeding.

(** ** The log and the prediction endpoints *)

Section LogMore.

Import routes.


End LogMore.

Section PredictMore.

Import routes.

Variable PIL_open : list Byte.byte -> option vision.Image.
Variable db : database.table.

Lemma predict_api_cases (file : UploadFile) (fs : FileSystem) :
  (vision.not_an_image (content_type file) = true /\
   predict_api PIL_open db file fs =
   (HTTPException 400 "Please upload an image file.", fs)) \/
  (vision.not_an_image (content_type file) = false /\
   PIL_open (file_bytes file) = None /\
   predict_api PIL_open db file fs =
   (HTTPException 400 "Could not open image", fs)) \/
  (vision.not_an_image (content_type file) = false /\
   (exists image, PIL_open (file_bytes file) = Some image) /\
   let result := result_of "banana" 0.95%Q (database.lookup db "banana") in
   predict_api PIL_open db file fs =
   (Reply result, snd (_log_request result fs))).
Proof.
  destruct (vision.not_an_image (content_type file)) eqn:Hct.
  - left. split; [reflexivity|]. apply predict_rejects, Hct.
  - right. destruct (PIL_open (file_bytes file)) as [image|] eqn:Himg.
    + right. split; [reflexivity|]. split; [eauto|].
      apply (predict_api_accepts PIL_open db file image fs Hct Himg).
    + left. split; [reflexivity|]. split; [reflexivity|].
      apply predict_rejects; assumption.
Qed.

(** X14. A payload that the handler of [/api/predict] returns has one of
    two shapes: found, with a location and a meta and no message; or not
    found, with the message "No location info found for '<label>'." and
    neither location nor meta. *)
Theorem predict_payload_shape (file : UploadFile) (fs : FileSystem) :
  match fst (predict_api PIL_open db file fs) with
  | Reply result =>
      (found_in_database result = true /\ message result = None /\
       is_Some (location result) /\ is_Some (meta result)) \/
      (found_in_database result = false /\
       message result =
       Some ("No location info found for '" +:+ predicted_label result +:+ "'.") /\
       location result = None /\ meta result = None)
  | HTTPException _ _ => True
  end.
Proof.
  destruct (predict_api_cases file fs) as [[_ ->] | [(_ & _ & ->) | (_ & _ & H)]];
    simpl; [exact I..|].
  cbv zeta in H. rewrite H. simpl.
  destruct (database.lookup db "banana") as [p|]; simpl.
  - left. repeat split; eauto.
  - right. repeat split.
Qed.

(** X15. [/predict] and [/api/predict] refuse a request whose content type
    is not an image type with 400 "Please upload an image file." whatever
    the bytes are, and next a request whose bytes do not decode with 400
    "Could not open image"; a refused request leaves the log as it was. *)
Theorem predict_refusals (file : UploadFile) (fs : FileSystem) :
  (vision.not_an_image (content_type file) = true ->
   predict_api PIL_open db file fs =
   (HTTPException 400 "Please upload an image file.", fs) /\
   predict_html PIL_open db file fs =
   (HTTPException 400 "Please upload an image file.", fs)) /\
  (vision.not_an_image (content_type file) = false ->
   PIL_open (file_bytes file) = None ->
   predict_api PIL_open db file fs =
   (HTTPException 400 "Could not open image", fs) /\
   predict_html PIL_open db file fs =
   (HTTPException 400 "Could not open image", fs)).
Proof.
  split.
  - intros Hct. rewrite predict_html_refines.
    rewrite (proj1 (predict_rejects PIL_open db file fs) Hct). split; reflexivity.
  - intros Hct Himg. rewrite predict_html_refines.
    rewrite (proj2 (predict_rejects PIL_open db file fs) Hct Himg).
    split; reflexivity.
Qed.

(** X13. An accepted prediction whose label is not in the table leaves no
    line in the request log; one whose label is in the table appends, when
    no system call fails, the line with the label, the confidence and the
    aisle and section of the record. *)
Theorem predict_log_line (file : UploadFile) (image : vision.Image)
    (fs : FileSystem) :
  vision.not_an_image (content_type file) = false ->
  PIL_open (file_bytes file) = Some image ->
  let fs' := snd (predict_api PIL_open db file fs) in
  match database.lookup db "banana" with
  | None => log_lines fs' = log_lines fs
  | Some p =>
      mkdir_fails fs = false -> open_fails fs = false ->
      write_fails fs = false ->
      log_lines fs' =
      log_lines fs ++
      [mkLogLine (now fs) "banana" 0.95%Q true (schemas.aisle p)
         (schemas.section p)]
  end.
Proof.
  intros Hct Himg fs'. subst fs'.
  rewrite (predict_api_accepts PIL_open db file image fs Hct Himg). simpl.
  destruct (database.lookup db "banana") as [p|]; simpl.
  - intros Hm Ho Hw. unfold log_lines.
    rewrite (log_request_appends _ (mkLocation (schemas.aisle p) (schemas.section p)))
      by (try reflexivity; assumption).
    reflexivity.
  - unfold _log_request, se_try_pass, se_bind, mkdir_parent, open_append,
      datetime_now, location_get, se_raise, log_lines. simpl.
    destruct (mkdir_fails fs); simpl; [reflexivity|].
    destruct (open_fails fs); reflexivity.
Qed.

End PredictMore.

Section BasicMore.

Import routes.

Context {ImageFile : Type}.
Variable Image_open : list Byte.byte -> option ImageFile.
Variable top_classes : ImageFile -> nat -> exc (list (string * Q)).

(** X5. [/products/basic] answers 400 "Please upload an image file." for a
    content type that is not an image type and 400 "Could not read image."
    for bytes that [Image.open] refuses.  For a file that opens, the
    classifier decides: when it returns its classes, the response has no
    location, the coarse label as name, the probability of the best class
    as confidence and the message "Detected banana.", "Detected apple." or
    "No banana or apple detected." accordingly; when it raises, as it does
    for a file whose data do not decode, or returns no class, the status
    is 500. *)
Theorem classify_basic_product_spec (file : UploadFile) :
  match classify_basic_product Image_open top_classes file with
  | Reply response =>
      schemas.location response = None /\
      exists image class others,
        vision.not_an_image (content_type file) = false /\
        Image_open (file_bytes file) = Some image /\
        top_classes image 5 =
        Ok ((class, schemas.confidence (schemas.detected_product response))
              :: others) /\
        schemas.name (schemas.detected_product response) =
        schemas._map_label (class :: map fst others) /\
        ((schemas.name (schemas.detected_product response) = "banana" /\
          schemas.message response = "Detected banana.") \/
         (schemas.name (schemas.detected_product response) = "apple" /\
          schemas.message response = "Detected apple.") \/
         (schemas.name (schemas.detected_product response) = "neither" /\
          schemas.message response = "No banana or apple detected."))
  | HTTPException status_code detail =>
      (status_code = 400 /\ detail = "Please upload an image file." /\
       vision.not_an_image (content_type file) = true) \/
      (status_code = 400 /\ detail = "Could not read image." /\
       vision.not_an_image (content_type file) = false /\
       Image_open (file_bytes file) = None) \/
      (status_code = 500 /\
       vision.not_an_image (content_type file) = false /\
       exists image,
         Image_open (file_bytes file) = Some image /\
         (top_classes image 5 = Ok [] \/
          exists e, top_classes image 5 = Raise e))
  end.
Proof.
  unfold classify_basic_product.
  destruct (vision.not_an_image (content_type file)); [left; auto|].
  destruct (Image_open (file_bytes file)) as [image|]; [|right; left; auto].
  unfold schemas.predict.
  destruct (top_classes image 5) as [[|[class p] others]|e] eqn:E;
    cbn [exc_bind map fst snd].
  - right. right. split; [reflexivity|]. split; [reflexivity|].
    exists image. auto.
  - split; [reflexivity|]. exists image, class, others.
    split; [reflexivity|]. split; [reflexivity|]. split; [exact E|].
    split; [reflexivity|]. cbn [schemas.name schemas.detected_product].
    destruct (map_label_cases (class :: map fst others)) as [H | [H | H]];
      rewrite H; simpl; auto.
  - right. right. split; [reflexivity|]. split; [reflexivity|].
    exists image. split; [reflexivity|]. right. exists e. exact E.
Qed.

End BasicMore.

(** ** The simulated detections *)

Section DetectionsMore.

Import vision random.

Lemma unique_labels_first_three (base_label : string) :
  exists more,
    dedup_loop [base_label; "banana"; "apple"; "cereal"; "milk"] ∅ [] =
    base_label :: other_labels base_label ++ more.
Proof.
  unfold other_labels.
  destruct (String.eqb_spec base_label "banana") as [->|Hb];
    [eexists; vm_compute; reflexivity|].
  destruct (String.eqb_spec base_label "apple") as [->|Ha];
    [eexists; vm_compute; reflexivity|].
  cbn [dedup_loop app].
  destruct (decide (base_label ∈ (∅ : gset string))) as [H|_];
    [set_unfold in H; tauto|].
  destruct (decide ("banana" ∈ ({[base_label]} ∪ ∅ : gset string)))
    as [H|_]; [set_unfold in H; intuition congruence|].
  destruct (decide ("apple" ∈ ({["banana"]} ∪ ({[base_label]} ∪ ∅) : gset string)))
    as [H|_]; [set_unfold in H; intuition congruence|].
  repeat case_decide; eexists; reflexivity.
Qed.

Lemma detection_step_drawn (width height : Z) (unique_labels : list string)
    (i : nat) (lbl : string) (g : rng) :
  19 <= width -> 19 <= height ->
  unique_labels !! i = Some lbl ->
  exists d g',
    detection_step width height unique_labels i g = Ok (d, g') /\
    label d = lbl /\ drawn_detection width height d.
Proof.
  intros Hw Hh Hl. unfold detection_step. rewrite Hl.
  rewrite !max_half, !max_fifteen. unfold random.bind.
  destruct (uniform_spec g) as (u & -> & Hu).
  destruct (randint_spec 0 (Z.max 0 (width / 2)) (rest g)) as (x1 & -> & Hx1);
    [lia|].
  destruct (randint_spec 0 (Z.max 0 (height / 2)) (rest (rest g)))
    as (y1 & -> & Hy1); [lia|].
  destruct (randint_spec (x1 + Z.max 10 (3 * width / 20)) width
              (rest (rest (rest g)))) as (x2 & -> & Hx2);
    [Z.to_euclidean_division_equations; lia|].
  destruct (randint_spec (y1 + Z.max 10 (3 * height / 20)) height
              (rest (rest (rest (rest g))))) as (y2 & -> & Hy2);
    [Z.to_euclidean_division_equations; lia|].
  eexists _, _. split; [reflexivity|]. split; [reflexivity|].
  exists (round_half_even (u * 100)), x1, y1, x2, y2.
  split; [reflexivity|]. split.
  - apply round_half_even_bounds.
    change (inject_Z 55) with 55%Q. change (inject_Z 97) with 97%Q. lra.
  - split; [reflexivity|].
    assert (0 <= width / 2) by (Z.to_euclidean_division_equations; lia).
    assert (0 <= height / 2) by (Z.to_euclidean_division_equations; lia).
    lia.
Qed.

Lemma detection_loop_drawn (width height : Z) (unique_labels : list string)
    (range : list nat) (detections : list Detection) (g : rng) :
  19 <= width -> 19 <= height ->
  Forall (fun i => is_Some (unique_labels !! i)) range ->
  exists ds g',
    detection_loop width height unique_labels range detections g =
    Ok (detections ++ ds, g') /\
    Forall2 (fun i d => unique_labels !! i = Some (label d) /\
                        drawn_detection width height d) range ds.
Proof.
  intros Hw Hh. revert detections g.
  induction range as [|i range IH]; intros detections g Hr.
  - exists [], g. rewrite app_nil_r. split; [reflexivity | constructor].
  - apply Forall_cons in Hr. destruct Hr as [[lbl Hi] Hr].
    destruct (detection_step_drawn width height unique_labels i lbl g Hw Hh Hi)
      as (d & g1 & Hstep & Hlbl & Hd).
    destruct (IH (detections ++ [d]) g1 Hr) as (ds & g' & Hloop & Hall).
    exists (d :: ds), g'. split.
    + cbn [detection_loop]. unfold random.bind. rewrite Hstep, Hloop.
      rewrite <- app_assoc. reflexivity.
    + constructor; [|exact Hall]. subst lbl. split; assumption.
Qed.

Lemma drawn_valid (width height : Z) (d : Detection) :
  19 <= width -> 19 <= height ->
  drawn_detection width height d -> valid_detection width height d.
Proof.
  intros Hw Hh (k & x1 & y1 & x2 & y2 & Hc & Hk & Hb & Hx1 & Hx2 & Hy1 & Hy2).
  split.
  - rewrite Hc. unfold Qle. simpl. lia.
  - exists x1, y1, x2, y2. split; [exact Hb|]. lia.
Qed.

Lemma fake_multi_detections_drawn (image : Image)
    (base_label : string) (g : rng) :
  19 <= width image -> 19 <= height image ->
  exists detections g',
    fake_multi_detections image base_label g = Ok (detections, g') /\
    map label detections = base_label :: other_labels base_label /\
    List.NoDup (map label detections) /\
    Forall (drawn_detection (width image) (height image)) detections.
Proof.
  intros Hw Hh. unfold fake_multi_detections.
  destruct (unique_labels_first_three base_label) as (more & Hlabels).
  rewrite Hlabels.
  assert (exists l2 l3, other_labels base_label = [l2; l3] /\
                        base_label <> l2 /\ base_label <> l3 /\ l2 <> l3)
    as (l2 & l3 & Hother & H12 & H13 & H23).
  { unfold other_labels.
    destruct (String.eqb_spec base_label "banana") as [->|Hb];
      [eexists _, _; repeat split; discriminate|].
    destruct (String.eqb_spec base_label "apple") as [->|Ha];
      [eexists _, _; repeat split; discriminate|].
    eexists _, _; repeat split; congruence || discriminate. }
  rewrite Hother. cbn [app length Nat.min seq].
  destruct (detection_loop_drawn (width image) (height image)
              (base_label :: l2 :: l3 :: more) [0; 1; 2]%nat [] g Hw Hh)
    as (ds & g' & Hloop & Hall).
  { repeat constructor; eexists; reflexivity. }
  rewrite Hloop.
  inversion Hall as [|? d1 ? ds1 [H1 V1] Hall1]; subst.
  inversion Hall1 as [|? d2 ? ds2 [H2 V2] Hall2]; subst.
  inversion Hall2 as [|? d3 ? ds3 [H3 V3] Hall3]; subst.
  inversion Hall3; subst.
  simpl in H1, H2, H3. injection H1 as H1. injection H2 as H2.
  injection H3 as H3.
  exists [d1; d2; d3], g'. split; [reflexivity|].
  assert (map label [d1; d2; d3] = [base_label; l2; l3]) as Hmap
    by (simpl; congruence).
  split; [exact Hmap|]. split.
  - rewrite Hmap. repeat constructor; simpl; intuition congruence.
  - do 3 (constructor; [assumption|]). constructor.
Qed.

(** X16. On an image of at least 19 x 19 pixels the three detections carry
    the base label followed by "apple", "cereal" (base "banana"), by
    "banana", "cereal" (base "apple") or by "banana", "apple" (any other
    base): three distinct labels.  Every confidence is a whole number of
    hundredths, every box starts in the upper left quarter and spans at
    least 10 pixels and at least 15% of the image along each axis. *)
Theorem fake_multi_detections_labels_and_boxes (image : Image)
    (base_label : string) (g : rng) :
  19 <= width image -> 19 <= height image ->
  exists detections g',
    fake_multi_detections image base_label g = Ok (detections, g') /\
    map label detections = base_label :: other_labels base_label /\
    List.NoDup (map label detections) /\
    Forall (drawn_detection (width image) (height image)) detections.
Proof. apply fake_multi_detections_drawn. Qed.

End DetectionsMore.

Section CanReturn.

Import vision random.

Lemma randint_zeros (a b : Z) :
  a <= b -> randint a b zeros = Ok (a, zeros).
Proof.
  intros Hab. rewrite (randint_reaches a b a zeros); [reflexivity | lia|].
  rewrite Z.sub_diag. reflexivity.
Qed.

Lemma detection_step_zeros (width height : Z) (unique_labels : list string)
    (i : nat) (lbl : string) :
  10 <= width -> 10 <= height ->
  unique_labels !! i = Some lbl ->
  exists d, detection_step width height unique_labels i zeros = Ok (d, zeros).
Proof.
  intros Hw Hh Hl. unfold detection_step. rewrite Hl.
  rewrite !max_half, !max_fifteen. unfold random.bind.
  destruct (uniform_spec zeros) as (u & Hu & _).
  change (rest zeros) with zeros in Hu. rewrite Hu.
  rewrite (randint_zeros 0 (Z.max 0 (width / 2))) by lia.
  rewrite (randint_zeros 0 (Z.max 0 (height / 2))) by lia.
  rewrite (randint_zeros (0 + Z.max 10 (3 * width / 20)) width)
    by (Z.to_euclidean_division_equations; lia).
  rewrite (randint_zeros (0 + Z.max 10 (3 * height / 20)) height)
    by (Z.to_euclidean_division_equations; lia).
  eexists. reflexivity.
Qed.

Lemma detection_loop_zeros (width height : Z) (unique_labels : list string)
    (range : list nat) (detections : list Detection) :
  10 <= width -> 10 <= height ->
  Forall (fun i => is_Some (unique_labels !! i)) range ->
  exists ds,
    detection_loop width height unique_labels range detections zeros =
    Ok (ds, zeros).
Proof.
  intros Hw Hh. revert detections.
  induction range as [|i range IH]; intros detections Hr.
  - eexists. reflexivity.
  - apply Forall_cons in Hr. destruct Hr as [[lbl Hi] Hr].
    destruct (detection_step_zeros width height unique_labels i lbl Hw Hh Hi)
      as (d & Hstep).
    destruct (IH (detections ++ [d]) Hr) as (ds & Hloop).
    exists ds. cbn [detection_loop]. unfold random.bind.
    rewrite Hstep. exact Hloop.
Qed.

(** X17. Some sequence of draws makes [fake_multi_detections] return
    exactly when the image is at least 10 pixels wide and 10 pixels high. *)
Theorem fake_multi_detections_can_return (image : Image) (base_label : string) :
  (exists g, returns (fake_multi_detections image base_label g)) <->
  10 <= width image /\ 10 <= height image.
Proof.
  split.
  - intros (g & a & Ha).
    destruct (Z.le_gt_cases 10 (width image)) as [Hw|Hw],
             (Z.le_gt_cases 10 (height image)) as [Hh|Hh];
      [split; assumption|..];
      rewrite fake_multi_detections_small in Ha by lia; discriminate.
  - intros [Hw Hh]. exists zeros. unfold fake_multi_detections.
    destruct (unique_labels_shape base_label) as (l2 & l3 & more & ->).
    cbn [length Nat.min seq].
    destruct (detection_loop_zeros (width image) (height image)
                (base_label :: l2 :: l3 :: more) [0; 1; 2]%nat [] Hw Hh)
      as (ds & Hloop).
    { repeat constructor; eexists; reflexivity. }
    eexists. exact Hloop.
Qed.

End CanReturn.

Section BadBox.

Import vision.

Variable PIL_rectangle :
  list Z -> option RGB -> option RGB -> Z -> Image -> Image * option exn.
Variable PIL_text :
  Z * Z -> string -> option RGB -> Image -> Image * option exn.

(** X23. A detection whose box is not four numbers makes [draw_detections]
    raise the [ValueError] of the unpacking, when the detections before it
    have boxes of four numbers that Pillow draws; the detections after it
    are not looked at. *)
Theorem draw_detections_bad_box (image : positive) (img : Image)
    (good : list Detection) (bad : Detection) (rest : list Detection)
    (h : gmap positive Image) :
  h !! image = Some img ->
  Forall (fun det => length (bbox det) = 4%nat /\
                     draws_box PIL_rectangle det) good ->
  length (bbox bad) <> 4%nat ->
  exists msg,
    fst (draw_detections PIL_rectangle PIL_text image (good ++ bad :: rest) h)
    = Raise (ValueError msg).
Proof.
  intros Himg Hgood Hbad. eexists.
  unfold draw_detections, se_bind, Image_copy. rewrite Himg.
  match goal with
  | |- context [draw_loop _ _ ?a _ ?s] =>
      pose proof (draw_loop_bad_box PIL_rectangle PIL_text a good bad rest s
                    Hgood Hbad) as Hloop;
      destruct (draw_loop PIL_rectangle PIL_text a (good ++ bad :: rest) s)
        as [r h2]
  end.
  simpl in Hloop. rewrite lookup_insert_eq in Hloop.
  rewrite (Hloop ltac:(eauto)). reflexivity.
Qed.

End BadBox.

(** ** The catalogue page *)

Section CatalogMore.

Import database routes.

Lemma catalog_loop_map (products : list schemas.ProductLocation)
    (rows_html : list CatalogRow) :
  catalog_loop products rows_html = rows_html ++ map catalog_row products.
Proof.
  revert rows_html. induction products as [|p products IH]; intros rows; simpl.
  - rewrite app_nil_r. reflexivity.
  - rewrite IH, <- app_assoc. reflexivity.
Qed.

Lemma StronglySorted_catalog (l : list Row) :
  StronglySorted row_le l ->
  StronglySorted catalog_le (map (fun r => catalog_row (to_location r)) l).
Proof.
  induction 1 as [|r l Hl IH Hr]; simpl; constructor; [exact IH|].
  apply Forall_forall. intros p Hp. apply list_elem_of_In, in_map_iff in Hp.
  destruct Hp as (r' & <- & Hin).
  rewrite Forall_forall in Hr. apply list_elem_of_In, Hr in Hin.
  unfold row_le, row_leb in Hin. unfold catalog_le. simpl.
  destruct (String.compare (row_aisle r) (row_aisle r'));
    [exact Hin | exact I | discriminate].
Qed.

(** X22. The catalogue page of [/products] has one row for every row of
    the table, ordered by aisle and then by product name; under the primary
    key no product name appears twice. *)
Theorem list_products_lists_the_table (db : table) :
  Permutation (list_products db)
    (map (fun r => catalog_row (to_location r)) db) /\
  StronglySorted catalog_le (list_products db) /\
  (primary_key db -> List.NoDup (map cat_product_name (list_products db))).
Proof.
  unfold list_products. rewrite catalog_loop_map. simpl.
  unfold all_products, select_ordered. rewrite !map_map.
  pose proof (merge_sort_Permutation row_le db) as Hperm.
  split; [|split].
  - apply Permutation_map, Hperm.
  - apply StronglySorted_catalog, StronglySorted_merge_sort; apply _.
  - intros Hpk. simpl. unfold primary_key in Hpk.
    apply (Permutation_NoDup (l := map row_product_name db)); [|exact Hpk].
    apply Permutation_map. symmetry. exact Hperm.
Qed.

End CatalogMore.

(** ** The detection endpoints *)

Section DetectMore.

Import vision routes.

Variable PIL_open : list Byte.byte -> option Image.
Variable top_classes : Image -> nat -> exc (list (string * Q)).
Variable PIL_rectangle :
  list Z -> option RGB -> option RGB -> Z -> Image -> Image * option exn.
Variable PIL_text :
  Z * Z -> string -> option RGB -> Image -> Image * option exn.
Variable JPEG_save : Image -> exc (list Byte.byte).

Lemma detection_rows_spec (dets : list Detection) (acc : list DetectionRow) :
  match detection_rows dets acc with
  | Ok rows => exists new, rows = acc ++ new /\ Forall2 shows new dets
  | Raise _ => Exists (fun det => length (bbox det) <> 4%nat) dets
  end.
Proof.
  revert acc. induction dets as [|det dets IH]; intros acc; simpl.
  - exists []. rewrite app_nil_r. split; [reflexivity | constructor].
  - destruct (bbox det) as [|x1 [|y1 [|x2 [|y2 [|]]]]] eqn:E;
      try (left; rewrite E; simpl; lia).
    specialize (IH (acc ++ [mkDetectionRow (label det) (vision.confidence det)
                              (x1, y1, x2, y2)])).
    destruct (detection_rows dets _) as [rows|e].
    + destruct IH as (new & -> & Hall). eexists (_ :: new).
      rewrite <- app_assoc. split; [reflexivity|].
      constructor; [|exact Hall]. repeat split. exact E.
    + right. exact IH.
Qed.

Lemma draw_detections_keeps (image : positive) (img : Image)
    (dets : list Detection) (h : gmap positive Image) :
  h !! image = Some img ->
  let out := draw_detections PIL_rectangle PIL_text image dets h in
  snd out !! image = Some img /\
  (forall annotated, fst out = Ok annotated -> is_Some (snd out !! annotated)).
Proof.
  intros Himg out. subst out.
  set (annotated := fresh (dom h)).
  assert (h !! annotated = None) as Hfresh
    by (apply not_elem_of_dom, is_fresh).
  assert (annotated <> image) as Hne by congruence.
  unfold draw_detections, se_bind, Image_copy. rewrite Himg. fold annotated.
  destruct (writes_only_draw_loop PIL_rectangle PIL_text annotated dets
              (<[annotated := img]> h)) as [Hother Hkept].
  destruct (draw_loop PIL_rectangle PIL_text annotated dets
              (<[annotated := img]> h)) as [[u|e] h'] eqn:E; simpl in *.
  - split.
    + rewrite Hother, lookup_insert_ne by congruence. exact Himg.
    + intros a [= <-]. apply Hkept. rewrite lookup_insert_eq. eauto.
  - split; [|discriminate].
    rewrite Hother, lookup_insert_ne by congruence. exact Himg.
Qed.

Lemma predict_nonempty (image : Image) (topk : nat) class p others :
  top_classes image topk = Ok ((class, p) :: others) ->
  schemas.predict top_classes image topk =
  Ok (schemas._map_label (class :: map fst others), p, (class, p) :: others).
Proof.
  intros E. unfold schemas.predict. rewrite E.
  cbn [exc_bind map fst snd combine]. rewrite combine_fst_snd. reflexivity.
Qed.

(** X18. [/detect] and [/api/detect] answer an image less than 10 pixels
    wide or high with status 500, for every state of the generator: the
    [ValueError] of [random.randint] is not handled. *)
Theorem detect_small_image (file : UploadFile) (image : Image) (g : random.rng)
    (h : gmap positive Image) :
  not_an_image (content_type file) = false ->
  PIL_open (file_bytes file) = Some image ->
  width image < 10 \/ height image < 10 ->
  detect_api PIL_open top_classes file g = internal_error /\
  fst (detect_html PIL_open top_classes PIL_rectangle PIL_text JPEG_save
         file g h) = internal_error.
Proof.
  intros Hct Himg Hsmall. unfold detect_api, detect_html.
  rewrite Hct, Himg. unfold se_bind, Image_new.
  destruct (schemas.predict top_classes image 5) as [[[base conf] top]|e];
    [|split; reflexivity].
  rewrite (fake_multi_detections_small image base g Hsmall).
  split; reflexivity.
Qed.

(** X19. [/api/detect] answers a decodable image of at least 19 x 19
    pixels, when the network returns a best class, with the coarse label and
    the probability of the best class as base prediction and with three
    detections: the first carries the base label, and every box lies inside
    the image with a confidence of [0.55, 0.97]. *)
Theorem detect_api_replies (file : UploadFile) (image : Image) (g : random.rng)
    class p others :
  not_an_image (content_type file) = false ->
  PIL_open (file_bytes file) = Some image ->
  19 <= width image -> 19 <= height image ->
  top_classes image 5 = Ok ((class, p) :: others) ->
  exists reply,
    detect_api PIL_open top_classes file g = Reply reply /\
    base_prediction_label reply =
    schemas._map_label (class :: map fst others) /\
    base_prediction_confidence reply = p /\
    map label (detections reply) =
    base_prediction_label reply :: other_labels (base_prediction_label reply) /\
    Forall (valid_detection (width image) (height image)) (detections reply).
Proof.
  intros Hct Himg Hw Hh Htop. unfold detect_api. rewrite Hct, Himg.
  rewrite (predict_nonempty image 5 class p others Htop).
  set (base := schemas._map_label (class :: map fst others)).
  destruct (fake_multi_detections_drawn image base g Hw Hh)
    as (dets & g' & -> & Hlabels & _ & Hdrawn).
  eexists. split; [reflexivity|]. simpl.
  split; [reflexivity|]. split; [reflexivity|]. split; [exact Hlabels|].
  eapply Forall_impl; [exact Hdrawn|]. intros d. apply drawn_valid.
  - exact Hw.
  - exact Hh.
Qed.

(** What [/detect] does once the detections are drawn. *)
Lemma detect_html_unfold (file : UploadFile) (decoded : Image)
    (g : random.rng) (h : gmap positive Image)
    base conf top dets g' :
  not_an_image (content_type file) = false ->
  PIL_open (file_bytes file) = Some decoded ->
  schemas.predict top_classes decoded 5 = Ok (base, conf, top) ->
  fake_multi_detections decoded base g = Ok (dets, g') ->
  let image := fresh (dom h) in
  let out := draw_detections PIL_rectangle PIL_text image dets
               (<[image := decoded]> h) in
  fst (detect_html PIL_open top_classes PIL_rectangle PIL_text JPEG_save
         file g h) =
  match fst out with
  | Raise _ => internal_error
  | Ok annotated =>
      match JPEG_save decoded with
      | Raise _ => internal_error
      | Ok original_url =>
          match snd out !! annotated with
          | None => internal_error
          | Some drawn =>
              match JPEG_save drawn with
              | Raise _ => internal_error
              | Ok annotated_url =>
                  match detection_rows dets [] with
                  | Raise _ => internal_error
                  | Ok rows =>
                      Reply (mkDetectPage base (conf * 100)%Q original_url
                               annotated_url rows)
                  end
              end
          end
      end
  end.
Proof.
  intros Hct Himg Hpred Hdets image out.
  unfold detect_html. rewrite Hct, Himg. unfold se_bind at 1, Image_new.
  fold image. rewrite Hpred, Hdets.
  destruct (draw_detections_keeps image decoded dets (<[image := decoded]> h))
    as [Hkeep _]; [apply lookup_insert_eq|].
  fold out in Hkeep. unfold se_bind. fold out.
  destruct out as [[annotated|e] h2]; simpl in *; [|reflexivity].
  unfold to_data_url at 1. rewrite Hkeep.
  destruct (JPEG_save decoded) as [original|e]; [|reflexivity].
  unfold to_data_url.
  destruct (h2 !! annotated) as [drawn|]; [|reflexivity].
  destruct (JPEG_save drawn) as [annotated_url|e]; [|reflexivity].
  destruct (detection_rows dets []) as [rows|e]; reflexivity.
Qed.

(** X20. A page of [/detect] shows what [/api/detect] returns for the same
    upload and the same state of the generator: the same base label and
    confidence and one table row for each detection, in order; the original
    image of the page is the upload as decoded, without the boxes.  A
    request that [/detect] refuses with status 400 is refused by
    [/api/detect] with the same detail. *)
Theorem detect_html_shows_detect_api (file : UploadFile) (g : random.rng)
    (h : gmap positive Image) :
  match fst (detect_html PIL_open top_classes PIL_rectangle PIL_text JPEG_save
               file g h) with
  | Reply page =>
      exists decoded reply,
        PIL_open (file_bytes file) = Some decoded /\
        detect_api PIL_open top_classes file g = Reply reply /\
        detect_base_label page = base_prediction_label reply /\
        detect_base_pct page == base_prediction_confidence reply * 100 /\
        Forall2 shows (detect_rows page) (detections reply) /\
        JPEG_save decoded = Ok (original_url page)
  | HTTPException status_code detail =>
      status_code = 400 ->
      detect_api PIL_open top_classes file g = HTTPException 400 detail
  end.
Proof.
  destruct (not_an_image (content_type file)) eqn:Hct.
  { unfold detect_html, detect_api. rewrite Hct. simpl. reflexivity. }
  destruct (PIL_open (file_bytes file)) as [decoded|] eqn:Himg.
  2: { unfold detect_html, detect_api. rewrite Hct, Himg. simpl. reflexivity. }
  destruct (schemas.predict top_classes decoded 5) as [[[base conf] top]|e]
    eqn:Hpred.
  2: { unfold detect_html. rewrite Hct, Himg. unfold se_bind, Image_new.
       rewrite Hpred. simpl. discriminate. }
  destruct (fake_multi_detections decoded base g) as [[dets g']|e] eqn:Hdets.
  2: { unfold detect_html. rewrite Hct, Himg. unfold se_bind, Image_new.
       rewrite Hpred, Hdets. simpl. discriminate. }
  rewrite (detect_html_unfold file decoded g h base conf top dets g'
             Hct Himg Hpred Hdets).
  assert (detect_api PIL_open top_classes file g =
          Reply (mkDetectReply base conf dets)) as Hapi
    by (unfold detect_api; rewrite Hct, Himg, Hpred, Hdets; reflexivity).
  destruct (fst (draw_detections _ _ _ _ _)) as [annotated|e];
    [|simpl; discriminate].
  destruct (JPEG_save decoded) as [original|e] eqn:Hjpeg;
    [|simpl; discriminate].
  destruct (_ !! annotated) as [drawn|]; [|simpl; discriminate].
  destruct (JPEG_save drawn) as [annotated_url|e]; [|simpl; discriminate].
  pose proof (detection_rows_spec dets []) as Hrows.
  destruct (detection_rows dets []) as [rows|e]; [|simpl; discriminate].
  destruct Hrows as (new & -> & Hall). simpl.
  exists decoded, (mkDetectReply base conf dets).
  split; [reflexivity|]. split; [exact Hapi|]. simpl.
  split; [reflexivity|]. split; [reflexivity|]. split; [exact Hall|exact Hjpeg].
Qed.

(** X21. [/detect] answers a decodable image of at least 19 x 19 pixels
    with a page of three table rows when the network returns a best class,
    Pillow draws the outline of the three boxes of this request and the
    JPEG encoder succeeds on its two images, the decoded upload and the
    annotated copy, also when drawing the text of a label fails. *)
Theorem detect_html_replies (file : UploadFile) (image : Image)
    (g : random.rng) (h : gmap positive Image) class p others :
  not_an_image (content_type file) = false ->
  PIL_open (file_bytes file) = Some image ->
  19 <= width image -> 19 <= height image ->
  top_classes image 5 = Ok ((class, p) :: others) ->
  let base := schemas._map_label (class :: map fst others) in
  let obj := fresh (dom h) in
  (forall dets g',
     fake_multi_detections image base g = Ok (dets, g') ->
     Forall (draws_box PIL_rectangle) dets /\
     forall annotated h' drawn,
       draw_detections PIL_rectangle PIL_text obj dets (<[obj := image]> h) =
       (Ok annotated, h') ->
       h' !! annotated = Some drawn ->
       returns (JPEG_save drawn)) ->
  returns (JPEG_save image) ->
  exists page,
    fst (detect_html PIL_open top_classes PIL_rectangle PIL_text JPEG_save
           file g h) = Reply page /\
    length (detect_rows page) = 3%nat.
Proof.
  intros Hct Himg Hw Hh Htop base obj Hrun Hjpeg.
  pose proof (predict_nonempty image 5 class p others Htop) as Hpred.
  fold base in Hpred.
  destruct (fake_multi_detections_drawn image base g Hw Hh)
    as (dets & g' & Hdets & Hlabels & _ & Hdrawn).
  destruct (Hrun dets g' Hdets) as [Hboxes Hannotated].
  rewrite (detect_html_unfold file image g h base p _ dets g'
             Hct Himg Hpred Hdets).
  fold obj.
  assert (Forall (fun det => length (bbox det) = 4%nat) dets) as Hlen.
  { eapply Forall_impl; [exact Hdrawn|].
    intros d (k & x1 & y1 & x2 & y2 & _ & _ & -> & _). reflexivity. }
  assert (Forall (fun det => length (bbox det) = 4%nat /\
                             draws_box PIL_rectangle det) dets) as Hgood.
  { apply Forall_and. split; assumption. }
  assert (exists annotated,
            fst (draw_detections PIL_rectangle PIL_text obj dets
                   (<[obj := image]> h)) = Ok annotated) as [annotated Ha].
  { unfold draw_detections, se_bind, Image_copy.
    rewrite lookup_insert_eq.
    match goal with
    | |- context [draw_loop _ _ ?a dets ?s] =>
        pose proof (draw_loop_draws PIL_rectangle PIL_text a dets s Hgood)
          as Hloop;
        destruct (draw_loop PIL_rectangle PIL_text a dets s) as [[u|e] h2]
    end.
    - eexists. reflexivity.
    - simpl in Hloop. rewrite lookup_insert_eq in Hloop.
      specialize (Hloop ltac:(eauto)). discriminate. }
  destruct (draw_detections_keeps obj image dets (<[obj := image]> h))
    as [_ Hann]; [apply lookup_insert_eq|].
  destruct (Hann annotated Ha) as [drawn Hdrawn_at].
  assert (returns (JPEG_save drawn)) as [annotated_url Hurl].
  { apply (Hannotated annotated
             (snd (draw_detections PIL_rectangle PIL_text obj dets
                     (<[obj := image]> h))) drawn); [|exact Hdrawn_at].
    rewrite <- Ha. apply surjective_pairing. }
  rewrite Ha, Hdrawn_at, Hurl.
  destruct Hjpeg as [original ->].
  pose proof (detection_rows_spec dets []) as Hrows.
  destruct (detection_rows dets []) as [rows|e].
  - destruct Hrows as (new & -> & Hall). eexists. split; [reflexivity|].
    simpl. rewrite (Forall2_length _ _ _ Hall).
    rewrite <- (length_map label), Hlabels. unfold other_labels.
    destruct (String.eqb base "banana"); [reflexivity|].
    destruct (String.eqb base "apple"); reflexivity.
  - exfalso. clear -Hrows Hlen. induction Hrows as [d l H | d l _ IH].
    + apply Forall_cons in Hlen. tauto.
    + apply Forall_cons in Hlen. tauto.
Qed.

End DetectMore.

(** ** More of the code at the sample data *)

Section MoreSamples.

Import vision database routes.

Lemma map_label_same_names_witness :
  (forall lbl,
     In lbl (map Str.lower ["Banana"; "Granny Smith"]) <->
     In lbl (map Str.lower ["granny smith"; "BANANA"; "banana"])) /\
  schemas._map_label ["Banana"; "Granny Smith"] =
  schemas._map_label ["granny smith"; "BANANA"; "banana"].
Proof.
  assert (forall lbl,
            In lbl (map Str.lower ["Banana"; "Granny Smith"]) <->
            In lbl (map Str.lower ["granny smith"; "BANANA"; "banana"])) as H
    by (intros lbl; simpl; tauto).
  split; [exact H|]. exact (map_label_same_names _ _ H).
Defined.

Lemma predict_confidence_is_top_class_witness :
  schemas.some_name_contains schemas._banana_keywords
    ["banana"; "orange"; "lemon"; "fig"] /\
  schemas.predict sample.top_classes sample.image 5 =
  Ok ("banana", 0.61%Q,
      [("Granny Smith", 0.61%Q); ("banana", 0.22%Q); ("orange", 0.08%Q);
       ("lemon", 0.05%Q); ("fig", 0.01%Q)]).
Proof.
  assert (schemas.some_name_contains schemas._banana_keywords
            ["banana"; "orange"; "lemon"; "fig"]) as H.
  { exists "banana", "banana". split; [now left|]. split; [now left|].
    exists "", "". reflexivity. }
  split; [exact H|].
  exact (predict_confidence_is_top_class sample.top_classes sample.image 5
           "Granny Smith" 0.61%Q _ eq_refl H).
Defined.

Lemma sample_products_normalized : normalized sample.products.
Proof. repeat constructor. Defined.

Lemma all_products_lookup_witness :
  primary_key sample.products /\ normalized sample.products /\
  (In (schemas.mkProductLocation "banana" "produce" "1" "A" 0.59 true)
     (all_products sample.products) <->
   lookup sample.products "banana" =
   Some (schemas.mkProductLocation "banana" "produce" "1" "A" 0.59 true)).
Proof.
  split; [exact sample_products_primary_key|].
  split; [exact sample_products_normalized|].
  exact (all_products_lookup sample.products
           (schemas.mkProductLocation "banana" "produce" "1" "A" 0.59 true)
           sample_products_primary_key sample_products_normalized).
Defined.

Lemma seeding_last_record_wins_witness :
  _ensure_schema_and_seed sample.float_of_string (Some sample.csv_twice) [] =
  Ok [mkRow "banana" "fruit" "7" "C" 0.99 0] /\
  exists x,
    sample.float_of_string "0.99" = Some x /\
    lookup [mkRow "banana" "fruit" "7" "C" 0.99 0] " BANANA " =
    Some (to_location (row_of_record sample.last_banana x)).
Proof.
  split; [reflexivity|].
  exact (seeding_last_record_wins sample.float_of_string
           [sample.first_banana] [] sample.last_banana
           [mkRow "banana" "fruit" "7" "C" 0.99 0] eq_refl
           (fun later (H : In later []) => match H with end)).
Defined.

Lemma seeding_adds_only_csv_products_witness :
  _ensure_schema_and_seed sample.float_of_string (Some sample.csv) [] =
  Ok sample.products /\
  (length sample.products <= length sample.csv)%nat.
Proof.
  split; [reflexivity|].
  exact (proj2 (seeding_adds_only_csv_products sample.float_of_string
                  sample.csv sample.products eq_refl)).
Defined.

Lemma seeding_raises_on_bad_price_witness :
  Exists (fun record => sample.float_of_string (csv_price record) = None)
    sample.csv_no_price /\
  raises (_ensure_schema_and_seed sample.float_of_string
            (Some sample.csv_no_price) []).
Proof.
  assert (Exists (fun record => sample.float_of_string (csv_price record) = None)
            sample.csv_no_price) as H by (right; left; reflexivity).
  split; [exact H|].
  exact (seeding_raises_on_bad_price sample.float_of_string
           sample.csv_no_price H).
Defined.

Lemma seeding_happens_once_witness :
  _ensure_schema_and_seed sample.float_of_string (Some sample.csv) [] =
  Ok sample.products /\
  _ensure_schema_and_seed sample.float_of_string (Some sample.csv)
    sample.products = Ok sample.products.
Proof.
  split; [reflexivity|].
  exact (proj1 (seeding_happens_once sample.float_of_string (Some sample.csv)
                  [] sample.products eq_refl)).
Defined.

Lemma predict_log_line_witness :
  not_an_image (content_type sample.upload) = false /\
  sample.PIL_open (file_bytes sample.upload) = Some sample.image /\
  log_lines (snd (predict_api sample.PIL_open sample.products sample.upload
                    sample.disk)) =
  log_lines sample.disk ++
  [mkLogLine "2024-05-01T12:00:00" "banana" 0.95 true "1" "A"].
Proof.
  split; [reflexivity|]. split; [reflexivity|].
  exact (predict_log_line sample.PIL_open sample.products sample.upload
           sample.image sample.disk eq_refl eq_refl eq_refl eq_refl eq_refl).
Defined.

Lemma fake_multi_detections_labels_and_boxes_witness :
  19 <= width sample.image /\ 19 <= height sample.image /\
  exists detections g',
    fake_multi_detections sample.image "apple" sample.rng =
    Ok (detections, g') /\
    map label detections = ["apple"; "banana"; "cereal"].
Proof.
  assert (19 <= width sample.image) as Hw by (simpl; lia).
  assert (19 <= height sample.image) as Hh by (simpl; lia).
  split; [exact Hw|]. split; [exact Hh|].
  destruct (fake_multi_detections_labels_and_boxes sample.image "apple"
              sample.rng Hw Hh) as (ds & g' & Hrun & Hlabels & _).
  exists ds, g'. split; [exact Hrun | exact Hlabels].
Defined.

Lemma detect_small_image_witness :
  not_an_image (content_type sample.upload) = false /\
  sample.open_thumbnail (file_bytes sample.upload) = Some sample.thumbnail /\
  width sample.thumbnail < 10 /\
  detect_api sample.open_thumbnail sample.top_classes sample.upload
    sample.rng = internal_error.
Proof.
  split; [reflexivity|]. split; [reflexivity|]. split; [reflexivity|].
  exact (proj1 (detect_small_image sample.open_thumbnail sample.top_classes
                  sample.PIL_rectangle sample.PIL_text sample.JPEG_save
                  sample.upload sample.thumbnail sample.rng ∅
                  eq_refl eq_refl (or_introl eq_refl))).
Defined.

Lemma detect_api_replies_witness :
  not_an_image (content_type sample.upload) = false /\
  sample.PIL_open (file_bytes sample.upload) = Some sample.image /\
  exists reply,
    detect_api sample.PIL_open sample.top_classes sample.upload sample.rng =
    Reply reply /\
    base_prediction_label reply = "banana" /\
    base_prediction_confidence reply = 0.61%Q /\
    map label (detections reply) = ["banana"; "apple"; "cereal"].
Proof.
  split; [reflexivity|]. split; [reflexivity|].
  assert (19 <= width sample.image) as Hw by (simpl; lia).
  assert (19 <= height sample.image) as Hh by (simpl; lia).
  destruct (detect_api_replies sample.PIL_open sample.top_classes
              sample.upload sample.image sample.rng "Granny Smith" 0.61%Q _
              eq_refl eq_refl Hw Hh eq_refl)
    as (reply & Hrun & Hbase & Hconf & Hlabels & _).
  exists reply. split; [exact Hrun|]. split; [exact Hbase|].
  split; [exact Hconf|]. rewrite Hlabels, Hbase. reflexivity.
Defined.

Lemma detect_html_replies_witness :
  returns (sample.JPEG_save sample.image) /\
  exists page,
    fst (detect_html sample.PIL_open sample.top_classes sample.PIL_rectangle
           sample.PIL_text sample.JPEG_save sample.upload sample.rng ∅) =
    Reply page /\
    length (detect_rows page) = 3%nat.
Proof.
  assert (returns (sample.JPEG_save sample.image)) as Hj
    by (eexists; reflexivity).
  assert (19 <= width sample.image) as Hw by (simpl; lia).
  assert (19 <= height sample.image) as Hh by (simpl; lia).
  split; [exact Hj|].
  refine (detect_html_replies sample.PIL_open sample.top_classes
            sample.PIL_rectangle sample.PIL_text sample.JPEG_save
            sample.upload sample.image sample.rng ∅ "Granny Smith" 0.61%Q _
            eq_refl eq_refl Hw Hh eq_refl _ Hj).
  intros dets g' _. split.
  - apply Forall_forall. intros det _ im. reflexivity.
  - intros annotated h' drawn _ _. eexists. reflexivity.
Defined.

Lemma draw_detections_bad_box_witness :
  draws_box sample.PIL_rectangle (mkDetection "apple" 0.88 [0; 0; 1; 1]) /\
  exists msg,
    fst (draw_detections sample.PIL_rectangle sample.PIL_text 1%positive
           sample.bad_detections {[1%positive := sample.photo]}) =
    Raise (ValueError msg).
Proof.
  assert (draws_box sample.PIL_rectangle
            (mkDetection "apple" 0.88 [0; 0; 1; 1])) as Hbox
    by (intros im; reflexivity).
  split; [exact Hbox|].
  refine (draw_detections_bad_box sample.PIL_rectangle sample.PIL_text
            1%positive sample.photo
            [mkDetection "apple" 0.88 [0; 0; 1; 1]]
            (mkDetection "banana" 0.91 [0; 0; 2])
            [mkDetection "cereal" 0.6 [1; 0; 2; 1]]
            {[1%positive := sample.photo]} eq_refl _ _).
  - constructor; [|constructor]. split; [reflexivity | exact Hbox].
  - simpl. lia.
Defined.

(** Aisles are ordered as text: aisle "10" comes before aisle "9". *)
Example all_products_text_order :
  map schemas.aisle
    (all_products [mkRow "kiwi" "produce" "9" "A" 0.5 1;
                   mkRow "lime" "produce" "10" "A" 0.4 1]) = ["10"; "9"].
Proof. reflexivity. Qed.

End MoreSamples.
